(** * Todo application: filtering, statistics, task details and task creation

    A shallow embedding of the logic of
      - [src/pages/Home.tsx]        (module [Home]),
      - its near-duplicate copy     (module [HomeVariant]),
      - [src/pages/TaskDetails.tsx] (module [TaskDetails]),
      - [src/pages/AddTask.tsx]     (module [AddTask]),
    over the data declared in [types/user.ts] (module [Types]).

    JavaScript values are modelled as the engine has them:
      - a string is its sequence of UTF-16 code units ([JSString]);
      - a number is an IEEE 754 binary64 value ([JSNumber]), array lengths
        and counts are naturals converted to binary64 where the code divides;
      - a [Date] is a time value in milliseconds since the epoch, or the
        Invalid Date ([JSDate]); local time is UTC plus a constant offset
        (no daylight-saving transition) and the range clipping of time
        values at +-8.64e15 ms is left out;
      - the parts of the dayjs library that the pages call ([Dayjs]) follow
        the library's implementation of [startOf], [endOf], [isSame],
        [isBefore], [isAfter] and the [isBetween] plug-in.
    The wall clock, the local offset and the UUID generator are explicit
    inputs ([now], [tz], [uuid]); the clock is read once per evaluation of
    a memo or of an event handler. *)

From Stdlib Require Import ZArith NArith List Bool Lia String Ascii.
From Stdlib Require Import Floats.SpecFloat.
Import ListNotations.

Local Open Scope Z_scope.

(** ** JavaScript strings *)

Module JSString.

(** One UTF-16 code unit. *)
Definition codeunit := N.

Definition t := list codeunit.

(** An ASCII literal, one code unit per character. *)
Fixpoint lit (s : string) : t :=
  match s with
  | EmptyString => []
  | String c s' => N_of_ascii c :: lit s'
  end.

(** [a === b] on strings. *)
Fixpoint eqb (a b : t) : bool :=
  match a, b with
  | [], [] => true
  | x :: a', y :: b' => N.eqb x y && eqb a' b'
  | _, _ => false
  end.

(** [s.length]. *)
Definition length (s : t) : nat := List.length s.

(** Truthiness of a string: only the empty string is falsy. *)
Definition truthy (s : t) : bool :=
  match s with [] => false | _ :: _ => true end.

(** WhiteSpace and LineTerminator code points of ECMAScript, the set that
    [String.prototype.trim] strips. *)
Definition isWhiteSpace (c : codeunit) : bool :=
  let c := Z.of_N c in
  ((9 <=? c) && (c <=? 13))
  || (c =? 32) || (c =? 160) || (c =? 5760)
  || ((8192 <=? c) && (c <=? 8202))
  || (c =? 8232) || (c =? 8233) || (c =? 8239) || (c =? 8287)
  || (c =? 12288) || (c =? 65279).

Fixpoint trimStart (s : t) : t :=
  match s with
  | [] => []
  | c :: s' => if isWhiteSpace c then trimStart s' else s
  end.

Definition trimEnd (s : t) : t := rev (trimStart (rev s)).

(** [s.trim()]. *)
Definition trim (s : t) : t := trimEnd (trimStart s).

(** [a + b]. *)
Definition concat (a b : t) : t := a ++ b.

End JSString.

Definition jsstring : Type := JSString.t.

(** ** JavaScript numbers: IEEE 754 binary64 *)

Module JSNumber.

Definition prec : Z := 53.
Definition emax : Z := 1024.

Definition t := spec_float.

(** The number denoted by an integer literal or held by an integer-valued
    property such as [length]. *)
Definition ofZ (z : Z) : t := binary_normalize prec emax z 0 false.

Definition ofNat (n : nat) : t := ofZ (Z.of_nat n).

Definition div (x y : t) : t := SFdiv prec emax x y.
Definition mul (x y : t) : t := SFmul prec emax x y.

(** [x === y] on numbers: NaN differs from everything, the two zeros are
    equal. *)
Definition strictEq (x y : t) : bool := SFeqb x y.

(** [x >= y]. *)
Definition geb (x y : t) : bool := SFleb y x.

(** [x > y]. *)
Definition gtb (x y : t) : bool := SFltb y x.

Definition isFinite (x : t) : bool :=
  match x with
  | S754_zero _ | S754_finite _ _ _ => true
  | S754_infinity _ | S754_nan => false
  end.

End JSNumber.

Definition number : Type := JSNumber.t.

(** ** Dates: time values, local time and the calendar *)

Module JSDate.

(** A [Date] object: its time value, or the Invalid Date (time value NaN). *)
Inductive t : Type :=
| TimeValue (tv : Z)
| Invalid.

Definition msPerSecond : Z := 1000.
Definition msPerMinute : Z := 60000.
Definition msPerHour : Z := 3600000.
Definition msPerDay : Z := 86400000.

Definition Day (tv : Z) : Z := tv / msPerDay.
Definition TimeWithinDay (tv : Z) : Z := tv mod msPerDay.

(** 0 is Sunday; the epoch fell on a Thursday. *)
Definition WeekDay (tv : Z) : Z := (Day tv + 4) mod 7.

Definition HourFromTime (tv : Z) : Z := (tv / msPerHour) mod 24.

Definition MakeTime (hour min sec ms : Z) : Z :=
  hour * msPerHour + min * msPerMinute + sec * msPerSecond + ms.

Definition MakeDate (day time : Z) : Z := day * msPerDay + time.

Definition DaysInYear (y : Z) : Z :=
  if negb (y mod 4 =? 0) then 365
  else if negb (y mod 100 =? 0) then 366
  else if negb (y mod 400 =? 0) then 365
  else 366.

Definition InLeapYear (y : Z) : Z := DaysInYear y - 365.

Definition DayFromYear (y : Z) : Z :=
  365 * (y - 1970) + (y - 1969) / 4 - (y - 1901) / 100 + (y - 1601) / 400.

(** Days of the year before month [m] (0 is January). *)
Definition DayWithinYearOfMonth (leap m : Z) : Z :=
  match m with
  | 0 => 0
  | 1 => 31
  | 2 => 59 + leap
  | 3 => 90 + leap
  | 4 => 120 + leap
  | 5 => 151 + leap
  | 6 => 181 + leap
  | 7 => 212 + leap
  | 8 => 243 + leap
  | 9 => 273 + leap
  | 10 => 304 + leap
  | _ => 334 + leap
  end.

Definition DaysInMonth (leap m : Z) : Z :=
  match m with
  | 1 => 28 + leap
  | 3 | 5 | 8 | 10 => 30
  | _ => 31
  end.

(** Day number of [year]-[month]-[date], [month] counted from 0. *)
Definition MakeDay (year month date : Z) : Z :=
  let ym := year + month / 12 in
  let mn := month mod 12 in
  DayFromYear ym + DayWithinYearOfMonth (InLeapYear ym) mn + date - 1.

Section LocalTime.

(** Offset of local time from UTC, in milliseconds: the offset in force at
    the instant that is converted.  Where the offset of the zone changes
    (daylight saving time), two instants on the two sides of the change
    are converted with two offsets. *)
Variable tz : Z.

Definition LocalTime (tv : Z) : Z := tv + tz.
Definition UTC (tv : Z) : Z := tv - tz.

(** [d.getHours()] of a valid date. *)
Definition getHours (tv : Z) : Z := HourFromTime (LocalTime tv).

(** [d.getDay()] of a valid date. *)
Definition getDay (tv : Z) : Z := WeekDay (LocalTime tv).

(** Time value left in [d] by [d.setHours(hour, min, sec, ms)]. *)
Definition setHours (d : t) (hour min sec ms : Z) : t :=
  match d with
  | TimeValue tv =>
      TimeValue (UTC (MakeDate (Day (LocalTime tv)) (MakeTime hour min sec ms)))
  | Invalid => Invalid
  end.

(** [new Date(y, m, d)] for the day [k] days after the local day of [tv]. *)
Definition localMidnightAfter (tv k : Z) : t :=
  TimeValue (UTC (MakeDate (Day (LocalTime tv) + k) 0)).

End LocalTime.

(** Relational operators on dates compare time values; every comparison
    with NaN is false. *)
Definition ltb (a b : t) : bool :=
  match a, b with
  | TimeValue x, TimeValue y => x <? y
  | _, _ => false
  end.

Definition leb (a b : t) : bool :=
  match a, b with
  | TimeValue x, TimeValue y => x <=? y
  | _, _ => false
  end.

(** *** The date-time string format

    The two shapes the add-task dialog builds are read: [YYYY-MM-DD], the
    value of its date field, and [YYYY-MM-DDTHH:mm:ss].  The day is taken
    from 01 to 31 whatever the month, as V8 and JavaScriptCore take it:
    [MakeDay] counts the days beyond the end of the month into the next
    one, so that 2026-02-29 is read as 1 March 2026.  A string of any
    other shape, which the date field never holds, is left to
    engine-specific parsing in ECMAScript and yields the Invalid Date
    here. *)

Definition digit (c : JSString.codeunit) : option Z :=
  let z := Z.of_N c in
  if (48 <=? z) && (z <=? 57) then Some (z - 48) else None.

Definition digits2 (a b : JSString.codeunit) : option Z :=
  match digit a, digit b with
  | Some x, Some y => Some (10 * x + y)
  | _, _ => None
  end.

Definition digits4 (a b c d : JSString.codeunit) : option Z :=
  match digits2 a b, digits2 c d with
  | Some x, Some y => Some (100 * x + y)
  | _, _ => None
  end.

Definition isChar (c : JSString.codeunit) (a : ascii) : bool :=
  N.eqb c (N_of_ascii a).

(** Year, month (from 1) and day of the date part, and what follows it. *)
Definition parseDatePart (s : jsstring)
  : option (Z * Z * Z * jsstring) :=
  match s with
  | y1 :: y2 :: y3 :: y4 :: h1 :: m1 :: m2 :: h2 :: d1 :: d2 :: rest =>
      if isChar h1 "-" && isChar h2 "-" then
        match digits4 y1 y2 y3 y4, digits2 m1 m2, digits2 d1 d2 with
        | Some y, Some m, Some d =>
            if (1 <=? m) && (m <=? 12) && (1 <=? d) && (d <=? 31)
            then Some (y, m, d, rest)
            else None
        | _, _, _ => None
        end
      else None
  | _ => None
  end.

(** Hour, minute and second of a [THH:mm:ss] suffix. *)
Definition parseTimePart (s : jsstring) : option (Z * Z * Z) :=
  match s with
  | [t0; h1; h2; c1; m1; m2; c2; s1; s2] =>
      if isChar t0 "T" && isChar c1 ":" && isChar c2 ":" then
        match digits2 h1 h2, digits2 m1 m2, digits2 s1 s2 with
        | Some h, Some m, Some sec =>
            if (h <=? 23) && (m <=? 59) && (sec <=? 59)
            then Some (h, m, sec)
            else None
        | _, _, _ => None
        end
      else None
  | _ => None
  end.

(** [new Date(s)]: a date-only string is a UTC time, a date-time string
    without offset is a local time. *)
Definition parse (tz : Z) (s : jsstring) : t :=
  match parseDatePart s with
  | Some (y, m, d, []) => TimeValue (MakeDate (MakeDay y (m - 1) d) 0)
  | Some (y, m, d, rest) =>
      match parseTimePart rest with
      | Some (h, mi, sec) =>
          TimeValue (UTC tz (MakeDate (MakeDay y (m - 1) d) (MakeTime h mi sec 0)))
      | None => Invalid
      end
  | None => Invalid
  end.

End JSDate.

(** ** The dayjs calls of the pages *)

Module Dayjs.

(** A dayjs object wraps a [Date]. *)
Definition t : Type := JSDate.t.

Inductive unitType : Type := day | week.

Section LocalTime.

Variable tz : Z.

(** [dayjs(date)]: a copy of the date. *)
Definition dayjs (d : JSDate.t) : t := d.

(** [x.startOf(u)].  A week starts on Sunday (the default locale). *)
Definition startOf (x : t) (u : unitType) : t :=
  match u with
  | day => JSDate.setHours tz x 0 0 0 0
  | week =>
      match x with
      | JSDate.TimeValue tv =>
          JSDate.localMidnightAfter tz tv (- JSDate.getDay tz tv)
      | JSDate.Invalid => JSDate.Invalid
      end
  end.

(** [x.endOf(u)]. *)
Definition endOf (x : t) (u : unitType) : t :=
  match u with
  | day => JSDate.setHours tz x 23 59 59 999
  | week =>
      match x with
      | JSDate.TimeValue tv =>
          JSDate.setHours tz
            (JSDate.localMidnightAfter tz tv (6 - JSDate.getDay tz tv))
            23 59 59 999
      | JSDate.Invalid => JSDate.Invalid
      end
  end.

(** [x.isSame(that, u)]. *)
Definition isSame (x that : t) (u : unitType) : bool :=
  JSDate.leb (startOf x u) (dayjs that) && JSDate.leb (dayjs that) (endOf x u).

(** [x.isAfter(that, u)]. *)
Definition isAfter (x that : t) (u : unitType) : bool :=
  JSDate.ltb (dayjs that) (startOf x u).

(** [x.isBefore(that, u)]. *)
Definition isBefore (x that : t) (u : unitType) : bool :=
  JSDate.ltb (endOf x u) (dayjs that).

(** [x.isBetween(a, b, u, i)] of the isBetween plug-in; [i] is the
    inclusivity string, a bracket for an included bound. *)
Definition isBetween (x a b : t) (u : unitType) (i : jsstring) : bool :=
  let dA := dayjs a in
  let dB := dayjs b in
  let dAi := match nth_error i 0 with
             | Some c => JSDate.isChar c "("
             | None => false
             end in
  let dBi := match nth_error i 1 with
             | Some c => JSDate.isChar c ")"
             | None => false
             end in
  ((if dAi then isAfter x dA u else negb (isBefore x dA u))
   && (if dBi then isBefore x dB u else negb (isAfter x dB u)))
  || ((if dAi then isBefore x dA u else negb (isAfter x dA u))
      && (if dBi then isAfter x dB u else negb (isBefore x dB u))).

End LocalTime.

End Dayjs.

(** ** The data of [types/user.ts] *)

Module Types.

Definition UUID : Type := jsstring.

Inductive TaskPriority : Type := Critical | High | Medium | Low.

(** The string a priority is at run time. *)
Definition priorityString (p : TaskPriority) : jsstring :=
  match p with
  | Critical => JSString.lit "Critical"
  | High => JSString.lit "High"
  | Medium => JSString.lit "Medium"
  | Low => JSString.lit "Low"
  end.

Record Category : Type := {
  categoryId : UUID;
  categoryName : jsstring;
  categoryColor : jsstring
}.

(** The fields of [Task] that the pages read or write; an optional field
    that is absent is [None]. *)
Record Task : Type := {
  id : UUID;
  done : bool;
  pinned : bool;
  name : jsstring;
  description : option jsstring;
  color : jsstring;
  date : JSDate.t;
  deadline : option JSDate.t;
  category : option (list Category);
  priority : option TaskPriority
}.

Record AppSettings : Type := {
  enableGlow : bool;
  showProgressBar : bool
}.

Record User : Type := {
  userName : option jsstring;
  tasks : list Task;
  settings : AppSettings
}.

End Types.

Import Types.

(** ** [src/pages/Home.tsx] *)

Module Home.

Import JSString.

Record TaskStats : Type := {
  completedTasksCount : nat;
  completedTaskPercentage : number;
  tasksWithDeadlineTodayCount : nat;
  tasksDueTodayNames : list jsstring
}.

(** The texts of [taskCompletionText], one per tier. *)
Definition textNoTasks : jsstring := lit "Add your first task to get started!".
Definition textAllDone : jsstring :=
  [0xf0; 0x178; 0x17d; 0x2030]%N ++ lit " Amazing! All tasks completed!".
Definition textAlmostThere : jsstring :=
  [0xf0; 0x178; 0x161; 0x20ac]%N ++ lit " Almost there! Just a few more to go!".
Definition textHalfway : jsstring :=
  [0xf0; 0x178; 0x2019; 0xaa]%N ++ lit " You're halfway there! Keep it up!".
Definition textGoodProgress : jsstring :=
  [0xf0; 0x178; 0x2018]%N ++ lit " You're making good progress!".
Definition textJustStarted : jsstring :=
  [0xf0; 0x178; 0x17d; 0xaf]%N
  ++ lit " You're just getting started. You've got this!".

(** The texts of [timeGreeting], one per tier. *)
Definition goodMorning : jsstring := lit "Good morning".
Definition goodAfternoon : jsstring := lit "Good afternoon".
Definition goodEvening : jsstring := lit "Good evening".
Definition goodNight : jsstring := lit "Good night".

(** The body of the [timeGreeting] memo after [currentHour] is read. *)
Definition timeGreetingAt (currentHour : Z) : jsstring :=
  if (currentHour >=? 5) && (currentHour <? 12) then goodMorning
  else if (currentHour >=? 12) && (currentHour <? 17) then goodAfternoon
  else if (currentHour >=? 17) && (currentHour <? 21) then goodEvening
  else goodNight.

(** The body of the [taskCompletionText] memo after [percentage] and
    [totalTasks] are read. *)
Definition taskCompletionTextOf (percentage : number) (totalTasks : nat)
  : jsstring :=
  if Nat.eqb totalTasks 0 then textNoTasks
  else if JSNumber.strictEq percentage (JSNumber.ofZ 100) then textAllDone
  else if JSNumber.geb percentage (JSNumber.ofZ 75) then textAlmostThere
  else if JSNumber.geb percentage (JSNumber.ofZ 50) then textHalfway
  else if JSNumber.geb percentage (JSNumber.ofZ 25) then textGoodProgress
  else textJustStarted.

Definition completedCount (tasks : list Task) : nat :=
  List.length (List.filter (fun task => done task) tasks).

Definition completedPercentage (tasks : list Task) : number :=
  if (0 <? List.length tasks)%nat
  then JSNumber.mul
         (JSNumber.div (JSNumber.ofNat (completedCount tasks))
                       (JSNumber.ofNat (List.length tasks)))
         (JSNumber.ofZ 100)
  else JSNumber.ofZ 0.

Section Render.

(** Offset of local time and the instant the clock shows during the
    render. *)
Variables tz now : Z.

Definition filteredTasks (filter : jsstring) (tasks : list Task)
    (customStart customEnd : option Dayjs.t) : list Task :=
  let today := Dayjs.startOf tz (JSDate.TimeValue now) Dayjs.day in
  let endOfWeek := Dayjs.endOf tz (JSDate.TimeValue now) Dayjs.week in
  if eqb filter (lit "Today") then
    List.filter
      (fun task =>
         match deadline task with
         | Some d => Dayjs.isSame tz (Dayjs.dayjs d) today Dayjs.day
         | None => false
         end) tasks
  else if eqb filter (lit "This Week") then
    List.filter
      (fun task =>
         match deadline task with
         | Some d =>
             Dayjs.isBetween tz (Dayjs.dayjs d) today endOfWeek
               Dayjs.day (lit "[]")
         | None => false
         end) tasks
  else if eqb filter (lit "Custom") then
    match customStart, customEnd with
    | Some customStart, Some customEnd =>
        List.filter
          (fun task =>
             match deadline task with
             | Some d =>
                 Dayjs.isBetween tz (Dayjs.dayjs d) customStart customEnd
                   Dayjs.day (lit "[]")
             | None => false
             end) tasks
    | _, _ => tasks
    end
  else tasks.

Definition dueTodayTasks (tasks : list Task) : list Task :=
  let today := Dayjs.startOf tz (JSDate.TimeValue now) Dayjs.day in
  List.filter
    (fun task =>
       match deadline task with
       | Some d =>
           Dayjs.isSame tz (Dayjs.dayjs d) today Dayjs.day
           && negb (done task)
       | None => false
       end) tasks.

Definition taskStats (tasks : list Task) : TaskStats :=
  {| completedTasksCount := completedCount tasks;
     completedTaskPercentage := completedPercentage tasks;
     tasksWithDeadlineTodayCount := List.length (dueTodayTasks tasks);
     tasksDueTodayNames := List.map (fun task => name task) (dueTodayTasks tasks) |}.

Definition timeGreeting : jsstring :=
  timeGreetingAt (JSDate.getHours tz now).

Definition taskCompletionText (tasks : list Task) : jsstring :=
  taskCompletionTextOf (completedTaskPercentage (taskStats tasks))
                       (List.length tasks).

End Render.

End Home.

(** ** The second copy of the home page kept in the repository *)

Module HomeVariant.

Import JSString.

Definition timeGreetingAt (currentHour : Z) : jsstring :=
  if (currentHour >=? 5) && (currentHour <? 12) then lit "Good morning"
  else if (currentHour >=? 12) && (currentHour <? 18) then lit "Good afternoon"
  else lit "Good evening".

Definition taskCompletionTextOf (percentage : number) : jsstring :=
  if JSNumber.strictEq percentage (JSNumber.ofZ 0)
  then lit "No tasks completed yet. Keep going!"
  else if JSNumber.strictEq percentage (JSNumber.ofZ 100)
  then lit "Congratulations! All tasks completed!"
  else if JSNumber.geb percentage (JSNumber.ofZ 75) then lit "Almost there!"
  else if JSNumber.geb percentage (JSNumber.ofZ 50)
  then lit "You're halfway there! Keep it up!"
  else if JSNumber.geb percentage (JSNumber.ofZ 25)
  then lit "You're making good progress."
  else lit "You're just getting started.".

Section Render.

Variables tz now : Z.

Definition filteredTasks (filter : jsstring) (tasks : list Task)
    (customStart customEnd : option Dayjs.t) : list Task :=
  let today := Dayjs.startOf tz (JSDate.TimeValue now) Dayjs.day in
  let endOfWeek := Dayjs.endOf tz (JSDate.TimeValue now) Dayjs.week in
  if eqb filter (lit "Today") then
    List.filter
      (fun task =>
         match deadline task with
         | Some d => Dayjs.isSame tz (Dayjs.dayjs d) today Dayjs.day
         | None => false
         end) tasks
  else if eqb filter (lit "This Week") then
    List.filter
      (fun task =>
         match deadline task with
         | Some d =>
             Dayjs.isBetween tz (Dayjs.dayjs d) today endOfWeek
               Dayjs.day (lit "[]")
         | None => false
         end) tasks
  else if eqb filter (lit "Custom") then
    match customStart, customEnd with
    | Some customStart, Some customEnd =>
        List.filter
          (fun task =>
             match deadline task with
             | Some d =>
                 Dayjs.isBetween tz (Dayjs.dayjs d) customStart customEnd
                   Dayjs.day (lit "[]")
             | None => false
             end) tasks
    | _, _ => []
    end
  else tasks.

End Render.

End HomeVariant.

(** ** [src/pages/TaskDetails.tsx] *)

Module TaskDetails.

Import JSString.

Record PriorityStyle : Type := {
  styleColor : jsstring;
  styleEmoji : jsstring;
  styleTextColor : jsstring
}.

Definition criticalStyle : PriorityStyle :=
  {| styleColor := lit "#f44336"; styleEmoji := [0xd83d; 0xdd34]%N;
     styleTextColor := lit "#fff" |}.
Definition highStyle : PriorityStyle :=
  {| styleColor := lit "#ff9800"; styleEmoji := [0xd83d; 0xdfe1]%N;
     styleTextColor := lit "#000" |}.
Definition mediumStyle : PriorityStyle :=
  {| styleColor := lit "#9c27b0"; styleEmoji := [0xd83d; 0xdfe3]%N;
     styleTextColor := lit "#fff" |}.
Definition lowStyle : PriorityStyle :=
  {| styleColor := lit "#4caf50"; styleEmoji := [0xd83d; 0xdfe2]%N;
     styleTextColor := lit "#fff" |}.

(** The object literal, as its own keys in order. *)
Definition PRIORITY_CONFIG : list (jsstring * PriorityStyle) :=
  [ (lit "Critical", criticalStyle);
    (lit "High", highStyle);
    (lit "Medium", mediumStyle);
    (lit "Low", lowStyle) ].

(** [obj[key]]: the value of the own key, [None] for [undefined]. *)
Fixpoint lookup (key : jsstring) (obj : list (jsstring * PriorityStyle))
  : option PriorityStyle :=
  match obj with
  | [] => None
  | (k, v) :: obj' => if eqb key k then Some v else lookup key obj'
  end.

(** [task.priority || "Medium"]. *)
Definition priorityOrMedium (task : Task) : jsstring :=
  match priority task with
  | Some p =>
      let s := priorityString p in
      if truthy s then s else lit "Medium"
  | None => lit "Medium"
  end.

Definition priorityConfig (task : Task) : option PriorityStyle :=
  lookup (priorityOrMedium task) PRIORITY_CONFIG.

(** The label of the priority chip; reading [emoji] of [undefined] throws,
    which is [None]. *)
Definition priorityLabel (task : Task) : option jsstring :=
  match priorityConfig task with
  | Some cfg => Some (styleEmoji cfg ++ lit " " ++ priorityOrMedium task)
  | None => None
  end.

(** Background and text colour of the priority chip. *)
Definition priorityChipColors (task : Task) : option (jsstring * jsstring) :=
  match priorityConfig task with
  | Some cfg => Some (styleColor cfg, styleTextColor cfg)
  | None => None
  end.

End TaskDetails.

(** ** [src/pages/AddTask.tsx] *)

Module AddTask.

Import JSString.

(** The state hooks of the dialog. *)
Record FormState : Type := {
  open : bool;
  name : jsstring;
  description : jsstring;
  deadline : jsstring;
  priority : TaskPriority;
  error : jsstring
}.

Definition setError (st : FormState) (e : jsstring) : FormState :=
  {| open := open st; name := name st; description := description st;
     deadline := deadline st; priority := priority st; error := e |}.

Definition handleClose (st : FormState) : FormState :=
  {| open := false; name := lit ""; description := lit "";
     deadline := lit ""; priority := Medium; error := lit "" |}.

Section Event.

(** Offset of local time, the instant of the click and the identifier
    that [crypto.randomUUID] returns. *)
Variables tz now : Z.
Variable uuid : UUID.

(** The value returned, and the form after the [setError] call if any. *)
Definition validateForm (st : FormState) : bool * FormState :=
  if negb (truthy (trim (name st))) then
    (false, setError st (lit "Task name is required"))
  else if (100 <? length (trim (name st)))%nat then
    (false, setError st (lit "Task name must be less than 100 characters"))
  else if (500 <? length (description st))%nat then
    (false, setError st (lit "Description must be less than 500 characters"))
  else if truthy (deadline st) then
    let selectedDate := JSDate.parse tz (deadline st) in
    let today := JSDate.setHours tz (JSDate.TimeValue now) 0 0 0 0 in
    if JSDate.ltb selectedDate today then
      (false, setError st (lit "Deadline cannot be in the past"))
    else (true, st)
  else (true, st).

Definition newTask (st : FormState) : Task :=
  {| Types.id := uuid;
     Types.name := trim (name st);
     Types.description :=
       (let d := trim (description st) in
        if truthy d then Some d else None);
     Types.color := lit "#1976d2";
     Types.date := JSDate.TimeValue now;
     Types.deadline :=
       (if truthy (deadline st)
        then Some (JSDate.parse tz (deadline st ++ lit "T23:59:59"))
        else None);
     Types.category := Some [];
     Types.done := false;
     Types.pinned := false;
     Types.priority := Some (priority st) |}.

(** The form and the user after the click on the add button, where
    [crypto.randomUUID] returns [uuid]: nothing else that the [try] block
    calls throws, so its [catch] branch is not taken.  The handler on a
    platform without [crypto.randomUUID] is [AddTaskTry.handleAddTask]. *)
Definition handleAddTask (st : FormState) (user : User)
  : FormState * User :=
  let st := setError st (lit "") in
  let (valid, st) := validateForm st in
  if negb valid then (st, user)
  else
    let user' :=
      {| userName := userName user;
         tasks := tasks user ++ [newTask st];
         settings := settings user |} in
    (handleClose st, user').

End Event.

End AddTask.

(** ** Calendar-day vocabulary of the specification *)

Module Calendar.

(** The local calendar day of an instant, as a day number. *)
Definition localDay (tz tv : Z) : Z := JSDate.Day (JSDate.LocalTime tz tv).

(** The calendar day a date falls on; the Invalid Date falls on none. *)
Definition dayOf (tz : Z) (d : JSDate.t) : option Z :=
  match d with
  | JSDate.TimeValue tv => Some (localDay tz tv)
  | JSDate.Invalid => None
  end.

(** The calendar day of the deadline of a task, if it has one. *)
Definition deadlineDay (tz : Z) (task : Task) : option Z :=
  match deadline task with
  | Some d => dayOf tz d
  | None => None
  end.

(** The invariant of the data model: a deadline that is present is an
    instant. *)
Definition deadlineIsInstant (task : Task) : Prop :=
  deadline task <> Some JSDate.Invalid.

(** Due today: a deadline on the calendar day of [now], and not done. *)
Definition dueToday (tz now : Z) (task : Task) : bool :=
  match deadlineDay tz task with
  | Some d => (d =? localDay tz now) && negb (done task)
  | None => false
  end.

End Calendar.

(** ** The tiers of the completion text as an ordered table *)

Module Tiers.

(** The result of the first row whose guard holds. *)
Fixpoint firstMatch {A : Type} (table : list (bool * A)) (otherwise : A) : A :=
  match table with
  | [] => otherwise
  | (guard, result) :: table' =>
      if guard then result else firstMatch table' otherwise
  end.

(** The rows in the order the specification lists them. *)
Definition completionTiers (percentage : number) (totalTasks : nat)
  : list (bool * jsstring) :=
  [ (Nat.eqb totalTasks 0, Home.textNoTasks);
    (JSNumber.strictEq percentage (JSNumber.ofZ 100), Home.textAllDone);
    (JSNumber.geb percentage (JSNumber.ofZ 75), Home.textAlmostThere);
    (JSNumber.geb percentage (JSNumber.ofZ 50), Home.textHalfway);
    (JSNumber.geb percentage (JSNumber.ofZ 25), Home.textGoodProgress) ].

(** The tier of a whole percentage of a collection that is not empty. *)
Definition tierOfPercent (k : Z) : jsstring :=
  if k =? 100 then Home.textAllDone
  else if 75 <=? k then Home.textAlmostThere
  else if 50 <=? k then Home.textHalfway
  else if 25 <=? k then Home.textGoodProgress
  else Home.textJustStarted.

End Tiers.

(** ** The validation of the add-task dialog: the rule and the test *)

Module Rules.

(** The instant at which the local day of [now] starts. *)
Definition startOfToday (tz now : Z) : Z :=
  Calendar.localDay tz now * JSDate.msPerDay - tz.

(** The rule: a form is rejected when its trimmed name is empty or longer
    than 100, its description is longer than 500, or a deadline is
    supplied and the day chosen is before today, both of them days of the
    local calendar. *)
Definition rejected (tz now : Z) (st : AddTask.FormState) : Prop :=
  JSString.trim (AddTask.name st) = []
  \/ (100 < JSString.length (JSString.trim (AddTask.name st)))%nat
  \/ (500 < JSString.length (AddTask.description st))%nat
  \/ (AddTask.deadline st <> []
      /\ exists y m d,
           JSDate.parseDatePart (AddTask.deadline st) = Some (y, m, d, [])
           /\ JSDate.MakeDay y (m - 1) d < Calendar.localDay tz now).

(** The test that [validateForm] runs: the same on the name and on the
    description; a deadline is refused when [new Date(deadline)], which
    reads a date as midnight in UTC, is an instant before the local start
    of today. *)
Definition refused (tz now : Z) (st : AddTask.FormState) : Prop :=
  JSString.trim (AddTask.name st) = []
  \/ (100 < JSString.length (JSString.trim (AddTask.name st)))%nat
  \/ (500 < JSString.length (AddTask.description st))%nat
  \/ (AddTask.deadline st <> []
      /\ exists tv,
           JSDate.parse tz (AddTask.deadline st) = JSDate.TimeValue tv
           /\ tv < startOfToday tz now).

(** The instant 23:59:59 of the day [y]-[m]-[d] in local time. *)
Definition endOfChosenDay (tz y m d : Z) : Z :=
  JSDate.UTC tz
    (JSDate.MakeDate (JSDate.MakeDay y (m - 1) d) (JSDate.MakeTime 23 59 59 0)).

End Rules.

(** ** Sample data *)

Section Samples.

Import JSString.

(** A task with the given identifier, completion flag and deadline. *)
Definition sampleTask (i : string) (d : bool) (dl : option JSDate.t) : Task :=
  {| id := lit i; done := d; pinned := false; name := lit i;
     description := None; color := lit "#1976d2";
     date := JSDate.TimeValue 0; deadline := dl; category := None;
     priority := None |}.

(** Noon of 2 November 2026 in UTC, a Monday. *)
Definition sampleNow : Z := 1793620800000.

(** Instants of 2 November, 7 November (the Saturday) and 12 November. *)
Definition monday : JSDate.t := JSDate.TimeValue 1793600000000.
Definition saturday : JSDate.t := JSDate.TimeValue 1794050000000.
Definition nextThursday : JSDate.t := JSDate.TimeValue 1794480000000.

End Samples.

(** ** The home page: filter state, events and what is displayed *)

Module HomeView.

Import JSString.

(** The three state hooks of the filter. *)
Record FilterState : Type := {
  filter : jsstring;
  customStart : option Dayjs.t;
  customEnd : option Dayjs.t
}.

Definition initialState : FilterState :=
  {| filter := lit "All"; customStart := None; customEnd := None |}.

(** [handleFilterChange(event, newFilter)]; [None] is [null], what the
    toggle group passes when the selected button is pressed again. *)
Definition handleFilterChange (st : FilterState) (newFilter : option jsstring)
  : FilterState :=
  match newFilter with
  | Some f =>
      if negb (eqb f (lit "Custom"))
      then {| filter := f; customStart := None; customEnd := None |}
      else {| filter := f; customStart := customStart st;
              customEnd := customEnd st |}
  | None => st
  end.

(** The [onChange] handlers of the two date pickers. *)
Definition setCustomStart (st : FilterState) (newVal : option Dayjs.t)
  : FilterState :=
  {| filter := filter st; customStart := newVal; customEnd := customEnd st |}.

Definition setCustomEnd (st : FilterState) (newVal : option Dayjs.t)
  : FilterState :=
  {| filter := filter st; customStart := customStart st; customEnd := newVal |}.

(** The click on "View All Tasks": [setFilter("All")]. *)
Definition viewAllTasks (st : FilterState) : FilterState :=
  {| filter := lit "All"; customStart := customStart st;
     customEnd := customEnd st |}.

(** [customStart && customEnd && customStart.isBefore(customEnd)], as the
    truth value it is tested for; [isBefore] without unit compares the two
    instants. *)
Definition isValidCustomRange (st : FilterState) : bool :=
  match customStart st, customEnd st with
  | Some s, Some e => JSDate.ltb s e
  | _, _ => false
  end.

(** Whether "End date must be after start date" is displayed. *)
Definition rangeWarningShown (st : FilterState) : bool :=
  eqb (filter st) (lit "Custom")
  && match customStart st, customEnd st with
     | Some _, Some _ => negb (isValidCustomRange st)
     | _, _ => false
     end.

(** [updateShowProgressBar(value)], applied to the user it updates. *)
Definition updateShowProgressBar (value : bool) (prevUser : User) : User :=
  {| userName := userName prevUser;
     tasks := tasks prevUser;
     settings := {| enableGlow := enableGlow (settings prevUser);
                    showProgressBar := value |} |}.

(** Whether the progress card is rendered. *)
Definition progressShown (user : User) : bool :=
  (0 <? List.length (tasks user))%nat && showProgressBar (settings user).

Section Render.

Variables tz now : Z.

(** The tasks handed to the list. *)
Definition shownTasks (st : FilterState) (user : User) : list Task :=
  Home.filteredTasks tz now (filter st) (tasks user)
    (customStart st) (customEnd st).

(** Whether "No tasks found" with its "View All Tasks" button replaces the
    list. *)
Definition emptyStateShown (st : FilterState) (user : User) : bool :=
  Nat.eqb (List.length (shownTasks st user)) 0
  && (0 <? List.length (tasks user))%nat.

End Render.

End HomeView.

(** ** The second copy of the home page: filter events *)

Module HomeVariantView.

Import JSString.

(** [(e, val) => val && setFilter(val)]; the range is never reset. *)
Definition onFilterChange (st : HomeView.FilterState) (val : option jsstring)
  : HomeView.FilterState :=
  match val with
  | Some v =>
      if truthy v
      then {| HomeView.filter := v;
              HomeView.customStart := HomeView.customStart st;
              HomeView.customEnd := HomeView.customEnd st |}
      else st
  | None => st
  end.

(** The tasks handed to the list; there is no empty state. *)
Definition shownTasks (tz now : Z) (st : HomeView.FilterState) (user : User)
  : list Task :=
  HomeVariant.filteredTasks tz now (HomeView.filter st) (tasks user)
    (HomeView.customStart st) (HomeView.customEnd st).

(** The completion text of the second copy for a task collection. *)
Definition taskCompletionText (tasks : list Task) : jsstring :=
  HomeVariant.taskCompletionTextOf (Home.completedPercentage tasks).

End HomeVariantView.

(** ** The task details: what is displayed beside the priority *)

Module TaskDetailsView.

Import JSString.

(** [task.deadline && !task.done && new Date(task.deadline) < new Date()],
    as the truth value it is tested for. *)
Definition isOverdue (now : Z) (task : Task) : bool :=
  match deadline task with
  | Some d => negb (done task) && JSDate.ltb d (JSDate.TimeValue now)
  | None => false
  end.

(** The sections that are rendered under a condition. *)
Definition deadlineShown (task : Task) : bool :=
  match deadline task with Some _ => true | None => false end.

Definition descriptionShown (task : Task) : bool :=
  match description task with Some s => truthy s | None => false end.

Definition pinnedShown (task : Task) : bool := pinned task.

Definition categoriesShown (task : Task) : bool :=
  match category task with
  | Some c => (0 <? List.length c)%nat
  | None => false
  end.

End TaskDetailsView.

(** ** The add-task dialog: the button, the name field and the keyboard *)

Module AddTaskView.

Import JSString.

(** [disabled={!name.trim()}] of the add button. *)
Definition addDisabled (st : AddTask.FormState) : bool :=
  negb (truthy (trim (AddTask.name st))).

(** [error={!name.trim() && name !== ""}] of the name field. *)
Definition nameFieldError (st : AddTask.FormState) : bool :=
  negb (truthy (trim (AddTask.name st)))
  && negb (eqb (AddTask.name st) (lit "")).

(** [handleKeyPress(event)]: the key and the state of the control key. *)
Definition handleKeyPress (tz now : Z) (uuid : UUID)
    (key : jsstring) (ctrlKey : bool)
    (st : AddTask.FormState) (user : User) : AddTask.FormState * User :=
  if eqb key (lit "Enter") && ctrlKey
  then AddTask.handleAddTask tz now uuid st user
  else (st, user).

End AddTaskView.

(** ** The add-task dialog: the [try] block of the handler *)

Module AddTaskTry.

Import JSString.

(** [handleAddTask()] with the outcome of [crypto.randomUUID()], the first
    call of the [try] block: an identifier, or [None] where the platform
    has no [crypto.randomUUID] and the call throws.  The [catch] branch
    then sets the error; the user has not been touched and the form is
    neither reset nor closed. *)
Definition handleAddTask (tz now : Z) (randomUUID : option UUID)
    (st : AddTask.FormState) (user : User) : AddTask.FormState * User :=
  match randomUUID with
  | Some uuid => AddTask.handleAddTask tz now uuid st user
  | None =>
      let st := AddTask.setError st (lit "") in
      let (valid, st) := AddTask.validateForm tz now st in
      if negb valid then (st, user)
      else
        (AddTask.setError st (lit "Failed to add task. Please try again."),
         user)
  end.

End AddTaskTry.

(** ** From a time value to the calendar, and [toISOString] *)

Module JSDateFields.

Import JSDate.

(** The year of a day number: the largest [y] with [DayFromYear y <= day].
    The estimate by the mean length of a year is off by one at most. *)
Definition YearFromDay (day : Z) : Z :=
  let y := 1970 + (400 * day) / 146097 in
  if DayFromYear (y + 1) <=? day then y + 1
  else if day <? DayFromYear y then y - 1
  else y.

Definition YearFromTime (tv : Z) : Z := YearFromDay (Day tv).

Definition DayWithinYear (tv : Z) : Z := Day tv - DayFromYear (YearFromTime tv).

(** The month of a day of the year, 0 for January. *)
Definition MonthFromDayWithinYear (leap dwy : Z) : Z :=
  if dwy <? 31 then 0
  else if dwy <? 59 + leap then 1
  else if dwy <? 90 + leap then 2
  else if dwy <? 120 + leap then 3
  else if dwy <? 151 + leap then 4
  else if dwy <? 181 + leap then 5
  else if dwy <? 212 + leap then 6
  else if dwy <? 243 + leap then 7
  else if dwy <? 273 + leap then 8
  else if dwy <? 304 + leap then 9
  else if dwy <? 334 + leap then 10
  else 11.

Definition MonthFromTime (tv : Z) : Z :=
  MonthFromDayWithinYear (InLeapYear (YearFromTime tv)) (DayWithinYear tv).

Definition DateFromTime (tv : Z) : Z :=
  DayWithinYear tv
  - DayWithinYearOfMonth (InLeapYear (YearFromTime tv)) (MonthFromTime tv) + 1.

(** The character of the last decimal digit of [n]. *)
Definition digitChar (n : Z) : JSString.codeunit := Z.to_N (48 + n mod 10).

Definition pad2 (n : Z) : jsstring := [digitChar (n / 10); digitChar n].

Definition pad4 (n : Z) : jsstring :=
  [digitChar (n / 1000); digitChar (n / 100); digitChar (n / 10); digitChar n].

Definition pad6 (n : Z) : jsstring :=
  [digitChar (n / 100000); digitChar (n / 10000)] ++ pad4 n.

(** The year of the date-time string format: four digits from 0 to 9999,
    a sign and six digits otherwise. *)
Definition isoYear (y : Z) : jsstring :=
  if (0 <=? y) && (y <=? 9999) then pad4 y
  else (if y <? 0 then JSString.lit "-" else JSString.lit "+") ++ pad6 (Z.abs y).

(** [d.toISOString().split('T')[0]] of a valid date: its date in UTC. *)
Definition isoDate (tv : Z) : jsstring :=
  isoYear (YearFromTime tv) ++ JSString.lit "-"
  ++ pad2 (MonthFromTime tv + 1) ++ JSString.lit "-"
  ++ pad2 (DateFromTime tv).

End JSDateFields.

(** ** The add-task dialog: the earliest date of the date field *)

Module AddTaskMinDate.

(** [getMinDate()], with the instant the clock shows. *)
Definition getMinDate (now : Z) : jsstring := JSDateFields.isoDate now.

(** The form with the date field set to a value. *)
Definition withDeadline (st : AddTask.FormState) (value : jsstring)
  : AddTask.FormState :=
  {| AddTask.open := AddTask.open st; AddTask.name := AddTask.name st;
     AddTask.description := AddTask.description st;
     AddTask.deadline := value; AddTask.priority := AddTask.priority st;
     AddTask.error := AddTask.error st |}.

End AddTaskMinDate.

(** ** [Math.ceil], [Math.abs] and the decimal form of a whole number *)

Module JSMath.

(** [Math.ceil(x)]: the least whole number not below [x]; a negative
    fraction above -1 gives -0. *)
Definition ceil (x : number) : number :=
  match x with
  | S754_finite s m e =>
      if 0 <=? e then x
      else
        let whole := Z.shiftr (Z.pos m) (- e) in
        if s then
          if whole =? 0 then S754_zero true else JSNumber.ofZ (- whole)
        else if Z.shiftl whole (- e) =? Z.pos m then JSNumber.ofZ whole
        else JSNumber.ofZ (whole + 1)
  | _ => x
  end.

(** [Math.abs(x)]. *)
Definition abs (x : number) : number := SFabs x.

(** The value of a number that is whole. *)
Definition wholeValue (x : number) : option Z :=
  match x with
  | S754_zero _ => Some 0
  | S754_finite s m e =>
      let v := if 0 <=? e then Z.shiftl (Z.pos m) e
               else Z.shiftr (Z.pos m) (- e) in
      Some (if s then - v else v)
  | _ => None
  end.

(** The decimal digits of a natural number of at most [fuel] digits. *)
Fixpoint decimalDigits (fuel : nat) (n : Z) : jsstring :=
  match fuel with
  | O => []
  | S fuel' =>
      (if n <? 10 then [] else decimalDigits fuel' (n / 10))
      ++ [JSDateFields.digitChar n]
  end.

(** The string of a number inside a template, for NaN, the infinities and
    the whole numbers below 10^21 in magnitude, which are written in
    decimal digits without exponent. *)
Definition toString (x : number) : jsstring :=
  match wholeValue x with
  | Some v =>
      (if v <? 0 then JSString.lit "-" else []) ++ decimalDigits 21 (Z.abs v)
  | None =>
      match x with
      | S754_infinity true => JSString.lit "-Infinity"
      | S754_infinity false => JSString.lit "Infinity"
      | _ => JSString.lit "NaN"
      end
  end.

End JSMath.

(** ** The task details: the date with its distance in days *)

Module TaskDetailsDates.

Import JSString.

(** [taskDate.getTime() - now.getTime()]: the two time values are whole
    numbers below 2^53 in magnitude, and the binary64 difference is the
    binary64 number nearest to the difference; the time value of the
    Invalid Date is NaN. *)
Definition diffTime (now : Z) (date : JSDate.t) : number :=
  match date with
  | JSDate.TimeValue tv => JSNumber.ofZ (tv - now)
  | JSDate.Invalid => S754_nan
  end.

(** [Math.ceil(diffTime / (1000 * 60 * 60 * 24))]. *)
Definition diffDays (now : Z) (date : JSDate.t) : number :=
  JSMath.ceil (JSNumber.div (diffTime now date) (JSNumber.ofZ (1000 * 60 * 60 * 24))).

(** [formatDate(date)] at the instant [now], given [formattedDate], the
    text that [toLocaleDateString] returns for the date. *)
Definition formatDate (now : Z) (formattedDate : jsstring) (date : JSDate.t)
  : jsstring :=
  let diffDays := diffDays now date in
  if JSNumber.strictEq diffDays (JSNumber.ofZ 0)
  then formattedDate ++ lit " (Today)"
  else if JSNumber.strictEq diffDays (JSNumber.ofZ 1)
  then formattedDate ++ lit " (Tomorrow)"
  else if JSNumber.strictEq diffDays (JSNumber.ofZ (-1))
  then formattedDate ++ lit " (Yesterday)"
  else if JSNumber.gtb diffDays (JSNumber.ofZ 0)
  then formattedDate ++ lit " (in " ++ JSMath.toString diffDays ++ lit " days)"
  else formattedDate ++ lit " (" ++ JSMath.toString (JSMath.abs diffDays)
       ++ lit " days ago)".

(** The distance in whole days, rounded up, of an instant from now. *)
Definition daysAhead (now tv : Z) : Z := - ((now - tv) / JSDate.msPerDay).

(** The text after the date, by the number of days. *)
Definition relativeText (n : Z) : jsstring :=
  if n =? 0 then lit " (Today)"
  else if n =? 1 then lit " (Tomorrow)"
  else if n =? -1 then lit " (Yesterday)"
  else if 0 <? n then lit " (in " ++ JSMath.decimalDigits 21 n ++ lit " days)"
  else lit " (" ++ JSMath.decimalDigits 21 (- n) ++ lit " days ago)".

End TaskDetailsDates.

(** * Properties *)

(** ** Evaluations on the sample data *)

Example trim_sample :
  JSString.trim (9%N :: JSString.lit "  Pay rent " ++ [160; 10]%N)
  = JSString.lit "Pay rent".
Proof. reflexivity. Qed.

Example makeDay_sample :
  JSDate.MakeDay 1970 0 1 = 0
  /\ JSDate.MakeDay 2024 1 29 = 19782
  /\ JSDate.MakeDay 2026 10 2 = 20759
  /\ JSDate.WeekDay (JSDate.MakeDate (JSDate.MakeDay 2026 10 2) 0) = 1.
Proof. repeat split; reflexivity. Qed.

Example parse_sample :
  JSDate.parse 3600000 (JSString.lit "2026-11-02")
  = JSDate.TimeValue 1793577600000
  /\ JSDate.parse 3600000 (JSString.lit "2026-11-02T23:59:59")
     = JSDate.TimeValue 1793660399000
  /\ JSDate.parse 0 (JSString.lit "2026-02-29")
     = JSDate.parse 0 (JSString.lit "2026-03-01")
  /\ JSDate.parse 0 (JSString.lit "2026-02-32") = JSDate.Invalid
  /\ JSDate.parse 0 (JSString.lit "tomorrow") = JSDate.Invalid.
Proof. repeat split; reflexivity. Qed.

Example number_sample :
  JSNumber.ofZ 100 = S754_finite false 7036874417766400 (-46)
  /\ JSNumber.mul (JSNumber.div (JSNumber.ofZ 1) (JSNumber.ofZ 2))
       (JSNumber.ofZ 100) = JSNumber.ofZ 50
  /\ JSNumber.mul (JSNumber.div (JSNumber.ofZ 1) (JSNumber.ofZ 3))
       (JSNumber.ofZ 100)
     = S754_finite false 4691249611844266 (-47)
  /\ JSNumber.div (JSNumber.ofZ 0) (JSNumber.ofZ 0) = S754_nan.
Proof. repeat split; vm_compute; reflexivity. Qed.

Example filteredTasks_sample :
  let a := sampleTask "a" false None in
  let b := sampleTask "b" false (Some monday) in
  let c := sampleTask "c" true (Some saturday) in
  let d := sampleTask "d" false (Some nextThursday) in
  Home.filteredTasks 0 sampleNow (JSString.lit "Today") [a; b; c; d] None None
  = [b]
  /\ Home.filteredTasks 0 sampleNow (JSString.lit "This Week") [a; b; c; d]
       None None = [b; c]
  /\ Home.filteredTasks 0 sampleNow (JSString.lit "Custom") [a; b; c; d]
       (Some saturday) (Some nextThursday) = [c; d]
  /\ Home.filteredTasks 0 sampleNow (JSString.lit "Custom") [a; b; c; d]
       (Some nextThursday) (Some saturday) = [c; d]
  /\ Home.filteredTasks 0 sampleNow (JSString.lit "Custom") [a; b; c; d]
       (Some saturday) None = [a; b; c; d]
  /\ HomeVariant.filteredTasks 0 sampleNow (JSString.lit "Custom") [a; b; c; d]
       (Some saturday) None = [].
Proof. vm_compute. repeat split; reflexivity. Qed.

Example taskStats_sample :
  let b := sampleTask "b" false (Some monday) in
  let c := sampleTask "c" true (Some saturday) in
  let d := sampleTask "d" true (Some monday) in
  Home.taskStats 0 sampleNow [b; c; d]
  = {| Home.completedTasksCount := 2;
       Home.completedTaskPercentage :=
         S754_finite false 4691249611844266 (-46);
       Home.tasksWithDeadlineTodayCount := 1;
       Home.tasksDueTodayNames := [JSString.lit "b"] |}
  /\ Home.taskCompletionText 0 sampleNow [b; c; d] = Home.textHalfway
  /\ Home.timeGreeting 0 sampleNow = Home.goodAfternoon.
Proof. vm_compute. repeat split; reflexivity. Qed.

(** ** binary64 arithmetic *)

Section NumberFacts.

Import JSNumber.

Lemma digits2_pos_lower (p : positive) :
  2 ^ (Z.pos (digits2_pos p) - 1) <= Z.pos p.
Proof.
  induction p as [p IH | p IH | ]; cbn [digits2_pos].
  - rewrite Pos2Z.inj_succ.
    replace (Z.succ (Z.pos (digits2_pos p)) - 1)
      with (Z.succ (Z.pos (digits2_pos p) - 1)) by lia.
    rewrite Z.pow_succ_r by lia. lia.
  - rewrite Pos2Z.inj_succ.
    replace (Z.succ (Z.pos (digits2_pos p)) - 1)
      with (Z.succ (Z.pos (digits2_pos p) - 1)) by lia.
    rewrite Z.pow_succ_r by lia. lia.
  - cbn. lia.
Qed.

Lemma digits2_pos_iter_xO (k p : positive) :
  digits2_pos (Pos.iter xO p k) = (digits2_pos p + k)%positive.
Proof.
  induction k as [ | k IH] using Pos.peano_ind.
  - cbn. lia.
  - rewrite Pos.iter_succ. cbn [digits2_pos]. rewrite IH. lia.
Qed.

(** A mantissa of 53 bits with an exponent in range is already rounded. *)
Lemma binary_round_aux_canonical (s : bool) (m : positive) (e : Z) :
  digits2_pos m = 53%positive -> -1074 <= e <= 971 ->
  binary_round_aux prec emax s (Z.pos m) e loc_Exact = S754_finite s m e.
Proof.
  intros Hd He.
  assert (Hf : fexp prec emax (Z.pos 53 + e) - e = 0).
  { unfold fexp, emin, prec, emax. lia. }
  unfold binary_round_aux, shr_fexp.
  cbn [Zdigits2 shr_record_of_loc]. rewrite Hd, Hf.
  cbn [shr shr_m loc_of_shr_record round_nearest_even Zdigits2 shr_record_of_loc].
  rewrite Hd, Hf. cbn [shr shr_m].
  replace (e <=? emax - prec) with true; [reflexivity|].
  symmetry. apply Z.leb_le. unfold emax, prec. lia.
Qed.

(** The numbers of the positive integers below 2^53 are finite and not
    zero. *)
Lemma ofZ_finite (z : Z) :
  0 < z < 2 ^ 53 -> exists m e, ofZ z = S754_finite false m e.
Proof.
  intros [Hpos Hlt]. destruct z as [ | p | p]; try lia.
  unfold ofZ, binary_normalize, binary_round.
  pose proof (digits2_pos_lower p) as Hlow.
  assert (Hd : Z.pos (digits2_pos p) <= 53).
  { destruct (Z_le_gt_dec (Z.pos (digits2_pos p)) 53) as [H | H]; [exact H|].
    exfalso.
    assert (2 ^ 53 <= 2 ^ (Z.pos (digits2_pos p) - 1))
      by (apply Z.pow_le_mono_r; lia).
    lia. }
  assert (Hf : fexp prec emax (Z.pos (digits2_pos p) + 0)
               = Z.pos (digits2_pos p) - 53).
  { unfold fexp, emin, prec, emax. lia. }
  rewrite Hf. unfold shl_align.
  destruct (Z.pos (digits2_pos p) - 53 - 0) as [ | d | d] eqn:Hs; try lia.
  - eexists _, _. apply binary_round_aux_canonical; lia.
  - eexists _, _. apply binary_round_aux_canonical; [|lia].
    rewrite digits2_pos_iter_xO. lia.
Qed.

Lemma ofNat_finite (n : nat) :
  (0 < n)%nat -> Z.of_nat n < 2 ^ 53 ->
  exists m e, ofNat n = S754_finite false m e.
Proof.
  intros Hn Hb. apply ofZ_finite. lia.
Qed.

Lemma div_eucl_shiftl_self (m : positive) (k : Z) :
  0 <= k -> Z.div_eucl (Z.shiftl (Z.pos m) k) (Z.pos m) = (2 ^ k, 0).
Proof.
  intros Hk.
  assert (Hq : Z.shiftl (Z.pos m) k / Z.pos m = 2 ^ k).
  { rewrite Z.shiftl_mul_pow2 by exact Hk.
    rewrite Z.mul_comm. apply Z.div_mul. lia. }
  assert (Hr : Z.shiftl (Z.pos m) k mod Z.pos m = 0).
  { rewrite Z.shiftl_mul_pow2 by exact Hk.
    rewrite Z.mul_comm. apply Z.mod_mul. lia. }
  unfold Z.div in Hq. unfold Z.modulo in Hr.
  destruct (Z.div_eucl (Z.shiftl (Z.pos m) k) (Z.pos m)) as [q r].
  congruence.
Qed.

(** A finite non-zero number divided by itself is exactly 1. *)
Lemma div_self (s : bool) (m : positive) (e : Z) :
  div (S754_finite s m e) (S754_finite s m e) = ofZ 1.
Proof.
  unfold div, SFdiv, SFdiv_core_binary.
  rewrite !Z.sub_diag.
  change (Z.min (fexp prec emax 0) 0) with (-53).
  change (0 - -53) with 53.
  cbv beta iota zeta.
  rewrite (div_eucl_shiftl_self m 53) by lia.
  rewrite xorb_nilpotent.
  assert (Hl : new_location (Z.pos m) 0 = loc_Exact).
  { unfold new_location, new_location_even, new_location_odd.
    destruct (Z.even (Z.pos m)); reflexivity. }
  rewrite Hl. vm_compute. reflexivity.
Qed.

Lemma mul_one_hundred : mul (ofZ 1) (ofZ 100) = ofZ 100.
Proof. vm_compute. reflexivity. Qed.

End NumberFacts.

(** ** Calendar days and the dayjs comparisons *)

Section DayjsFacts.

Import JSDate Dayjs Calendar.

Variable tz : Z.

Ltac unfold_time :=
  unfold isSame, isBefore, isAfter, startOf, endOf, dayjs, setHours,
    localMidnightAfter, getDay, WeekDay, leb, ltb, localDay, LocalTime, UTC,
    MakeDate, MakeTime, Day, msPerDay, msPerHour, msPerMinute, msPerSecond
    in *.

Lemma startOf_day_localDay (tv : Z) :
  startOf tz (TimeValue tv) day
  = TimeValue (localDay tz tv * msPerDay - tz).
Proof. unfold_time; f_equal; lia. Qed.

Lemma endOf_day_localDay (tv : Z) :
  endOf tz (TimeValue tv) day
  = TimeValue (localDay tz tv * msPerDay + 86399999 - tz).
Proof. unfold_time; f_equal; lia. Qed.

Lemma localDay_startOf_day (tv : Z) :
  dayOf tz (startOf tz (TimeValue tv) day) = Some (localDay tz tv).
Proof.
  unfold dayOf. unfold_time. f_equal.
  Z.to_euclidean_division_equations. lia.
Qed.

(** The last instant of the week is on the Saturday that follows, at most
    six days ahead. *)
Lemma endOf_week_localDay (tv : Z) :
  exists e,
    endOf tz (TimeValue tv) week = TimeValue e
    /\ localDay tz e = localDay tz tv + (6 - getDay tz tv)
    /\ localDay tz tv <= localDay tz e <= localDay tz tv + 6.
Proof.
  eexists. split; [reflexivity|].
  unfold_time. split; Z.to_euclidean_division_equations; lia.
Qed.

Lemma isBefore_day (a b : Z) :
  isBefore tz (TimeValue a) (TimeValue b) day = true
  <-> localDay tz a < localDay tz b.
Proof.
  unfold_time. rewrite Z.ltb_lt.
  Z.to_euclidean_division_equations. lia.
Qed.

Lemma isAfter_day (a b : Z) :
  isAfter tz (TimeValue a) (TimeValue b) day = true
  <-> localDay tz b < localDay tz a.
Proof.
  unfold_time. rewrite Z.ltb_lt.
  Z.to_euclidean_division_equations. lia.
Qed.

(** Against the start of a day, [isSame] is equality of calendar days. *)
Lemma isSame_startOf_day (a b : Z) :
  isSame tz (TimeValue a) (startOf tz (TimeValue b) day) day = true
  <-> localDay tz a = localDay tz b.
Proof.
  unfold_time. rewrite andb_true_iff, !Z.leb_le.
  Z.to_euclidean_division_equations. lia.
Qed.

Lemma isSame_Invalid_l (that : Dayjs.t) (u : unitType) :
  isSame tz Invalid that u = false.
Proof. destruct u; reflexivity. Qed.

Lemma isSame_deadline_today (d : JSDate.t) (now : Z) :
  isSame tz (dayjs d) (startOf tz (TimeValue now) day) day = true
  <-> dayOf tz d = Some (localDay tz now).
Proof.
  destruct d as [tv | ].
  - unfold dayjs at 1. rewrite isSame_startOf_day. cbn [dayOf].
    split; [intros ->; reflexivity | intros [= ->]; reflexivity].
  - unfold dayjs at 1. rewrite isSame_Invalid_l. cbn [dayOf].
    split; discriminate.
Qed.

(** What [isBetween] computes for the inclusivity string of the pages. *)
Lemma isBetween_inclusive (x a b : Dayjs.t) (u : unitType) :
  isBetween tz x a b u (JSString.lit "[]")
  = (negb (isBefore tz x a u) && negb (isAfter tz x b u))
    || (negb (isAfter tz x a u) && negb (isBefore tz x b u)).
Proof. reflexivity. Qed.

(** With both bounds included, [isBetween] holds of an instant exactly
    when its day lies between the days of the bounds, in either order. *)
Lemma isBetween_day_inclusive (x a b : Z) :
  isBetween tz (TimeValue x) (TimeValue a) (TimeValue b) day
    (JSString.lit "[]") = true
  <-> (localDay tz a <= localDay tz x <= localDay tz b)
      \/ (localDay tz b <= localDay tz x <= localDay tz a).
Proof.
  rewrite isBetween_inclusive.
  rewrite orb_true_iff, !andb_true_iff, !negb_true_iff.
  rewrite <- !not_true_iff_false.
  rewrite !isBefore_day, !isAfter_day. lia.
Qed.

(** A bound that is the Invalid Date excludes nothing. *)
Lemma isBefore_Invalid_r (x : Dayjs.t) (u : unitType) :
  isBefore tz x Invalid u = false.
Proof. unfold isBefore, dayjs, ltb. destruct (endOf tz x u); reflexivity. Qed.

Lemma isAfter_Invalid_r (x : Dayjs.t) (u : unitType) :
  isAfter tz x Invalid u = false.
Proof. unfold isAfter, dayjs, ltb. reflexivity. Qed.

(** An instant on the day of either bound is between the bounds, whatever
    the other bound is. *)
Lemma isBetween_on_bound_day (x : Z) (a b : Dayjs.t) :
  dayOf tz a = Some (localDay tz x) \/ dayOf tz b = Some (localDay tz x) ->
  isBetween tz (TimeValue x) a b day (JSString.lit "[]") = true.
Proof.
  intros H.
  destruct a as [a | ], b as [b | ]; cbn [dayOf] in H.
  - apply isBetween_day_inclusive.
    destruct H as [[= H] | [= H]]; lia.
  - destruct H as [[= H] | H]; [|discriminate].
    rewrite isBetween_inclusive, isBefore_Invalid_r, isAfter_Invalid_r.
    destruct (isBefore tz (TimeValue x) (TimeValue a) day) eqn:Eb;
      [apply isBefore_day in Eb; lia | reflexivity].
  - destruct H as [H | [= H]]; [discriminate|].
    rewrite isBetween_inclusive, isBefore_Invalid_r, isAfter_Invalid_r.
    destruct (isAfter tz (TimeValue x) (TimeValue b) day) eqn:Ea;
      [apply isAfter_day in Ea; lia | reflexivity].
  - destruct H; discriminate.
Qed.

(** A deadline that is the Invalid Date is between any two bounds. *)
Lemma isBetween_Invalid_deadline (a b : Dayjs.t) :
  isBetween tz Invalid a b day (JSString.lit "[]") = true.
Proof.
  rewrite isBetween_inclusive.
  unfold isBefore, isAfter, startOf, endOf, setHours, dayjs.
  destruct a, b; reflexivity.
Qed.

End DayjsFacts.

(** ** The home page: filtering *)

Section HomeFilter.

Import JSDate Dayjs Calendar.
Import JSString.

Variables tz now : Z.

Let today := startOf tz (TimeValue now) day.
Let endOfWeek := endOf tz (TimeValue now) week.

Lemma filteredTasks_Today tasks cs ce :
  Home.filteredTasks tz now (lit "Today") tasks cs ce
  = List.filter
      (fun task =>
         match deadline task with
         | Some d => isSame tz (dayjs d) today day
         | None => false
         end) tasks.
Proof. reflexivity. Qed.

Lemma filteredTasks_ThisWeek tasks cs ce :
  Home.filteredTasks tz now (lit "This Week") tasks cs ce
  = List.filter
      (fun task =>
         match deadline task with
         | Some d => isBetween tz (dayjs d) today endOfWeek day (lit "[]")
         | None => false
         end) tasks.
Proof. reflexivity. Qed.

Lemma filteredTasks_Custom tasks s e :
  Home.filteredTasks tz now (lit "Custom") tasks (Some s) (Some e)
  = List.filter
      (fun task =>
         match deadline task with
         | Some d => isBetween tz (dayjs d) s e day (lit "[]")
         | None => false
         end) tasks.
Proof. reflexivity. Qed.

Lemma filteredTasks_Custom_incomplete tasks cs ce :
  cs = None \/ ce = None ->
  Home.filteredTasks tz now (lit "Custom") tasks cs ce = tasks.
Proof.
  intros [-> | ->]; [reflexivity|]. destruct cs; reflexivity.
Qed.

(** Every mode returns a subsequence of the tasks, so the empty
    collection stays empty. *)
Lemma filteredTasks_nil filter cs ce :
  Home.filteredTasks tz now filter [] cs ce = [].
Proof.
  unfold Home.filteredTasks.
  repeat match goal with |- context [if ?b then _ else _] => destruct b end;
    try reflexivity.
  destruct cs, ce; reflexivity.
Qed.

End HomeFilter.

(** C1 (Home.tsx): under the Custom mode with the start or the end of the
    range absent, the filter returns the whole task collection, unchanged,
    and not the empty sequence. *)
Theorem custom_incomplete_range_returns_all
    (tz now : Z) (tasks : list Task) (customStart customEnd : option Dayjs.t) :
  customStart = None \/ customEnd = None ->
  Home.filteredTasks tz now (JSString.lit "Custom") tasks customStart customEnd
  = tasks
  /\ (tasks <> [] ->
      Home.filteredTasks tz now (JSString.lit "Custom") tasks
        customStart customEnd <> []).
Proof.
  intros H. rewrite (filteredTasks_Custom_incomplete tz now tasks _ _ H).
  split; [reflexivity | intros Hne; exact Hne].
Qed.

Lemma custom_incomplete_range_returns_all_witness :
  Home.filteredTasks 0 sampleNow (JSString.lit "Custom")
    [sampleTask "a" false None; sampleTask "b" true (Some monday)]
    (Some monday) None
  = [sampleTask "a" false None; sampleTask "b" true (Some monday)].
Proof.
  apply (custom_incomplete_range_returns_all 0 sampleNow
           [sampleTask "a" false None; sampleTask "b" true (Some monday)]
           (Some monday) None).
  right. reflexivity.
Defined.

(** The second copy of the page answers an incomplete range with the empty
    sequence instead. *)
Lemma variant_custom_incomplete_range_returns_nothing
    (tz now : Z) (tasks : list Task) (customStart customEnd : option Dayjs.t) :
  customStart = None \/ customEnd = None ->
  HomeVariant.filteredTasks tz now (JSString.lit "Custom") tasks
    customStart customEnd = [].
Proof.
  intros [-> | ->]; [reflexivity|]. destruct customStart; reflexivity.
Qed.

(** C6: under the mode All the filter is the identity on the task
    collection: same elements, same order.  All is no case of the switch:
    it is answered by the default branch, as any mode other than Today,
    This Week and Custom is. *)
Theorem all_mode_is_identity
    (tz now : Z) (tasks : list Task) (customStart customEnd : option Dayjs.t) :
  Home.filteredTasks tz now (JSString.lit "All") tasks customStart customEnd
  = tasks
  /\ (forall filter : jsstring,
        JSString.eqb filter (JSString.lit "Today") = false ->
        JSString.eqb filter (JSString.lit "This Week") = false ->
        JSString.eqb filter (JSString.lit "Custom") = false ->
        Home.filteredTasks tz now filter tasks customStart customEnd = tasks).
Proof.
  assert (Hdefault : forall filter : jsstring,
             JSString.eqb filter (JSString.lit "Today") = false ->
             JSString.eqb filter (JSString.lit "This Week") = false ->
             JSString.eqb filter (JSString.lit "Custom") = false ->
             Home.filteredTasks tz now filter tasks customStart customEnd
             = tasks).
  { intros filter H1 H2 H3. unfold Home.filteredTasks.
    rewrite H1, H2, H3. reflexivity. }
  split; [ | exact Hdefault].
  apply Hdefault; reflexivity.
Qed.

(** C7: a task without deadline is in the result of neither the Today
    mode, nor the This Week mode, nor the Custom mode with both bounds. *)
Theorem no_deadline_is_excluded
    (tz now : Z) (tasks : list Task) (t : Task)
    (customStart customEnd : option Dayjs.t) (s e : Dayjs.t) :
  deadline t = None ->
  ~ In t (Home.filteredTasks tz now (JSString.lit "Today") tasks
            customStart customEnd)
  /\ ~ In t (Home.filteredTasks tz now (JSString.lit "This Week") tasks
               customStart customEnd)
  /\ ~ In t (Home.filteredTasks tz now (JSString.lit "Custom") tasks
               (Some s) (Some e)).
Proof.
  intros Hd.
  rewrite filteredTasks_Today, filteredTasks_ThisWeek, filteredTasks_Custom.
  repeat split; intros Hin; apply filter_In in Hin;
    destruct Hin as [_ Hin]; rewrite Hd in Hin; discriminate.
Qed.

Lemma no_deadline_is_excluded_witness :
  ~ In (sampleTask "a" false None)
      (Home.filteredTasks 0 sampleNow (JSString.lit "Today")
         [sampleTask "a" false None; sampleTask "b" true (Some monday)]
         None None).
Proof.
  apply (no_deadline_is_excluded 0 sampleNow
           [sampleTask "a" false None; sampleTask "b" true (Some monday)]
           (sampleTask "a" false None) None None monday saturday).
  reflexivity.
Defined.

Lemma filter_none {A : Type} (f : A -> bool) (l : list A) :
  (forall x, In x l -> f x = false) -> List.filter f l = [].
Proof.
  induction l as [ | a l IH]; intros H; [reflexivity|].
  cbn [List.filter]. rewrite (H a (or_introl eq_refl)).
  apply IH. intros x Hx. apply H. right. exact Hx.
Qed.

Lemma filter_only {A : Type} (f : A -> bool) (before after : list A) (a : A) :
  f a = true ->
  (forall x, In x (before ++ after) -> f x = false) ->
  List.filter f (before ++ a :: after) = [a].
Proof.
  intros Ha H. rewrite filter_app. cbn [List.filter]. rewrite Ha.
  rewrite !filter_none; [reflexivity | | ];
    intros x Hx; apply H; apply in_or_app; [right | left]; exact Hx.
Qed.

(** The bounds of a range are included, by calendar day.  A task whose
    deadline falls on the first or on the last day of the range is kept by
    the This Week mode (from today to the end of the week) and by the
    Custom mode with both bounds.  The Custom range from a day to the same
    day returns the one task due on that day alone as long as the
    deadlines of the others are absent or instants of other days; a
    deadline that is the Invalid Date breaks it, see below. *)
Theorem range_bounds_are_inclusive
    (tz now : Z) (tasks : list Task) (t : Task) (tv : Z)
    (customStart customEnd : option Dayjs.t) :
  In t tasks ->
  deadline t = Some (JSDate.TimeValue tv) ->
  (Calendar.dayOf tz (Dayjs.startOf tz (JSDate.TimeValue now) Dayjs.day)
     = Some (Calendar.localDay tz tv)
   \/ Calendar.dayOf tz (Dayjs.endOf tz (JSDate.TimeValue now) Dayjs.week)
      = Some (Calendar.localDay tz tv) ->
   In t (Home.filteredTasks tz now (JSString.lit "This Week") tasks
           customStart customEnd))
  /\ (forall s e : Dayjs.t,
        Calendar.dayOf tz s = Some (Calendar.localDay tz tv)
        \/ Calendar.dayOf tz e = Some (Calendar.localDay tz tv) ->
        In t (Home.filteredTasks tz now (JSString.lit "Custom") tasks
                (Some s) (Some e)))
  /\ (forall (s e : Dayjs.t) (before after : list Task),
        tasks = before ++ t :: after ->
        Calendar.dayOf tz s = Some (Calendar.localDay tz tv) ->
        Calendar.dayOf tz e = Some (Calendar.localDay tz tv) ->
        (forall u, In u (before ++ after) ->
                   Calendar.deadlineIsInstant u
                   /\ Calendar.deadlineDay tz u
                      <> Some (Calendar.localDay tz tv)) ->
        Home.filteredTasks tz now (JSString.lit "Custom") tasks
          (Some s) (Some e) = [t]).
Proof.
  intros Hin Hd.
  rewrite filteredTasks_ThisWeek. split; [ | split].
  - intros H. apply filter_In. split; [exact Hin|].
    rewrite Hd. apply isBetween_on_bound_day. exact H.
  - intros s e H. rewrite filteredTasks_Custom.
    apply filter_In. split; [exact Hin|].
    rewrite Hd. apply isBetween_on_bound_day. exact H.
  - intros s e before after -> Hs He Hothers.
    rewrite filteredTasks_Custom. apply filter_only.
    + rewrite Hd. apply isBetween_on_bound_day. left. exact Hs.
    + intros u Hu. destruct (Hothers u Hu) as [Hinst Hday].
      unfold Calendar.deadlineIsInstant in Hinst.
      unfold Calendar.deadlineDay in Hday.
      destruct (deadline u) as [[x | ] | ]; [ | congruence | reflexivity].
      destruct s as [s | ]; [ | discriminate].
      destruct e as [e | ]; [ | discriminate].
      cbn [Calendar.dayOf] in Hs, He, Hday.
      apply not_true_iff_false. intros Hb.
      apply isBetween_day_inclusive in Hb.
      injection Hs as Hs. injection He as He.
      apply Hday. f_equal. lia.
Qed.

Lemma range_bounds_are_inclusive_witness :
  Home.filteredTasks 0 sampleNow (JSString.lit "Custom")
    [sampleTask "a" false None;
     sampleTask "b" false (Some monday);
     sampleTask "c" true (Some saturday)]
    (Some monday) (Some monday)
  = [sampleTask "b" false (Some monday)].
Proof.
  refine (proj2 (proj2
    (range_bounds_are_inclusive 0 sampleNow
       [sampleTask "a" false None;
        sampleTask "b" false (Some monday);
        sampleTask "c" true (Some saturday)]
       (sampleTask "b" false (Some monday)) 1793600000000 None None
       _ eq_refl))
    monday monday [sampleTask "a" false None]
    [sampleTask "c" true (Some saturday)] eq_refl eq_refl eq_refl _).
  - right. left. reflexivity.
  - intros u [<- | [<- | []]].
    + split; [discriminate | discriminate].
    + split; [discriminate | vm_compute; discriminate].
Defined.

(** A deadline that is the Invalid Date passes the range modes, which the
    Today mode does not let through. *)
Lemma invalid_deadline_passes_range_modes
    (tz now : Z) (tasks : list Task) (t : Task) (s e : Dayjs.t)
    (customStart customEnd : option Dayjs.t) :
  In t tasks ->
  deadline t = Some JSDate.Invalid ->
  In t (Home.filteredTasks tz now (JSString.lit "This Week") tasks
          customStart customEnd)
  /\ In t (Home.filteredTasks tz now (JSString.lit "Custom") tasks
             (Some s) (Some e))
  /\ ~ In t (Home.filteredTasks tz now (JSString.lit "Today") tasks
               customStart customEnd).
Proof.
  intros Hin Hd.
  rewrite filteredTasks_ThisWeek, filteredTasks_Custom, filteredTasks_Today.
  repeat split.
  - apply filter_In. split; [exact Hin|]. rewrite Hd.
    apply isBetween_Invalid_deadline.
  - apply filter_In. split; [exact Hin|]. rewrite Hd.
    apply isBetween_Invalid_deadline.
  - intros H. apply filter_In in H. destruct H as [_ H].
    rewrite Hd in H. unfold Dayjs.dayjs at 1 in H.
    rewrite isSame_Invalid_l in H. discriminate.
Qed.

(** C8: the scenario of the range of one day fails on a deadline that
    cannot be read.  On 2 November 2026, with both bounds of the Custom
    range on that day, over the collection of [x], whose deadline is the
    Invalid Date, and [b], the one task whose deadline falls on that day,
    the filter returns both tasks and not [b] alone: the Invalid Date
    passes [isBetween].  The Today mode leaves [x] out, and the range
    leaves it out once its deadline is missing instead. *)
Theorem custom_single_day_keeps_unreadable_deadline :
  let x := sampleTask "x" false (Some JSDate.Invalid) in
  let b := sampleTask "b" false (Some monday) in
  Calendar.deadlineDay 0 b = Calendar.dayOf 0 monday
  /\ Calendar.deadlineDay 0 x = None
  /\ Home.filteredTasks 0 sampleNow (JSString.lit "Custom") [x; b]
       (Some monday) (Some monday) = [x; b]
  /\ Home.filteredTasks 0 sampleNow (JSString.lit "Today") [x; b]
       (Some monday) (Some monday) = [b]
  /\ Home.filteredTasks 0 sampleNow (JSString.lit "Custom")
       [sampleTask "x" false None; b] (Some monday) (Some monday) = [b].
Proof. vm_compute. repeat split; reflexivity. Qed.

(** ** The home page: statistics *)

Lemma dueToday_predicate (tz now : Z) (task : Task) :
  match deadline task with
  | Some d =>
      Dayjs.isSame tz (Dayjs.dayjs d)
        (Dayjs.startOf tz (JSDate.TimeValue now) Dayjs.day) Dayjs.day
      && negb (done task)
  | None => false
  end = Calendar.dueToday tz now task.
Proof.
  unfold Calendar.dueToday, Calendar.deadlineDay.
  destruct (deadline task) as [d | ]; [ | reflexivity].
  pose proof (isSame_deadline_today tz d now) as H.
  destruct (Calendar.dayOf tz d) as [x | ].
  - destruct (Z.eqb_spec x (Calendar.localDay tz now)) as [-> | Hne].
    + rewrite (proj2 H eq_refl). reflexivity.
    + destruct (Dayjs.isSame tz (Dayjs.dayjs d)
                  (Dayjs.startOf tz (JSDate.TimeValue now) Dayjs.day)
                  Dayjs.day); [ | reflexivity].
      exfalso. apply Hne. destruct H as [H _].
      injection (H eq_refl) as ->. reflexivity.
  - destruct (Dayjs.isSame tz (Dayjs.dayjs d)
                (Dayjs.startOf tz (JSDate.TimeValue now) Dayjs.day)
                Dayjs.day); [ | reflexivity].
    destruct H as [H _]. discriminate (H eq_refl).
Qed.

(** C5: the tasks due today of the statistics are exactly the tasks whose
    deadline is present and falls on the calendar day of today and that are
    not done, in the order of the collection; the snapshot carries their
    number and their names. *)
Theorem due_today_tasks_exact (tz now : Z) (tasks : list Task) :
  (forall t, In t (Home.dueTodayTasks tz now tasks)
             <-> In t tasks
                 /\ Calendar.deadlineDay tz t = Some (Calendar.localDay tz now)
                 /\ done t = false)
  /\ Home.dueTodayTasks tz now tasks
     = List.filter (Calendar.dueToday tz now) tasks
  /\ Home.tasksWithDeadlineTodayCount (Home.taskStats tz now tasks)
     = List.length (Home.dueTodayTasks tz now tasks)
  /\ Home.tasksDueTodayNames (Home.taskStats tz now tasks)
     = List.map name (Home.dueTodayTasks tz now tasks).
Proof.
  assert (Heq : Home.dueTodayTasks tz now tasks
                = List.filter (Calendar.dueToday tz now) tasks).
  { unfold Home.dueTodayTasks. apply filter_ext.
    intros task. apply dueToday_predicate. }
  split; [ | split; [exact Heq | split; reflexivity]].
  intros t. rewrite Heq, filter_In. unfold Calendar.dueToday.
  split.
  - intros [Hin H]. split; [exact Hin|].
    destruct (Calendar.deadlineDay tz t) as [d | ]; [ | discriminate].
    apply andb_true_iff in H. destruct H as [Hday Hdone].
    apply Z.eqb_eq in Hday. apply negb_true_iff in Hdone.
    split; [congruence | exact Hdone].
  - intros (Hin & Hday & Hdone). split; [exact Hin|].
    rewrite Hday, Hdone, Z.eqb_refl. reflexivity.
Qed.

(** The scenario of the specification: of a task due today and not done,
    and a task done with its deadline ten days ahead, one is completed,
    which is 50 percent, and the first alone is due today. *)
Lemma statistics_scenario (tz now : Z) (t1 t2 : Task) (tv1 tv2 : Z) :
  deadline t1 = Some (JSDate.TimeValue tv1) ->
  Calendar.localDay tz tv1 = Calendar.localDay tz now ->
  done t1 = false ->
  deadline t2 = Some (JSDate.TimeValue tv2) ->
  Calendar.localDay tz tv2 = Calendar.localDay tz now + 10 ->
  done t2 = true ->
  Home.completedTasksCount (Home.taskStats tz now [t1; t2]) = 1%nat
  /\ Home.completedTaskPercentage (Home.taskStats tz now [t1; t2])
     = JSNumber.ofZ 50
  /\ Home.dueTodayTasks tz now [t1; t2] = [t1].
Proof.
  intros Hd1 Hday1 Hdone1 Hd2 Hday2 Hdone2.
  assert (Hc : Home.completedCount [t1; t2] = 1%nat).
  { unfold Home.completedCount. cbn [List.filter].
    rewrite Hdone1, Hdone2. reflexivity. }
  split; [exact Hc | split].
  - cbn [Home.taskStats Home.completedTaskPercentage].
    unfold Home.completedPercentage. rewrite Hc.
    vm_compute. reflexivity.
  - unfold Home.dueTodayTasks.
    rewrite (filter_ext _ _ (dueToday_predicate tz now)).
    cbn [List.filter]. unfold Calendar.dueToday, Calendar.deadlineDay.
    rewrite Hd1, Hd2. cbn [Calendar.dayOf].
    rewrite Hday1, Hday2, Hdone1, Hdone2, Z.eqb_refl.
    cbn [negb andb]. rewrite andb_false_r. reflexivity.
Qed.

Lemma filter_all {A : Type} (f : A -> bool) (l : list A) :
  (forall x, In x l -> f x = true) -> List.filter f l = l.
Proof.
  induction l as [ | a l IH]; intros H; [reflexivity|].
  cbn [List.filter]. rewrite (H a (or_introl eq_refl)).
  f_equal. apply IH. intros x Hx. apply H. right. exact Hx.
Qed.

(** C4: the completion percentage is the quotient of the number of done
    tasks by the number of tasks, times 100, in binary64 arithmetic; it is
    0 for the empty collection, where nothing is divided; the divisor is
    never zero; and it is 100 when the collection is not empty and every
    task is done.  An array has fewer than 2^32 elements. *)
Theorem completed_percentage_value (tz now : Z) (tasks : list Task) :
  Z.of_nat (List.length tasks) < 2 ^ 32 ->
  let percentage :=
    Home.completedTaskPercentage (Home.taskStats tz now tasks) in
  Home.completedTasksCount (Home.taskStats tz now tasks)
  = List.length (List.filter done tasks)
  /\ (tasks = [] -> percentage = JSNumber.ofZ 0)
  /\ (tasks <> [] ->
      percentage
      = JSNumber.mul
          (JSNumber.div
             (JSNumber.ofNat (List.length (List.filter done tasks)))
             (JSNumber.ofNat (List.length tasks)))
          (JSNumber.ofZ 100)
      /\ exists m e,
           JSNumber.ofNat (List.length tasks) = S754_finite false m e)
  /\ (tasks <> [] -> (forall t, In t tasks -> done t = true) ->
      percentage = JSNumber.ofZ 100).
Proof.
  intros Hlen percentage. subst percentage.
  cbn [Home.taskStats Home.completedTaskPercentage Home.completedTasksCount].
  assert (Hfin : tasks <> [] ->
                 exists m e,
                   JSNumber.ofNat (List.length tasks) = S754_finite false m e).
  { intros Hne. apply ofNat_finite.
    - destruct tasks; [congruence | cbn; lia].
    - assert (2 ^ 32 < 2 ^ 53) by reflexivity. lia. }
  assert (Hpos : tasks <> [] -> (0 <? List.length tasks)%nat = true).
  { intros Hne. apply Nat.ltb_lt. destruct tasks; [congruence | cbn; lia]. }
  split; [reflexivity | split; [ | split]].
  - intros ->. reflexivity.
  - intros Hne. split; [ | exact (Hfin Hne)].
    unfold Home.completedPercentage, Home.completedCount.
    rewrite (Hpos Hne). reflexivity.
  - intros Hne Hall.
    unfold Home.completedPercentage, Home.completedCount.
    rewrite (Hpos Hne), (filter_all (fun task => done task) tasks Hall).
    destruct (Hfin Hne) as (m & e & ->).
    rewrite div_self. apply mul_one_hundred.
Qed.

Lemma completed_percentage_value_witness :
  Home.completedTaskPercentage
    (Home.taskStats 0 sampleNow
       [sampleTask "a" true None; sampleTask "b" true (Some monday);
        sampleTask "c" true None])
  = JSNumber.ofZ 100.
Proof.
  refine (proj2 (proj2 (proj2
    (completed_percentage_value 0 sampleNow
       [sampleTask "a" true None; sampleTask "b" true (Some monday);
        sampleTask "c" true None] _))) _ _).
  - vm_compute. reflexivity.
  - discriminate.
  - intros t [<- | [<- | [<- | []]]]; reflexivity.
Defined.

(** ** The home page: the texts *)

Ltac distinct_texts :=
  let H := fresh "H" in intros H; vm_compute in H; discriminate H.

Lemma jsstring_eqb_eq (a b : jsstring) : JSString.eqb a b = true <-> a = b.
Proof.
  revert b. induction a as [ | x a IH]; intros [ | y b]; cbn [JSString.eqb];
    try (split; (reflexivity || discriminate)).
  rewrite andb_true_iff, N.eqb_eq, IH.
  split; [intros [-> ->]; reflexivity | intros [= -> ->]; split; reflexivity].
Qed.

(** On the whole percentages from 0 to 100 the comparisons of binary64
    numbers select the tier that the integer thresholds give. *)
Lemma completion_text_of_whole_percent (k : Z) (totalTasks : nat) :
  0 <= k <= 100 -> totalTasks <> 0%nat ->
  Home.taskCompletionTextOf (JSNumber.ofZ k) totalTasks = Tiers.tierOfPercent k.
Proof.
  intros Hk Hn.
  assert (Hall :
            forallb
              (fun i => JSString.eqb
                          (Home.taskCompletionTextOf
                             (JSNumber.ofZ (Z.of_nat i)) 1)
                          (Tiers.tierOfPercent (Z.of_nat i)))
              (seq 0 101) = true) by (vm_compute; reflexivity).
  rewrite forallb_forall in Hall.
  specialize (Hall (Z.to_nat k)).
  rewrite Z2Nat.id in Hall by lia.
  rewrite <- (proj1 (jsstring_eqb_eq _ _) (Hall ltac:(apply in_seq; lia))).
  destruct totalTasks; [congruence | reflexivity].
Qed.

(** C2 (Home.tsx): the tiers of the completion text are tried in the order
    no tasks, all done, at least 75, at least 50, at least 25, and else just
    started, the first that holds winning; with no task the text is the one
    of the first tier whatever the percentage; 74 and 75 percent of ten
    tasks fall in different tiers; on whole percentages the tier is the one
    of the integer thresholds; and the six texts differ from one another. *)
Theorem completion_text_tiers :
  (forall (percentage : number) (totalTasks : nat),
      Home.taskCompletionTextOf percentage totalTasks
      = Tiers.firstMatch (Tiers.completionTiers percentage totalTasks)
          Home.textJustStarted)
  /\ (forall (tz now : Z) (tasks : list Task),
        Home.taskCompletionText tz now tasks
        = Home.taskCompletionTextOf (Home.completedPercentage tasks)
            (List.length tasks))
  /\ (forall x : number, Home.taskCompletionTextOf x 0 = Home.textNoTasks)
  /\ Home.taskCompletionTextOf (JSNumber.ofZ 100) 10 = Home.textAllDone
  /\ Home.taskCompletionTextOf (JSNumber.ofZ 75) 10 = Home.textAlmostThere
  /\ Home.taskCompletionTextOf (JSNumber.ofZ 74) 10 = Home.textHalfway
  /\ Home.taskCompletionTextOf (JSNumber.ofZ 25) 10 = Home.textGoodProgress
  /\ Home.taskCompletionTextOf (JSNumber.ofZ 24) 10 = Home.textJustStarted
  /\ Home.taskCompletionTextOf (JSNumber.ofZ 74) 10
     <> Home.taskCompletionTextOf (JSNumber.ofZ 75) 10
  /\ (forall (k : Z) (totalTasks : nat),
        0 <= k <= 100 -> totalTasks <> 0%nat ->
        Home.taskCompletionTextOf (JSNumber.ofZ k) totalTasks
        = Tiers.tierOfPercent k)
  /\ NoDup [Home.textNoTasks; Home.textAllDone; Home.textAlmostThere;
            Home.textHalfway; Home.textGoodProgress; Home.textJustStarted].
Proof.
  split; [intros; reflexivity|].
  split; [intros; reflexivity|].
  split; [intros; reflexivity|].
  repeat (split; [vm_compute; reflexivity|]).
  split; [distinct_texts|].
  split; [exact completion_text_of_whole_percent|].
  repeat (constructor;
          [cbn [In]; intros H;
           repeat (destruct H as [H | H]; [vm_compute in H; discriminate H|]);
           exact H|]).
  constructor.
Qed.

(** The second copy of the page has no tier for the empty collection: it
    reads the percentage alone, and 0 percent gets its first text. *)
Lemma variant_completion_text_ignores_total :
  HomeVariant.taskCompletionTextOf (JSNumber.ofZ 0)
  = JSString.lit "No tasks completed yet. Keep going!"
  /\ HomeVariant.taskCompletionTextOf (JSNumber.ofZ 100)
     = JSString.lit "Congratulations! All tasks completed!".
Proof. split; vm_compute; reflexivity. Qed.

Lemma getHours_range (tz now : Z) : 0 <= JSDate.getHours tz now <= 23.
Proof.
  unfold JSDate.getHours, JSDate.HourFromTime.
  pose proof (Z.mod_pos_bound (JSDate.LocalTime tz now / JSDate.msPerHour) 24).
  lia.
Qed.

(** The greeting of an hour, with the interval the hour lies in. *)
Lemma timeGreetingAt_cases (h : Z) :
  (5 <= h < 12 /\ Home.timeGreetingAt h = Home.goodMorning)
  \/ (12 <= h < 17 /\ Home.timeGreetingAt h = Home.goodAfternoon)
  \/ (17 <= h < 21 /\ Home.timeGreetingAt h = Home.goodEvening)
  \/ ((h < 5 \/ 21 <= h) /\ Home.timeGreetingAt h = Home.goodNight).
Proof.
  unfold Home.timeGreetingAt. rewrite !Z.geb_leb.
  destruct (Z.leb_spec 5 h), (Z.ltb_spec h 12); cbn [andb];
    [left; split; [lia | reflexivity] | | | ];
    destruct (Z.leb_spec 12 h), (Z.ltb_spec h 17); cbn [andb];
    try lia;
    try (right; left; split; [lia | reflexivity]);
    destruct (Z.leb_spec 17 h), (Z.ltb_spec h 21); cbn [andb];
    try lia;
    try (right; right; left; split; [lia | reflexivity]);
    right; right; right; (split; [lia | reflexivity]).
Qed.

Lemma greetings_distinct :
  NoDup [Home.goodMorning; Home.goodAfternoon; Home.goodEvening;
         Home.goodNight].
Proof.
  repeat (constructor;
          [cbn [In]; intros H;
           repeat (destruct H as [H | H]; [vm_compute in H; discriminate H|]);
           exact H|]).
  constructor.
Qed.

(** C3 (Home.tsx): an hour from 0 to 23 gets the greeting of exactly one of
    four tiers: the morning from 5 to 11, the afternoon from 12 to 16, the
    evening from 17 to 20, the night otherwise; the four greetings differ,
    so 4 and 5 are in different tiers, and so are 11 and 12; the hour the
    page reads is in that range. *)
Theorem time_greeting_tiers (h : Z) :
  0 <= h <= 23 ->
  (Home.timeGreetingAt h = Home.goodMorning <-> 5 <= h < 12)
  /\ (Home.timeGreetingAt h = Home.goodAfternoon <-> 12 <= h < 17)
  /\ (Home.timeGreetingAt h = Home.goodEvening <-> 17 <= h < 21)
  /\ (Home.timeGreetingAt h = Home.goodNight
      <-> 0 <= h < 5 \/ 21 <= h <= 23)
  /\ NoDup [Home.goodMorning; Home.goodAfternoon; Home.goodEvening;
            Home.goodNight]
  /\ Home.timeGreetingAt 4 <> Home.timeGreetingAt 5
  /\ Home.timeGreetingAt 11 <> Home.timeGreetingAt 12
  /\ (forall tz now : Z,
        Home.timeGreeting tz now
        = Home.timeGreetingAt (JSDate.getHours tz now)
        /\ 0 <= JSDate.getHours tz now <= 23).
Proof.
  intros Hh.
  pose proof (timeGreetingAt_cases h) as Hc.
  split; [ | split; [ | split; [ | split; [ | split;
    [exact greetings_distinct
    | split; [distinct_texts | split; [distinct_texts | ]]]]]]].
  1-4: split; intros H;
    destruct Hc as [[Hr E] | [[Hr E] | [[Hr E] | [Hr E]]]];
    try lia; try exact E;
    try (rewrite E in H; vm_compute in H; discriminate H).
  intros tz now. split; [reflexivity | apply getHours_range].
Qed.

Lemma time_greeting_tiers_witness :
  Home.timeGreetingAt 11 = Home.goodMorning <-> 5 <= 11 < 12.
Proof.
  refine (proj1 (time_greeting_tiers 11 _)). lia.
Defined.

(** The second copy of the page has three tiers: the afternoon lasts until
    18 and every other hour outside the morning is the evening. *)
Lemma variant_time_greeting_three_tiers :
  HomeVariant.timeGreetingAt 17 = JSString.lit "Good afternoon"
  /\ HomeVariant.timeGreetingAt 22 = JSString.lit "Good evening"
  /\ HomeVariant.timeGreetingAt 4 = JSString.lit "Good evening".
Proof. repeat split; vm_compute; reflexivity. Qed.

(** ** The task details *)

(** C9: a task without priority is displayed as a task of priority Medium:
    its configuration is the Medium one, the name on its chip is "Medium",
    and chip, label and colours are those of the same task with the
    priority set to Medium. *)
Theorem absent_priority_displays_medium (task : Task) :
  priority task = None ->
  TaskDetails.priorityConfig task = Some TaskDetails.mediumStyle
  /\ TaskDetails.priorityOrMedium task = JSString.lit "Medium"
  /\ TaskDetails.priorityOrMedium task = priorityString Medium
  /\ TaskDetails.priorityLabel task
     = Some (TaskDetails.styleEmoji TaskDetails.mediumStyle
             ++ JSString.lit " Medium")
  /\ (forall task' : Task,
        priority task' = Some Medium ->
        TaskDetails.priorityConfig task = TaskDetails.priorityConfig task'
        /\ TaskDetails.priorityLabel task = TaskDetails.priorityLabel task'
        /\ TaskDetails.priorityChipColors task
           = TaskDetails.priorityChipColors task').
Proof.
  intros Hp.
  assert (Hk : TaskDetails.priorityOrMedium task = JSString.lit "Medium").
  { unfold TaskDetails.priorityOrMedium. rewrite Hp. reflexivity. }
  assert (Hc : TaskDetails.priorityConfig task = Some TaskDetails.mediumStyle).
  { unfold TaskDetails.priorityConfig. rewrite Hk. reflexivity. }
  split; [exact Hc | split; [exact Hk | split; [exact Hk | split]]].
  - unfold TaskDetails.priorityLabel. rewrite Hc, Hk. reflexivity.
  - intros task' Hp'.
    assert (Hk' : TaskDetails.priorityOrMedium task' = JSString.lit "Medium").
    { unfold TaskDetails.priorityOrMedium. rewrite Hp'. reflexivity. }
    unfold TaskDetails.priorityLabel, TaskDetails.priorityChipColors,
      TaskDetails.priorityConfig.
    rewrite Hk, Hk'. repeat split; reflexivity.
Qed.

Lemma absent_priority_displays_medium_witness :
  TaskDetails.priorityConfig (sampleTask "a" false None)
  = Some TaskDetails.mediumStyle.
Proof.
  refine (proj1 (absent_priority_displays_medium (sampleTask "a" false None) _)).
  reflexivity.
Defined.

(** Every priority has its configuration, so the chip is always drawn. *)
Lemma priorityConfig_defined (task : Task) :
  exists cfg, TaskDetails.priorityConfig task = Some cfg.
Proof.
  unfold TaskDetails.priorityConfig, TaskDetails.priorityOrMedium.
  destruct (priority task) as [[ | | | ] | ]; eexists; reflexivity.
Qed.

(** ** The add-task dialog *)

Section AddTaskFacts.

Import JSString JSDate.

Variables tz now : Z.

Lemma truthy_false (s : jsstring) : truthy s = false <-> s = [].
Proof. destruct s; split; intros H; (reflexivity || discriminate). Qed.

Lemma today_is_startOfToday :
  setHours tz (TimeValue now) 0 0 0 0 = TimeValue (Rules.startOfToday tz now).
Proof.
  unfold Rules.startOfToday, Calendar.localDay, setHours, UTC, MakeDate,
    MakeTime. f_equal. lia.
Qed.

Lemma deadline_check (dl : jsstring) :
  ltb (parse tz dl) (setHours tz (TimeValue now) 0 0 0 0) = true
  <-> exists tv, parse tz dl = TimeValue tv /\ tv < Rules.startOfToday tz now.
Proof.
  rewrite today_is_startOfToday. unfold ltb.
  destruct (parse tz dl) as [tv | ].
  - rewrite Z.ltb_lt. split.
    + intros H. exists tv. split; [reflexivity | exact H].
    + intros (tv' & [= <-] & H). exact H.
  - split; [discriminate | intros (tv' & H & _); discriminate].
Qed.

(** [validateForm] answers false exactly on the refused forms. *)
Lemma validateForm_rejects (st : AddTask.FormState) :
  fst (AddTask.validateForm tz now st) = false <-> Rules.refused tz now st.
Proof.
  unfold AddTask.validateForm, Rules.refused.
  destruct (truthy (trim (AddTask.name st))) eqn:Hname; cbn [negb].
  2:{ cbn [fst]. apply truthy_false in Hname. tauto. }
  assert (Hn : trim (AddTask.name st) <> []).
  { intros H. apply truthy_false in H. congruence. }
  destruct (Nat.ltb_spec 100 (length (trim (AddTask.name st)))) as [H1 | H1].
  { cbn [fst]. tauto. }
  destruct (Nat.ltb_spec 500 (length (AddTask.description st))) as [H2 | H2].
  { cbn [fst]. tauto. }
  destruct (truthy (AddTask.deadline st)) eqn:Hdl.
  - assert (Hd : AddTask.deadline st <> []).
    { intros H. apply truthy_false in H. congruence. }
    pose proof (deadline_check (AddTask.deadline st)) as Hcheck.
    destruct (ltb (parse tz (AddTask.deadline st))
                  (setHours tz (TimeValue now) 0 0 0 0)); cbn [fst].
    + split; [intros _ | reflexivity].
      right. right. right. split; [exact Hd | apply Hcheck; reflexivity].
    + split; [discriminate|].
      intros [H | [H | [H | [_ H]]]]; try contradiction; try lia.
      apply Hcheck in H. discriminate H.
  - cbn [fst]. apply truthy_false in Hdl.
    split; [discriminate|].
    intros [H | [H | [H | [H _]]]]; try contradiction; try lia.
Qed.

(** [validateForm] touches the error text alone, and nothing when it
    answers true. *)
Lemma validateForm_form (st : AddTask.FormState) :
  let st' := snd (AddTask.validateForm tz now st) in
  AddTask.open st' = AddTask.open st
  /\ AddTask.name st' = AddTask.name st
  /\ AddTask.description st' = AddTask.description st
  /\ AddTask.deadline st' = AddTask.deadline st
  /\ AddTask.priority st' = AddTask.priority st
  /\ (fst (AddTask.validateForm tz now st) = true -> st' = st)
  /\ (fst (AddTask.validateForm tz now st) = false ->
      AddTask.error st' <> []).
Proof.
  unfold AddTask.validateForm.
  repeat match goal with
         | |- context [if ?b then _ else _] => destruct b
         end;
    cbn [fst snd AddTask.setError AddTask.open AddTask.name
           AddTask.description AddTask.deadline AddTask.priority
           AddTask.error];
    repeat split; try reflexivity; try discriminate;
    intros _; vm_compute; discriminate.
Qed.

Lemma parseDatePart_app (s suffix rest : jsstring) (y m d : Z) :
  parseDatePart s = Some (y, m, d, rest) ->
  parseDatePart (s ++ suffix) = Some (y, m, d, rest ++ suffix).
Proof.
  do 10 (destruct s as [ | ? s]; [discriminate|]).
  cbn [app]. unfold parseDatePart.
  destruct (isChar _ "-" && isChar _ "-"); [ | discriminate].
  destruct (digits4 _ _ _ _) as [y' | ]; [ | discriminate].
  destruct (digits2 _ _) as [m' | ]; [ | discriminate].
  destruct (digits2 _ _) as [d' | ]; [ | discriminate].
  destruct ((1 <=? m') && (m' <=? 12) && (1 <=? d') && (d' <=? 31));
    [ | discriminate].
  intros [= <- <- <- <-]. reflexivity.
Qed.

(** The deadline stored for a date string is 23:59:59 of that day in
    local time. *)
Lemma stored_deadline (dl : jsstring) (y m d : Z) :
  parseDatePart dl = Some (y, m, d, []) ->
  parse tz (dl ++ lit "T23:59:59")
  = TimeValue (Rules.endOfChosenDay tz y m d).
Proof.
  intros H. unfold parse.
  rewrite (parseDatePart_app dl (lit "T23:59:59") [] y m d H).
  reflexivity.
Qed.

(** A date string read alone is midnight of that day in UTC. *)
Lemma validated_deadline (dl : jsstring) (y m d : Z) :
  parseDatePart dl = Some (y, m, d, []) ->
  parse tz dl = TimeValue (MakeDay y (m - 1) d * msPerDay).
Proof.
  intros H. unfold parse. rewrite H. unfold MakeDate. f_equal. lia.
Qed.

End AddTaskFacts.

(** Adding a task is all or nothing, by the test of [validateForm].  On a
    refused form (trimmed name empty or longer than 100, description
    longer than 500, or a deadline supplied whose date is read as an
    instant before the start of today) the user and the task collection
    are unchanged, the form keeps its fields and shows an error.  On any other form exactly one task is
    appended, not done, not pinned, with the trimmed name, without deadline
    when none was supplied and with the deadline at 23:59:59 local time of
    the chosen day when a date was supplied; the rest of the user is kept
    and the form is closed and blank. *)
Lemma handleAddTask_all_or_nothing
    (tz now : Z) (uuid : UUID) (st : AddTask.FormState) (user : User) :
  let result := AddTask.handleAddTask tz now uuid st user in
  (Rules.refused tz now st ->
     snd result = user
     /\ tasks (snd result) = tasks user
     /\ AddTask.name (fst result) = AddTask.name st
     /\ AddTask.description (fst result) = AddTask.description st
     /\ AddTask.deadline (fst result) = AddTask.deadline st
     /\ AddTask.open (fst result) = AddTask.open st
     /\ AddTask.error (fst result) <> [])
  /\ (~ Rules.refused tz now st ->
      exists t : Task,
        tasks (snd result) = tasks user ++ [t]
        /\ List.length (tasks (snd result)) = S (List.length (tasks user))
        /\ done t = false
        /\ pinned t = false
        /\ id t = uuid
        /\ name t = JSString.trim (AddTask.name st)
        /\ priority t = Some (AddTask.priority st)
        /\ (AddTask.deadline st = [] -> deadline t = None)
        /\ (forall y m d : Z,
              JSDate.parseDatePart (AddTask.deadline st) = Some (y, m, d, []) ->
              deadline t
              = Some (JSDate.TimeValue (Rules.endOfChosenDay tz y m d))
              /\ JSDate.LocalTime tz (Rules.endOfChosenDay tz y m d)
                 = JSDate.MakeDate (JSDate.MakeDay y (m - 1) d)
                     (JSDate.MakeTime 23 59 59 0))
        /\ userName (snd result) = userName user
        /\ settings (snd result) = settings user
        /\ fst result = AddTask.handleClose st).
Proof.
  intros result. subst result. unfold AddTask.handleAddTask.
  set (st0 := AddTask.setError st (JSString.lit "")).
  assert (Hrej : Rules.refused tz now st0 <-> Rules.refused tz now st)
    by reflexivity.
  pose proof (validateForm_rejects tz now st0) as Hv.
  pose proof (validateForm_form tz now st0) as Hf.
  destruct (AddTask.validateForm tz now st0) as [valid st1].
  cbn [fst snd] in Hv, Hf.
  destruct Hf as (Hopen & Hname & Hdesc & Hdl & Hprio & Hsame & Herr).
  destruct valid; cbn [negb fst snd].
  - split.
    + intros H. apply Hrej, Hv in H. discriminate H.
    + intros _. rewrite (Hsame eq_refl).
      exists (AddTask.newTask tz now uuid st0).
      cbn [tasks userName settings AddTask.newTask done pinned id name
             priority deadline].
      repeat split.
      * rewrite length_app. cbn. lia.
      * intros H. change (AddTask.deadline st0) with (AddTask.deadline st).
        rewrite H. reflexivity.
      * change (AddTask.deadline st0) with (AddTask.deadline st).
        destruct (AddTask.deadline st) as [ | c dl] eqn:E;
          [discriminate | cbn [JSString.truthy]].
        rewrite <- E.
        rewrite (stored_deadline tz (AddTask.deadline st) y m d);
          [reflexivity | rewrite E; assumption].
      * unfold Rules.endOfChosenDay, JSDate.LocalTime, JSDate.UTC. lia.
  - split.
    + intros _. repeat split; try assumption; apply Herr; reflexivity.
    + intros H. exfalso. apply H, Hrej, Hv. reflexivity.
Qed.

(** The date checked by the validation is midnight in UTC of the chosen
    day, while today starts at local midnight: at or east of Greenwich a
    date is rejected exactly when its day is before today, west of it
    today is rejected too. *)
Lemma deadline_check_by_day (tz now : Z) (dl : jsstring) (y m d : Z) :
  JSDate.parseDatePart dl = Some (y, m, d, []) ->
  - JSDate.msPerDay < tz < JSDate.msPerDay ->
  (0 <= tz ->
   (JSDate.ltb (JSDate.parse tz dl)
      (JSDate.setHours tz (JSDate.TimeValue now) 0 0 0 0) = true
    <-> JSDate.MakeDay y (m - 1) d < Calendar.localDay tz now))
  /\ (tz < 0 ->
      (JSDate.ltb (JSDate.parse tz dl)
         (JSDate.setHours tz (JSDate.TimeValue now) 0 0 0 0) = true
       <-> JSDate.MakeDay y (m - 1) d <= Calendar.localDay tz now)).
Proof.
  intros Hp Htz.
  rewrite (validated_deadline tz dl y m d Hp), today_is_startOfToday.
  unfold JSDate.ltb, Rules.startOfToday. rewrite Z.ltb_lt.
  unfold JSDate.msPerDay in *. split; intros; lia.
Qed.

(** Five hours west of Greenwich, on the morning of 2 November 2026, a
    task due on 2 November is refused and nothing is added; in UTC the
    same form adds the task. *)
Example today_refused_west_of_greenwich :
  let st := {| AddTask.open := true; AddTask.name := JSString.lit "Pay rent";
               AddTask.description := JSString.lit "";
               AddTask.deadline := JSString.lit "2026-11-02";
               AddTask.priority := Medium; AddTask.error := JSString.lit "" |} in
  let user := {| userName := None; tasks := [];
                 settings := {| enableGlow := true; showProgressBar := true |} |} in
  Calendar.localDay (-18000000) sampleNow = JSDate.MakeDay 2026 10 2
  /\ tasks (snd (AddTask.handleAddTask (-18000000) sampleNow
                   (JSString.lit "id") st user)) = []
  /\ AddTask.error (fst (AddTask.handleAddTask (-18000000) sampleNow
                           (JSString.lit "id") st user))
     = JSString.lit "Deadline cannot be in the past"
  /\ List.length (tasks (snd (AddTask.handleAddTask 0 sampleNow
                                (JSString.lit "id") st user))) = 1%nat.
Proof. vm_compute. repeat split; reflexivity. Qed.

(** The test against the rule, for a form whose date field holds a date:
    at or east of Greenwich the page refuses exactly the forms that the
    rule rejects; west of Greenwich it refuses, besides those, every form
    whose date is today. *)
Lemma refused_against_rejected
    (tz now : Z) (st : AddTask.FormState) (y m d : Z) :
  JSDate.parseDatePart (AddTask.deadline st) = Some (y, m, d, []) ->
  - JSDate.msPerDay < tz < JSDate.msPerDay ->
  (0 <= tz -> (Rules.refused tz now st <-> Rules.rejected tz now st))
  /\ (tz < 0 ->
      (Rules.refused tz now st
       <-> Rules.rejected tz now st
           \/ JSDate.MakeDay y (m - 1) d = Calendar.localDay tz now)).
Proof.
  intros Hp Htz.
  assert (Hne : AddTask.deadline st <> []).
  { intros E. rewrite E in Hp. discriminate. }
  assert (Hdate : forall P : Prop,
             (JSDate.MakeDay y (m - 1) d * JSDate.msPerDay
              < Rules.startOfToday tz now <-> P) ->
             (AddTask.deadline st <> []
              /\ (exists tv,
                    JSDate.parse tz (AddTask.deadline st) = JSDate.TimeValue tv
                    /\ tv < Rules.startOfToday tz now)) <-> P).
  { intros P HP. rewrite (validated_deadline tz _ y m d Hp). split.
    - intros (_ & tv & [= <-] & H). apply HP. exact H.
    - intros H. split; [exact Hne|]. eexists. split; [reflexivity|].
      apply HP. exact H. }
  assert (Hrule : (AddTask.deadline st <> []
                   /\ (exists y' m' d',
                         JSDate.parseDatePart (AddTask.deadline st)
                         = Some (y', m', d', [])
                         /\ JSDate.MakeDay y' (m' - 1) d'
                            < Calendar.localDay tz now))
                  <-> JSDate.MakeDay y (m - 1) d < Calendar.localDay tz now).
  { rewrite Hp. split.
    - intros (_ & y' & m' & d' & [= <- <- <-] & H). exact H.
    - intros H. split; [exact Hne|]. exists y, m, d. split; [reflexivity|].
      exact H. }
  unfold Rules.refused, Rules.rejected. rewrite Hrule.
  unfold Rules.startOfToday, JSDate.msPerDay in *.
  split; intros Hsign.
  - rewrite (Hdate (JSDate.MakeDay y (m - 1) d < Calendar.localDay tz now))
      by (split; intros; lia).
    reflexivity.
  - rewrite (Hdate (JSDate.MakeDay y (m - 1) d < Calendar.localDay tz now
                    \/ JSDate.MakeDay y (m - 1) d = Calendar.localDay tz now))
      by (split; intros; lia).
    tauto.
Qed.

(** Without [crypto.randomUUID] nothing is ever added: the user is left as
    it is, and a form that passes the validation stays as it is too, with
    the text of the [catch] branch as its error. *)
Lemma handleAddTask_without_randomUUID
    (tz now : Z) (st : AddTask.FormState) (user : User) :
  snd (AddTaskTry.handleAddTask tz now None st user) = user
  /\ (fst (AddTask.validateForm tz now st) = true ->
      fst (AddTaskTry.handleAddTask tz now None st user)
      = AddTask.setError st
          (JSString.lit "Failed to add task. Please try again.")).
Proof.
  unfold AddTaskTry.handleAddTask.
  set (st0 := AddTask.setError st (JSString.lit "")).
  assert (Hfst : fst (AddTask.validateForm tz now st0)
                 = fst (AddTask.validateForm tz now st)).
  { unfold AddTask.validateForm, st0.
    cbn [AddTask.setError AddTask.name AddTask.description AddTask.deadline].
    repeat match goal with
           | |- context [if ?b then _ else _] => destruct b
           end; reflexivity. }
  pose proof (validateForm_form tz now st0) as Hf.
  destruct (AddTask.validateForm tz now st0) as [valid st1].
  cbn [fst snd] in Hf, Hfst.
  destruct Hf as (_ & _ & _ & _ & _ & Hsame & _).
  destruct valid; cbn [negb fst snd].
  - split; [reflexivity|]. intros _. rewrite (Hsame eq_refl). reflexivity.
  - split; [reflexivity|]. intros H. rewrite <- Hfst in H. discriminate H.
Qed.

(** C10: a deadline of today is refused west of Greenwich.  Five hours west
    of Greenwich, at 07:00 local time of 2 November 2026, the form with the
    date 2026-11-02 is not rejected by the rule, its day being today; yet
    the handler, whatever [crypto.randomUUID] does, appends nothing and
    leaves the form with the error "Deadline cannot be in the past".  At
    Greenwich the same click at the same instant appends the task, due at
    23:59:59 of that day. *)
Theorem deadline_of_today_is_refused_west_of_greenwich
    (randomUUID : option UUID) :
  let st := {| AddTask.open := true; AddTask.name := JSString.lit "Pay rent";
               AddTask.description := JSString.lit "";
               AddTask.deadline := JSString.lit "2026-11-02";
               AddTask.priority := Medium; AddTask.error := JSString.lit "" |} in
  let user := {| userName := None; tasks := [sampleTask "a" false None];
                 settings := {| enableGlow := true; showProgressBar := true |} |} in
  Calendar.localDay (-18000000) sampleNow = JSDate.MakeDay 2026 10 2
  /\ ~ Rules.rejected (-18000000) sampleNow st
  /\ AddTaskTry.handleAddTask (-18000000) sampleNow randomUUID st user
     = (AddTask.setError st (JSString.lit "Deadline cannot be in the past"),
        user)
  /\ AddTaskTry.handleAddTask 0 sampleNow (Some (JSString.lit "id")) st user
     = (AddTask.handleClose st,
        {| userName := None;
           tasks := [sampleTask "a" false None;
                     AddTask.newTask 0 sampleNow (JSString.lit "id") st];
           settings := {| enableGlow := true; showProgressBar := true |} |})
  /\ deadline (AddTask.newTask 0 sampleNow (JSString.lit "id") st)
     = Some (JSDate.TimeValue (Rules.endOfChosenDay 0 2026 11 2)).
Proof.
  intros st user. split; [reflexivity | split; [ | split; [ | split]]].
  - unfold Rules.rejected.
    intros [H | [H | [H | (_ & y & m & d & Hp & Hlt)]]].
    + vm_compute in H. discriminate H.
    + cbn in H. lia.
    + cbn in H. lia.
    + vm_compute in Hp. injection Hp as <- <- <-.
      vm_compute in Hlt. discriminate Hlt.
  - destruct randomUUID as [uuid | ]; vm_compute; reflexivity.
  - vm_compute. reflexivity.
  - vm_compute. reflexivity.
Qed.

(** * Further properties of the pages *)

(** ** List lemmas *)

Lemma filter_filter {A : Type} (f g : A -> bool) (l : list A) :
  List.filter f (List.filter g l) = List.filter (fun x => g x && f x) l.
Proof.
  induction l as [ | a l IH]; [reflexivity|].
  cbn [List.filter]. destruct (g a); cbn [List.filter andb].
  - destruct (f a); rewrite IH; reflexivity.
  - exact IH.
Qed.

Lemma filter_length_split {A : Type} (f : A -> bool) (l : list A) :
  (List.length (List.filter f l)
   + List.length (List.filter (fun x => negb (f x)) l))%nat
  = List.length l.
Proof.
  induction l as [ | a l IH]; [reflexivity|].
  cbn [List.filter]. destruct (f a); cbn [negb List.length]; lia.
Qed.

Lemma filter_length_mono {A : Type} (f g : A -> bool) (l : list A) :
  (forall x, f x = true -> g x = true) ->
  (List.length (List.filter f l) <= List.length (List.filter g l))%nat.
Proof.
  intros H. induction l as [ | a l IH]; [cbn; lia|].
  cbn [List.filter]. destruct (f a) eqn:Ef.
  - rewrite (H a Ef). cbn [List.length]. lia.
  - destruct (g a); cbn [List.length]; lia.
Qed.

Lemma filter_length_le {A : Type} (f : A -> bool) (l : list A) :
  (List.length (List.filter f l) <= List.length l)%nat.
Proof.
  induction l as [ | a l IH]; [cbn; lia|].
  cbn [List.filter]. destruct (f a); cbn [List.length]; lia.
Qed.

(** ** The filter as a selection *)

(** Whatever the mode and the bounds, the filter keeps some of the tasks in
    their order. *)
Lemma filteredTasks_is_filter (tz now : Z) (filter : jsstring)
    (tasks : list Task) (cs ce : option Dayjs.t) :
  exists keep : Task -> bool,
    Home.filteredTasks tz now filter tasks cs ce = List.filter keep tasks.
Proof.
  unfold Home.filteredTasks.
  destruct (JSString.eqb filter (JSString.lit "Today")); [eexists; reflexivity|].
  destruct (JSString.eqb filter (JSString.lit "This Week"));
    [eexists; reflexivity|].
  assert (Hall : exists keep : Task -> bool, tasks = List.filter keep tasks).
  { exists (fun _ => true). symmetry. apply filter_all. reflexivity. }
  destruct (JSString.eqb filter (JSString.lit "Custom")); [ | exact Hall].
  destruct cs as [s | ]; [ | exact Hall].
  destruct ce as [e | ]; [ | exact Hall].
  eexists; reflexivity.
Qed.

(** X1: for every mode and every pair of bounds, the filtered list is a
    selection of the task collection in its order: it holds only tasks of
    the collection, no more of them than the collection has, none twice if
    the collection has none twice, and it is empty for the empty
    collection. *)
Theorem filtered_tasks_are_a_selection
    (tz now : Z) (filter : jsstring) (tasks : list Task)
    (customStart customEnd : option Dayjs.t) :
  let shown := Home.filteredTasks tz now filter tasks customStart customEnd in
  (exists keep : Task -> bool, shown = List.filter keep tasks)
  /\ (forall t, In t shown -> In t tasks)
  /\ (List.length shown <= List.length tasks)%nat
  /\ (NoDup tasks -> NoDup shown)
  /\ (tasks = [] -> shown = []).
Proof.
  intros shown. subst shown.
  destruct (filteredTasks_is_filter tz now filter tasks customStart customEnd)
    as [keep ->].
  split; [exists keep; reflexivity|].
  split; [intros t H; apply filter_In in H; exact (proj1 H)|].
  split; [apply filter_length_le|].
  split; [apply NoDup_filter|].
  intros ->. reflexivity.
Qed.

(** X2: the Custom range does not depend on the order of its bounds: with
    start and end exchanged the same tasks are listed, also when a bound is
    the Invalid Date. *)
Theorem custom_range_is_symmetric
    (tz now : Z) (tasks : list Task) (s e : Dayjs.t) :
  Home.filteredTasks tz now (JSString.lit "Custom") tasks (Some s) (Some e)
  = Home.filteredTasks tz now (JSString.lit "Custom") tasks (Some e) (Some s).
Proof.
  rewrite !filteredTasks_Custom. apply filter_ext. intros task.
  destruct (deadline task) as [d | ]; [ | reflexivity].
  rewrite !isBetween_inclusive.
  destruct (Dayjs.isBefore tz (Dayjs.dayjs d) s Dayjs.day),
    (Dayjs.isAfter tz (Dayjs.dayjs d) s Dayjs.day),
    (Dayjs.isBefore tz (Dayjs.dayjs d) e Dayjs.day),
    (Dayjs.isAfter tz (Dayjs.dayjs d) e Dayjs.day); reflexivity.
Qed.

(** ** Ranges by calendar day *)

(** Between two valid bounds lie the Invalid Date and the instants whose
    day is between the days of the bounds. *)
Lemma isBetween_deadline (tz : Z) (d : JSDate.t) (a b : Z) :
  Dayjs.isBetween tz (Dayjs.dayjs d) (JSDate.TimeValue a) (JSDate.TimeValue b)
    Dayjs.day (JSString.lit "[]") = true
  <-> d = JSDate.Invalid
      \/ exists tv,
           d = JSDate.TimeValue tv
           /\ Z.min (Calendar.localDay tz a) (Calendar.localDay tz b)
              <= Calendar.localDay tz tv
              <= Z.max (Calendar.localDay tz a) (Calendar.localDay tz b).
Proof.
  destruct d as [tv | ]; unfold Dayjs.dayjs at 1.
  - rewrite isBetween_day_inclusive. split.
    + intros H. right. exists tv. split; [reflexivity | lia].
    + intros [H | (tv' & [= <-] & H)]; [discriminate | lia].
  - rewrite isBetween_Invalid_deadline.
    split; [intros _; left; reflexivity | reflexivity].
Qed.

Lemma getDay_range (tz tv : Z) : 0 <= JSDate.getDay tz tv <= 6.
Proof.
  unfold JSDate.getDay, JSDate.WeekDay.
  pose proof (Z.mod_pos_bound (JSDate.Day (JSDate.LocalTime tz tv) + 4) 7).
  lia.
Qed.

(** Membership in the list of This Week. *)
Lemma filteredTasks_ThisWeek_In
    (tz now : Z) (tasks : list Task) (cs ce : option Dayjs.t) (t : Task) :
  In t (Home.filteredTasks tz now (JSString.lit "This Week") tasks cs ce)
  <-> In t tasks
      /\ (deadline t = Some JSDate.Invalid
          \/ exists tv,
               deadline t = Some (JSDate.TimeValue tv)
               /\ Calendar.localDay tz now <= Calendar.localDay tz tv
                  <= Calendar.localDay tz now + (6 - JSDate.getDay tz now)).
Proof.
  rewrite filteredTasks_ThisWeek, filter_In.
  destruct (endOf_week_localDay tz now) as (e & He & Hday & _).
  rewrite He, startOf_day_localDay.
  assert (Hs : Calendar.localDay tz
                 (Calendar.localDay tz now * JSDate.msPerDay - tz)
               = Calendar.localDay tz now).
  { pose proof (localDay_startOf_day tz now) as H.
    rewrite startOf_day_localDay in H. cbn [Calendar.dayOf] in H.
    congruence. }
  pose proof (getDay_range tz now) as Hw.
  split.
  - intros [Hin H]. split; [exact Hin|].
    destruct (deadline t) as [d | ]; [ | discriminate].
    apply isBetween_deadline in H. rewrite Hs, Hday in H.
    destruct H as [-> | (tv & -> & H)]; [left; reflexivity|].
    right. exists tv. split; [reflexivity | lia].
  - intros [Hin H]. split; [exact Hin|].
    destruct H as [-> | (tv & -> & H)];
      apply isBetween_deadline; rewrite ?Hs, ?Hday;
      [left; reflexivity | right; exists tv; split; [reflexivity | lia]].
Qed.

(** Membership in the list of Custom with two valid bounds. *)
Lemma filteredTasks_Custom_In
    (tz now : Z) (tasks : list Task) (s e : Z) (t : Task) :
  In t (Home.filteredTasks tz now (JSString.lit "Custom") tasks
          (Some (JSDate.TimeValue s)) (Some (JSDate.TimeValue e)))
  <-> In t tasks
      /\ (deadline t = Some JSDate.Invalid
          \/ exists tv,
               deadline t = Some (JSDate.TimeValue tv)
               /\ Z.min (Calendar.localDay tz s) (Calendar.localDay tz e)
                  <= Calendar.localDay tz tv
                  <= Z.max (Calendar.localDay tz s) (Calendar.localDay tz e)).
Proof.
  rewrite filteredTasks_Custom, filter_In.
  split; intros [Hin H]; (split; [exact Hin|]).
  - destruct (deadline t) as [d | ]; [ | discriminate].
    apply isBetween_deadline in H.
    destruct H as [-> | (tv & -> & H)]; [left; reflexivity|].
    right. exists tv. split; [reflexivity | exact H].
  - destruct H as [-> | (tv & -> & H)]; apply isBetween_deadline;
      [left; reflexivity | right; exists tv; split; [reflexivity | exact H]].
Qed.

(** Membership in the list of Today. *)
Lemma filteredTasks_Today_In
    (tz now : Z) (tasks : list Task) (cs ce : option Dayjs.t) (t : Task) :
  In t (Home.filteredTasks tz now (JSString.lit "Today") tasks cs ce)
  <-> In t tasks
      /\ Calendar.deadlineDay tz t = Some (Calendar.localDay tz now).
Proof.
  rewrite filteredTasks_Today, filter_In. unfold Calendar.deadlineDay.
  split; intros [Hin H]; (split; [exact Hin|]).
  - destruct (deadline t) as [d | ]; [ | discriminate].
    apply isSame_deadline_today. exact H.
  - destruct (deadline t) as [d | ]; [ | discriminate].
    apply isSame_deadline_today. exact H.
Qed.

(** X3: under This Week a task is listed exactly when its deadline is the
    Invalid Date or an instant whose calendar day lies from today to the
    last day of the week, both included; that last day is the Saturday, at
    most six days ahead. *)
Theorem this_week_is_today_to_saturday
    (tz now : Z) (tasks : list Task) (customStart customEnd : option Dayjs.t) :
  let lastDay := Calendar.localDay tz now + (6 - JSDate.getDay tz now) in
  (forall t,
      In t (Home.filteredTasks tz now (JSString.lit "This Week") tasks
              customStart customEnd)
      <-> In t tasks
          /\ (deadline t = Some JSDate.Invalid
              \/ exists tv,
                   deadline t = Some (JSDate.TimeValue tv)
                   /\ Calendar.localDay tz now <= Calendar.localDay tz tv
                      <= lastDay))
  /\ Calendar.localDay tz now <= lastDay <= Calendar.localDay tz now + 6
  /\ (lastDay + 4) mod 7 = 6.
Proof.
  intros lastDay. subst lastDay.
  pose proof (getDay_range tz now) as Hw.
  split; [ | split; [lia|]].
  - intros t. apply filteredTasks_ThisWeek_In.
  - unfold JSDate.getDay, JSDate.WeekDay, Calendar.localDay in *.
    Z.to_euclidean_division_equations. lia.
Qed.

(** X4: under Custom with two valid bounds a task is listed exactly when
    its deadline is the Invalid Date or an instant whose calendar day lies
    between the days of the two bounds, both included, whichever bound is
    the earlier; on a range that holds no day of a deadline only tasks
    with an Invalid Date are left. *)
Theorem custom_range_by_days
    (tz now : Z) (tasks : list Task) (s e : Z) :
  (forall t,
      In t (Home.filteredTasks tz now (JSString.lit "Custom") tasks
              (Some (JSDate.TimeValue s)) (Some (JSDate.TimeValue e)))
      <-> In t tasks
          /\ (deadline t = Some JSDate.Invalid
              \/ exists tv,
                   deadline t = Some (JSDate.TimeValue tv)
                   /\ Z.min (Calendar.localDay tz s) (Calendar.localDay tz e)
                      <= Calendar.localDay tz tv
                      <= Z.max (Calendar.localDay tz s)
                               (Calendar.localDay tz e)))
  /\ ((forall t, In t tasks -> Calendar.deadlineIsInstant t) ->
      (forall t tv, In t tasks -> deadline t = Some (JSDate.TimeValue tv) ->
                    Calendar.localDay tz tv
                    < Z.min (Calendar.localDay tz s) (Calendar.localDay tz e)
                    \/ Z.max (Calendar.localDay tz s) (Calendar.localDay tz e)
                       < Calendar.localDay tz tv) ->
      Home.filteredTasks tz now (JSString.lit "Custom") tasks
        (Some (JSDate.TimeValue s)) (Some (JSDate.TimeValue e)) = []).
Proof.
  split; [intros t; apply filteredTasks_Custom_In|].
  intros Hinst Hout. rewrite filteredTasks_Custom. apply filter_none.
  intros t Hin. specialize (Hinst t Hin). specialize (Hout t).
  unfold Calendar.deadlineIsInstant in Hinst.
  destruct (deadline t) as [[tv | ] | ]; [ | congruence | reflexivity].
  apply not_true_iff_false. intros H.
  apply isBetween_day_inclusive in H.
  specialize (Hout tv Hin eq_refl). lia.
Qed.

(** X5: every task listed under Today is listed under This Week. *)
Theorem today_is_part_of_this_week
    (tz now : Z) (tasks : list Task) (customStart customEnd : option Dayjs.t)
    (t : Task) :
  In t (Home.filteredTasks tz now (JSString.lit "Today") tasks
          customStart customEnd) ->
  In t (Home.filteredTasks tz now (JSString.lit "This Week") tasks
          customStart customEnd).
Proof.
  rewrite filteredTasks_Today, filteredTasks_ThisWeek, !filter_In.
  intros [Hin H]. split; [exact Hin|].
  destruct (deadline t) as [d | ]; [ | discriminate].
  apply isSame_deadline_today in H.
  destruct d as [tv | ]; [ | discriminate].
  cbn [Calendar.dayOf] in H. injection H as H.
  unfold Dayjs.dayjs at 1. apply isBetween_on_bound_day.
  left. rewrite localDay_startOf_day, H. reflexivity.
Qed.

Lemma today_is_part_of_this_week_witness :
  In (sampleTask "b" false (Some monday))
    (Home.filteredTasks 0 sampleNow (JSString.lit "This Week")
       [sampleTask "a" false None; sampleTask "b" false (Some monday)]
       None None).
Proof.
  apply (today_is_part_of_this_week 0 sampleNow
           [sampleTask "a" false None; sampleTask "b" false (Some monday)]
           None None (sampleTask "b" false (Some monday))).
  vm_compute. left. reflexivity.
Defined.

(** X6: in the Custom mode with two valid bounds the warning "End date
    must be after start date" is displayed exactly when the end is not a
    later instant than the start, so also for the same instant picked
    twice; the list is filtered by the range all the same, and a task due
    on the day of either bound is listed under the warning too. *)
Theorem range_warning_does_not_stop_the_filter
    (tz now : Z) (user : User) (s e : Z) :
  let st := {| HomeView.filter := JSString.lit "Custom";
               HomeView.customStart := Some (JSDate.TimeValue s);
               HomeView.customEnd := Some (JSDate.TimeValue e) |} in
  (HomeView.rangeWarningShown st = true <-> e <= s)
  /\ (HomeView.isValidCustomRange st = true <-> s < e)
  /\ (forall (t : Task) (tv : Z),
        In t (tasks user) ->
        deadline t = Some (JSDate.TimeValue tv) ->
        Calendar.localDay tz tv = Calendar.localDay tz s
        \/ Calendar.localDay tz tv = Calendar.localDay tz e ->
        In t (HomeView.shownTasks tz now st user)).
Proof.
  intros st. subst st.
  unfold HomeView.rangeWarningShown, HomeView.isValidCustomRange,
    HomeView.shownTasks.
  cbn [HomeView.filter HomeView.customStart HomeView.customEnd JSDate.ltb].
  change (JSString.eqb (JSString.lit "Custom") (JSString.lit "Custom"))
    with true.
  cbn [andb]. rewrite negb_true_iff, Z.ltb_ge, Z.ltb_lt.
  split; [reflexivity | split; [reflexivity|]].
  intros t tv Hin Hd Hday.
  rewrite filteredTasks_Custom. apply filter_In. split; [exact Hin|].
  rewrite Hd. apply isBetween_on_bound_day. cbn [Calendar.dayOf].
  destruct Hday as [<- | <-]; [left | right]; reflexivity.
Qed.

(** ** The statistics against the filter *)

(** X7: the tasks due today of the statistics are the tasks of the Today
    filter that are not done, in the same order. *)
Theorem due_today_is_today_not_done
    (tz now : Z) (tasks : list Task) (customStart customEnd : option Dayjs.t) :
  Home.dueTodayTasks tz now tasks
  = List.filter (fun task => negb (done task))
      (Home.filteredTasks tz now (JSString.lit "Today") tasks
         customStart customEnd).
Proof.
  rewrite filteredTasks_Today, filter_filter. unfold Home.dueTodayTasks.
  apply filter_ext. intros task.
  destruct (deadline task); reflexivity.
Qed.

(** X8: in the statistics the done tasks and the tasks due today are
    disjoint parts of the collection: their two counts together never
    exceed the number of tasks, and with every task done nothing is due
    today. *)
Theorem statistics_counts_are_bounded (tz now : Z) (tasks : list Task) :
  let stats := Home.taskStats tz now tasks in
  (Home.completedTasksCount stats + Home.tasksWithDeadlineTodayCount stats
   <= List.length tasks)%nat
  /\ List.length (Home.tasksDueTodayNames stats)
     = Home.tasksWithDeadlineTodayCount stats
  /\ (Home.completedTasksCount stats = List.length tasks ->
      Home.tasksWithDeadlineTodayCount stats = 0%nat
      /\ Home.tasksDueTodayNames stats = []).
Proof.
  intros stats. subst stats.
  cbn [Home.taskStats Home.completedTasksCount
         Home.tasksWithDeadlineTodayCount Home.tasksDueTodayNames].
  assert (Hdue : (List.length (Home.dueTodayTasks tz now tasks)
                  <= List.length
                       (List.filter (fun task => negb (done task)) tasks))%nat).
  { unfold Home.dueTodayTasks. apply filter_length_mono.
    intros task H. destruct (deadline task); [ | discriminate].
    apply andb_true_iff in H. exact (proj2 H). }
  pose proof (filter_length_split (fun task => done task) tasks) as Hsplit.
  unfold Home.completedCount.
  split; [lia | split; [apply length_map|]].
  intros Hall.
  assert (Hz : List.length (Home.dueTodayTasks tz now tasks) = 0%nat) by lia.
  split; [exact Hz|].
  destruct (Home.dueTodayTasks tz now tasks); [reflexivity | discriminate].
Qed.

(** ** The filter buttons *)

(** X9: a press on the selected button changes nothing; choosing a mode
    other than Custom with the buttons selects it and clears both bounds,
    so that choosing Custom afterwards lists every task, without warning,
    until two dates are picked again. *)
Theorem leaving_custom_forgets_the_range
    (tz now : Z) (st : HomeView.FilterState) (user : User) (f : jsstring) :
  JSString.eqb f (JSString.lit "Custom") = false ->
  let st1 := HomeView.handleFilterChange st (Some f) in
  let st2 := HomeView.handleFilterChange st1 (Some (JSString.lit "Custom")) in
  HomeView.handleFilterChange st None = st
  /\ HomeView.filter st1 = f
  /\ HomeView.customStart st1 = None
  /\ HomeView.customEnd st1 = None
  /\ HomeView.shownTasks tz now st2 user = tasks user
  /\ HomeView.rangeWarningShown st2 = false
  /\ HomeView.emptyStateShown tz now st2 user = false.
Proof.
  intros Hf st1 st2. subst st1 st2.
  unfold HomeView.handleFilterChange. rewrite Hf. cbn [negb].
  change (JSString.eqb (JSString.lit "Custom") (JSString.lit "Custom"))
    with true.
  cbn [negb HomeView.filter HomeView.customStart HomeView.customEnd].
  repeat split.
  unfold HomeView.emptyStateShown, HomeView.shownTasks.
  cbn [HomeView.filter HomeView.customStart HomeView.customEnd].
  change (Home.filteredTasks tz now (JSString.lit "Custom") (tasks user)
            None None) with (tasks user).
  destruct (tasks user); reflexivity.
Qed.

Lemma leaving_custom_forgets_the_range_witness :
  HomeView.shownTasks 0 sampleNow
    (HomeView.handleFilterChange
       (HomeView.handleFilterChange
          {| HomeView.filter := JSString.lit "Custom";
             HomeView.customStart := Some nextThursday;
             HomeView.customEnd := Some nextThursday |}
          (Some (JSString.lit "Today")))
       (Some (JSString.lit "Custom")))
    {| userName := None;
       tasks := [sampleTask "b" false (Some monday)];
       settings := {| enableGlow := true; showProgressBar := true |} |}
  = [sampleTask "b" false (Some monday)].
Proof.
  refine (proj1 (proj2 (proj2 (proj2 (proj2
    (leaving_custom_forgets_the_range 0 sampleNow _ _
       (JSString.lit "Today") _)))))).
  reflexivity.
Defined.

(** X10: the "View All Tasks" button always leads out of the empty state:
    after it every task is listed.  The empty state itself is displayed
    only for a collection that is not empty, under Today, This Week, or
    Custom with both bounds set. *)
Theorem view_all_leaves_the_empty_state
    (tz now : Z) (st : HomeView.FilterState) (user : User) :
  HomeView.shownTasks tz now (HomeView.viewAllTasks st) user = tasks user
  /\ HomeView.emptyStateShown tz now (HomeView.viewAllTasks st) user = false
  /\ (HomeView.emptyStateShown tz now st user = true ->
      tasks user <> []
      /\ (JSString.eqb (HomeView.filter st) (JSString.lit "Today") = true
          \/ JSString.eqb (HomeView.filter st) (JSString.lit "This Week") = true
          \/ (JSString.eqb (HomeView.filter st) (JSString.lit "Custom") = true
              /\ exists s e,
                   HomeView.customStart st = Some s
                   /\ HomeView.customEnd st = Some e))).
Proof.
  split; [reflexivity | split].
  - unfold HomeView.emptyStateShown.
    change (HomeView.shownTasks tz now (HomeView.viewAllTasks st) user)
      with (tasks user).
    destruct (tasks user); reflexivity.
  - unfold HomeView.emptyStateShown, HomeView.shownTasks, Home.filteredTasks.
    intros H. apply andb_true_iff in H. destruct H as [Hempty Hsome].
    assert (Hne : tasks user <> []).
    { intros E. rewrite E in Hsome. discriminate. }
    split; [exact Hne|].
    assert (Hno : Nat.eqb (List.length (tasks user)) 0 = false).
    { destruct (tasks user); [contradiction | reflexivity]. }
    destruct (JSString.eqb (HomeView.filter st) (JSString.lit "Today"));
      [left; reflexivity|].
    destruct (JSString.eqb (HomeView.filter st) (JSString.lit "This Week"));
      [right; left; reflexivity|].
    destruct (JSString.eqb (HomeView.filter st) (JSString.lit "Custom"));
      [ | congruence].
    right. right. split; [reflexivity|].
    destruct (HomeView.customStart st) as [s | ]; [ | congruence].
    destruct (HomeView.customEnd st) as [e | ]; [ | congruence].
    exists s, e. split; reflexivity.
Qed.

(** X11: "View All Tasks" keeps the two bounds: from the Custom mode,
    the button and then the Custom button lead back to the same state, and
    so to the same list. *)
Theorem view_all_keeps_the_range
    (tz now : Z) (st : HomeView.FilterState) (user : User) :
  HomeView.filter st = JSString.lit "Custom" ->
  HomeView.handleFilterChange (HomeView.viewAllTasks st)
    (Some (JSString.lit "Custom")) = st
  /\ HomeView.shownTasks tz now
       (HomeView.handleFilterChange (HomeView.viewAllTasks st)
          (Some (JSString.lit "Custom"))) user
     = HomeView.shownTasks tz now st user.
Proof.
  intros Hf.
  assert (Hst : HomeView.handleFilterChange (HomeView.viewAllTasks st)
                  (Some (JSString.lit "Custom")) = st).
  { destruct st as [f s e]. cbn [HomeView.filter] in Hf. subst f.
    reflexivity. }
  rewrite Hst. split; reflexivity.
Qed.

Lemma view_all_keeps_the_range_witness :
  HomeView.handleFilterChange
    (HomeView.viewAllTasks
       {| HomeView.filter := JSString.lit "Custom";
          HomeView.customStart := Some nextThursday;
          HomeView.customEnd := Some nextThursday |})
    (Some (JSString.lit "Custom"))
  = {| HomeView.filter := JSString.lit "Custom";
       HomeView.customStart := Some nextThursday;
       HomeView.customEnd := Some nextThursday |}.
Proof.
  refine (proj1 (view_all_keeps_the_range 0 sampleNow _
                   {| userName := None; tasks := [];
                      settings := {| enableGlow := true;
                                     showProgressBar := true |} |} _)).
  reflexivity.
Defined.

(** ** The progress card *)

(** X12: hiding the progress card and undoing it gives back the user as
    it was when the card was displayed; while it is hidden the card is not
    rendered, and the tasks are never touched. *)
Theorem progress_bar_undo_restores_the_user (user : User) :
  HomeView.progressShown user = true ->
  let hidden := HomeView.updateShowProgressBar false user in
  HomeView.updateShowProgressBar true hidden = user
  /\ HomeView.progressShown hidden = false
  /\ tasks hidden = tasks user
  /\ userName hidden = userName user
  /\ enableGlow (settings hidden) = enableGlow (settings user).
Proof.
  intros H hidden. subst hidden.
  unfold HomeView.progressShown in *.
  apply andb_true_iff in H. destruct H as [_ H].
  destruct user as [n ts [glow bar]]. cbn in H. subst bar.
  unfold HomeView.updateShowProgressBar. cbn.
  repeat split. apply andb_false_r.
Qed.

Lemma progress_bar_undo_restores_the_user_witness :
  let user := {| userName := None;
                 tasks := [sampleTask "b" false (Some monday)];
                 settings := {| enableGlow := true;
                                showProgressBar := true |} |} in
  HomeView.updateShowProgressBar true
    (HomeView.updateShowProgressBar false user) = user.
Proof.
  intros user.
  refine (proj1 (progress_bar_undo_restores_the_user user _)).
  reflexivity.
Defined.

(** ** The completion text of a collection *)

Lemma percentage_none_done (tasks : list Task) :
  tasks <> [] -> Z.of_nat (List.length tasks) < 2 ^ 32 ->
  (forall t, In t tasks -> done t = false) ->
  Home.completedPercentage tasks = S754_zero false.
Proof.
  intros Hne Hlen Hnone.
  unfold Home.completedPercentage, Home.completedCount.
  rewrite (filter_none (fun task => done task) tasks Hnone).
  destruct tasks as [ | t0 ts]; [congruence|].
  change (0 <? List.length (t0 :: ts))%nat with true. cbv iota.
  destruct (ofNat_finite (List.length (t0 :: ts))) as (m & e & ->).
  - cbn. lia.
  - assert (2 ^ 32 < 2 ^ 53) by reflexivity. lia.
  - reflexivity.
Qed.

Lemma percentage_all_done (tasks : list Task) :
  tasks <> [] -> Z.of_nat (List.length tasks) < 2 ^ 32 ->
  (forall t, In t tasks -> done t = true) ->
  Home.completedPercentage tasks = JSNumber.ofZ 100.
Proof.
  intros Hne Hlen Hall.
  unfold Home.completedPercentage, Home.completedCount.
  rewrite (filter_all (fun task => done task) tasks Hall).
  destruct tasks as [ | t0 ts]; [congruence|].
  change (0 <? List.length (t0 :: ts))%nat with true. cbv iota.
  destruct (ofNat_finite (List.length (t0 :: ts))) as (m & e & ->).
  - cbn. lia.
  - assert (2 ^ 32 < 2 ^ 53) by reflexivity. lia.
  - rewrite div_self. apply mul_one_hundred.
Qed.

(** X13: on a collection that is not empty (of fewer than 2^32 tasks) the
    page congratulates when every task is done and says "just getting
    started" when none is; the glow of the percentage, which needs a
    percentage above 0, is then off. *)
Theorem completion_text_of_a_collection
    (tz now : Z) (tasks : list Task) :
  tasks <> [] -> Z.of_nat (List.length tasks) < 2 ^ 32 ->
  ((forall t, In t tasks -> done t = true) ->
   Home.taskCompletionText tz now tasks = Home.textAllDone)
  /\ ((forall t, In t tasks -> done t = false) ->
      Home.taskCompletionText tz now tasks = Home.textJustStarted
      /\ JSNumber.gtb
           (Home.completedTaskPercentage (Home.taskStats tz now tasks))
           (JSNumber.ofZ 0) = false).
Proof.
  intros Hne Hlen.
  unfold Home.taskCompletionText.
  cbn [Home.taskStats Home.completedTaskPercentage].
  split.
  - intros Hall. rewrite (percentage_all_done tasks Hne Hlen Hall).
    destruct tasks; [congruence | reflexivity].
  - intros Hnone. rewrite (percentage_none_done tasks Hne Hlen Hnone).
    destruct tasks; [congruence | split; reflexivity].
Qed.

Lemma completion_text_of_a_collection_witness :
  Home.taskCompletionText 0 sampleNow
    [sampleTask "a" true None; sampleTask "b" true (Some monday)]
  = Home.textAllDone.
Proof.
  refine (proj1 (completion_text_of_a_collection 0 sampleNow
                   [sampleTask "a" true None;
                    sampleTask "b" true (Some monday)] _ _) _).
  - discriminate.
  - vm_compute. reflexivity.
  - intros t [<- | [<- | []]]; reflexivity.
Defined.

(** X14: the second copy of the page tells an empty collection and a
    collection (of fewer than 2^32 tasks) with nothing done the same
    thing, "No tasks completed yet", and congratulates when every task of
    a collection that is not empty is done. *)
Theorem variant_completion_text (tasks : list Task) :
  HomeVariantView.taskCompletionText []
  = JSString.lit "No tasks completed yet. Keep going!"
  /\ (tasks <> [] -> Z.of_nat (List.length tasks) < 2 ^ 32 ->
      ((forall t, In t tasks -> done t = false) ->
       HomeVariantView.taskCompletionText tasks
       = JSString.lit "No tasks completed yet. Keep going!")
      /\ ((forall t, In t tasks -> done t = true) ->
          HomeVariantView.taskCompletionText tasks
          = JSString.lit "Congratulations! All tasks completed!")).
Proof.
  split; [reflexivity|].
  intros Hne Hlen. unfold HomeVariantView.taskCompletionText. split.
  - intros Hnone. rewrite (percentage_none_done tasks Hne Hlen Hnone).
    reflexivity.
  - intros Hall. rewrite (percentage_all_done tasks Hne Hlen Hall).
    reflexivity.
Qed.

(** X15: in the second copy of the page the filter buttons never reset
    the bounds and a press on the selected button changes nothing; from
    the initial state the Custom button empties the list, whatever the
    tasks, and the list stays empty until both dates are picked. *)
Theorem variant_custom_button_empties_the_list
    (tz now : Z) (st : HomeView.FilterState) (user : User) :
  HomeVariantView.onFilterChange st None = st
  /\ HomeVariantView.onFilterChange st (Some []) = st
  /\ (forall v, v <> [] ->
        HomeView.filter (HomeVariantView.onFilterChange st (Some v)) = v
        /\ HomeView.customStart (HomeVariantView.onFilterChange st (Some v))
           = HomeView.customStart st
        /\ HomeView.customEnd (HomeVariantView.onFilterChange st (Some v))
           = HomeView.customEnd st)
  /\ HomeVariantView.shownTasks tz now
       (HomeVariantView.onFilterChange HomeView.initialState
          (Some (JSString.lit "Custom"))) user = []
  /\ (forall d : option Dayjs.t,
        HomeVariantView.shownTasks tz now
          (HomeView.setCustomStart
             (HomeVariantView.onFilterChange HomeView.initialState
                (Some (JSString.lit "Custom"))) d) user = []
        /\ HomeVariantView.shownTasks tz now
             (HomeView.setCustomEnd
                (HomeVariantView.onFilterChange HomeView.initialState
                   (Some (JSString.lit "Custom"))) d) user = []).
Proof.
  split; [reflexivity | split; [reflexivity | split; [ | split]]].
  - intros v Hv. destruct v; [congruence|]. repeat split.
  - reflexivity.
  - intros d. split; [destruct d; reflexivity | reflexivity].
Qed.

(** ** The overdue mark of the task details *)

(** X16: a task is marked overdue exactly when it is not done and its
    deadline is an instant before now: never when it is done, has no
    deadline, has the Invalid Date as deadline, or is due at this very
    instant; and a task that is overdue stays so at every later instant. *)
Theorem overdue_exactly_when_past_and_not_done
    (now now' : Z) (task : Task) :
  (TaskDetailsView.isOverdue now task = true
   <-> done task = false
       /\ exists tv, deadline task = Some (JSDate.TimeValue tv) /\ tv < now)
  /\ (done task = true -> TaskDetailsView.isOverdue now task = false)
  /\ (deadline task = None -> TaskDetailsView.isOverdue now task = false)
  /\ (deadline task = Some JSDate.Invalid ->
      TaskDetailsView.isOverdue now task = false)
  /\ (deadline task = Some (JSDate.TimeValue now) ->
      TaskDetailsView.isOverdue now task = false)
  /\ (TaskDetailsView.isOverdue now task = true -> now <= now' ->
      TaskDetailsView.isOverdue now' task = true).
Proof.
  unfold TaskDetailsView.isOverdue.
  destruct (deadline task) as [[tv | ] | ]; cbn [JSDate.ltb].
  - destruct (done task); cbn [negb andb].
    + repeat split; try discriminate; try reflexivity.
      intros [H _]. discriminate H.
    + rewrite !Z.ltb_lt. repeat split; try discriminate; try lia.
      * exists tv. split; [reflexivity | assumption].
      * intros [_ (tv' & [= <-] & H)]. exact H.
      * intros [= ->]. apply Z.ltb_irrefl.
  - rewrite andb_false_r. repeat split; try discriminate; try reflexivity.
    intros [_ (tv & H & _)]. discriminate H.
  - repeat split; try discriminate; try reflexivity.
    intros [_ (tv & H & _)]. discriminate H.
Qed.

(** X17: a task whose deadline fell on an earlier calendar day is listed
    neither under Today nor under This Week, and the details mark it
    overdue as long as it is not done. *)
Theorem past_days_are_overdue_and_unlisted
    (tz now : Z) (tasks : list Task) (customStart customEnd : option Dayjs.t)
    (t : Task) (tv : Z) :
  deadline t = Some (JSDate.TimeValue tv) ->
  Calendar.localDay tz tv < Calendar.localDay tz now ->
  TaskDetailsView.isOverdue now t = negb (done t)
  /\ ~ In t (Home.filteredTasks tz now (JSString.lit "Today") tasks
               customStart customEnd)
  /\ ~ In t (Home.filteredTasks tz now (JSString.lit "This Week") tasks
               customStart customEnd).
Proof.
  intros Hd Hday. split; [ | split].
  - unfold TaskDetailsView.isOverdue. rewrite Hd. cbn [JSDate.ltb].
    replace (tv <? now) with true; [apply andb_true_r|].
    symmetry. apply Z.ltb_lt.
    unfold Calendar.localDay, JSDate.Day, JSDate.LocalTime,
      JSDate.msPerDay in Hday.
    Z.to_euclidean_division_equations. lia.
  - rewrite filteredTasks_Today_In. unfold Calendar.deadlineDay.
    rewrite Hd. cbn [Calendar.dayOf]. intros [_ [= H]]. lia.
  - rewrite filteredTasks_ThisWeek_In. rewrite Hd.
    intros [_ [H | (tv' & [= <-] & H)]]; [discriminate | lia].
Qed.

Lemma past_days_are_overdue_and_unlisted_witness :
  TaskDetailsView.isOverdue 1794480000000
    (sampleTask "b" false (Some monday)) = true.
Proof.
  refine (proj1 (past_days_are_overdue_and_unlisted 0 1794480000000
                   [sampleTask "b" false (Some monday)] None None
                   (sampleTask "b" false (Some monday)) 1793600000000
                   eq_refl _)).
  vm_compute. reflexivity.
Defined.

(** ** Trimming *)

Lemma trimStart_length (s : jsstring) :
  (List.length (JSString.trimStart s) <= List.length s)%nat.
Proof.
  induction s as [ | c s IH]; cbn [JSString.trimStart]; [lia|].
  destruct (JSString.isWhiteSpace c); cbn [List.length] in *; lia.
Qed.

Lemma trimStart_head (s : jsstring) :
  JSString.trimStart s = []
  \/ exists c s', JSString.trimStart s = c :: s'
                  /\ JSString.isWhiteSpace c = false.
Proof.
  induction s as [ | c s IH]; cbn [JSString.trimStart]; [left; reflexivity|].
  destruct (JSString.isWhiteSpace c) eqn:E; [exact IH|].
  right. exists c, s. split; [reflexivity | exact E].
Qed.

Lemma trimStart_fixed (c : JSString.codeunit) (s : jsstring) :
  JSString.isWhiteSpace c = false -> JSString.trimStart (c :: s) = c :: s.
Proof. intros H. cbn [JSString.trimStart]. rewrite H. reflexivity. Qed.

Lemma trimStart_idempotent (s : jsstring) :
  JSString.trimStart (JSString.trimStart s) = JSString.trimStart s.
Proof.
  destruct (trimStart_head s) as [-> | (c & s' & -> & H)]; [reflexivity|].
  apply trimStart_fixed. exact H.
Qed.

Lemma trimStart_snoc (s : jsstring) (c : JSString.codeunit) :
  JSString.isWhiteSpace c = false ->
  JSString.trimStart (s ++ [c]) = JSString.trimStart s ++ [c].
Proof.
  intros H. induction s as [ | x s IH]; cbn [app JSString.trimStart].
  - rewrite H. reflexivity.
  - destruct (JSString.isWhiteSpace x); [exact IH | reflexivity].
Qed.

Lemma trimEnd_idempotent (s : jsstring) :
  JSString.trimEnd (JSString.trimEnd s) = JSString.trimEnd s.
Proof.
  unfold JSString.trimEnd. rewrite rev_involutive, trimStart_idempotent.
  reflexivity.
Qed.

Lemma trimEnd_cons (c : JSString.codeunit) (s : jsstring) :
  JSString.isWhiteSpace c = false ->
  JSString.trimEnd (c :: s) = c :: JSString.trimEnd s.
Proof.
  intros H. unfold JSString.trimEnd. cbn [rev].
  rewrite (trimStart_snoc (rev s) c H), rev_app_distr. reflexivity.
Qed.

(** A trimmed string is empty or starts and ends with a character that
    is not white space; trimming it again changes nothing. *)
Lemma trim_idempotent (s : jsstring) :
  JSString.trim (JSString.trim s) = JSString.trim s.
Proof.
  unfold JSString.trim.
  destruct (trimStart_head s) as [-> | (c & s' & -> & H)]; [reflexivity|].
  rewrite (trimEnd_cons c s' H), (trimStart_fixed c _ H), (trimEnd_cons c _ H).
  rewrite trimEnd_idempotent. reflexivity.
Qed.

Lemma trim_length (s : jsstring) :
  (List.length (JSString.trim s) <= List.length s)%nat.
Proof.
  unfold JSString.trim, JSString.trimEnd.
  rewrite length_rev.
  pose proof (trimStart_length (rev (JSString.trimStart s))) as H1.
  rewrite length_rev in H1.
  pose proof (trimStart_length s). lia.
Qed.

(** ** The add-task dialog: what a submission does *)

Lemma validateForm_setError (tz now : Z) (st : AddTask.FormState) (e : jsstring) :
  fst (AddTask.validateForm tz now (AddTask.setError st e))
  = fst (AddTask.validateForm tz now st).
Proof.
  unfold AddTask.validateForm.
  cbn [AddTask.setError AddTask.name AddTask.description AddTask.deadline].
  repeat match goal with
         | |- context [if ?b then _ else _] => destruct b
         end; reflexivity.
Qed.

(** The two outcomes of a submission. *)
Lemma handleAddTask_cases
    (tz now : Z) (uuid : UUID) (st : AddTask.FormState) (user : User) :
  (fst (AddTask.validateForm tz now st) = true
   /\ AddTask.handleAddTask tz now uuid st user
      = (AddTask.handleClose st,
         {| userName := userName user;
            tasks := tasks user ++ [AddTask.newTask tz now uuid st];
            settings := settings user |}))
  \/ (fst (AddTask.validateForm tz now st) = false
      /\ snd (AddTask.handleAddTask tz now uuid st user) = user
      /\ fst (AddTask.handleAddTask tz now uuid st user)
         = snd (AddTask.validateForm tz now
                  (AddTask.setError st (JSString.lit "")))).
Proof.
  unfold AddTask.handleAddTask.
  rewrite <- (validateForm_setError tz now st (JSString.lit "")).
  pose proof (validateForm_form tz now
                (AddTask.setError st (JSString.lit ""))) as Hf.
  destruct (AddTask.validateForm tz now
              (AddTask.setError st (JSString.lit ""))) as [valid st1].
  cbn [fst snd] in *. destruct Hf as (_ & _ & _ & _ & _ & Hsame & _).
  destruct valid; cbn [negb].
  - left. split; [reflexivity|]. rewrite (Hsame eq_refl). reflexivity.
  - right. repeat split.
Qed.

(** X18: while the add button is disabled, that is while the trimmed name
    is empty, the keyboard cannot add a task either: Ctrl+Enter leaves the
    user unchanged and shows "Task name is required"; any other key, and
    Enter without Ctrl, changes nothing at all. *)
Theorem disabled_form_adds_nothing
    (tz now : Z) (uuid : UUID) (key : jsstring) (ctrlKey : bool)
    (st : AddTask.FormState) (user : User) :
  AddTaskView.addDisabled st = true ->
  let result := AddTaskView.handleKeyPress tz now uuid key ctrlKey st user in
  snd result = user
  /\ (JSString.eqb key (JSString.lit "Enter") && ctrlKey = true ->
      AddTask.error (fst result) = JSString.lit "Task name is required"
      /\ AddTask.name (fst result) = AddTask.name st)
  /\ (JSString.eqb key (JSString.lit "Enter") && ctrlKey = false ->
      fst result = st).
Proof.
  intros Hdis result. subst result.
  unfold AddTaskView.handleKeyPress, AddTaskView.addDisabled in *.
  destruct (JSString.eqb key (JSString.lit "Enter") && ctrlKey).
  - assert (Hv : AddTask.validateForm tz now
                   (AddTask.setError st (JSString.lit ""))
                 = (false,
                    AddTask.setError (AddTask.setError st (JSString.lit ""))
                      (JSString.lit "Task name is required"))).
    { unfold AddTask.validateForm.
      cbn [AddTask.setError AddTask.name]. rewrite Hdis. reflexivity. }
    unfold AddTask.handleAddTask. rewrite Hv. cbn [negb fst snd].
    split; [reflexivity | split; [ | discriminate]].
    intros _. split; reflexivity.
  - cbn [fst snd]. split; [reflexivity | split; [discriminate | reflexivity]].
Qed.

Lemma disabled_form_adds_nothing_witness :
  let st := {| AddTask.open := true; AddTask.name := JSString.lit "  ";
               AddTask.description := JSString.lit "";
               AddTask.deadline := JSString.lit "";
               AddTask.priority := High; AddTask.error := JSString.lit "" |} in
  let user := {| userName := None; tasks := [];
                 settings := {| enableGlow := true; showProgressBar := true |} |} in
  snd (AddTaskView.handleKeyPress 0 sampleNow (JSString.lit "id")
         (JSString.lit "Enter") true st user) = user.
Proof.
  intros st user.
  refine (proj1 (disabled_form_adds_nothing 0 sampleNow (JSString.lit "id")
                   (JSString.lit "Enter") true st user _)).
  reflexivity.
Defined.




(** X20: every task that the dialog adds has a name that is not empty,
    has at most 100 code units and neither starts nor ends with white
    space (trimming it again changes nothing); its description is absent
    or not empty, trimmed and of at most 500 code units; the tasks that
    were there keep their places before it. *)
Theorem added_task_is_well_formed
    (tz now : Z) (uuid : UUID) (st : AddTask.FormState) (user : User) :
  fst (AddTask.validateForm tz now st) = true ->
  exists t : Task,
    tasks (snd (AddTask.handleAddTask tz now uuid st user)) = tasks user ++ [t]
    /\ name t <> []
    /\ (List.length (name t) <= 100)%nat
    /\ JSString.trim (name t) = name t
    /\ (description t = None
        \/ exists d, description t = Some d
                     /\ d <> []
                     /\ JSString.trim d = d
                     /\ (List.length d <= 500)%nat)
    /\ (forall i u, nth_error (tasks user) i = Some u ->
                    nth_error
                      (tasks (snd (AddTask.handleAddTask tz now uuid st user)))
                      i = Some u).
Proof.
  intros Hv.
  destruct (handleAddTask_cases tz now uuid st user)
    as [[_ ->] | [Hno _]]; [ | congruence].
  exists (AddTask.newTask tz now uuid st).
  cbn [fst snd tasks AddTask.newTask name description].
  assert (Hok : ~ Rules.refused tz now st).
  { intros H. apply validateForm_rejects in H. congruence. }
  unfold Rules.refused, JSString.length in Hok.
  split; [reflexivity|].
  split; [intros H; apply Hok; left; exact H|].
  split; [lia|].
  split; [apply trim_idempotent|].
  split.
  - destruct (JSString.trim (AddTask.description st)) as [ | c d] eqn:E;
      cbn [JSString.truthy]; [left; reflexivity|].
    right. exists (c :: d). rewrite <- E.
    split; [reflexivity|].
    split; [rewrite E; discriminate|].
    split; [apply trim_idempotent|].
    pose proof (trim_length (AddTask.description st)). lia.
  - intros i u Hi. rewrite nth_error_app1; [exact Hi|].
    apply nth_error_Some. congruence.
Qed.

Lemma added_task_is_well_formed_witness :
  exists t : Task,
    tasks (snd (AddTask.handleAddTask 0 sampleNow (JSString.lit "id")
                  {| AddTask.open := true;
                     AddTask.name := JSString.lit "  Pay rent ";
                     AddTask.description := JSString.lit " ";
                     AddTask.deadline := JSString.lit "";
                     AddTask.priority := High;
                     AddTask.error := JSString.lit "" |}
                  {| userName := None; tasks := [];
                     settings := {| enableGlow := true;
                                    showProgressBar := true |} |}))
    = [] ++ [t]
    /\ name t <> [].
Proof.
  destruct (added_task_is_well_formed 0 sampleNow (JSString.lit "id")
              {| AddTask.open := true;
                 AddTask.name := JSString.lit "  Pay rent ";
                 AddTask.description := JSString.lit " ";
                 AddTask.deadline := JSString.lit "";
                 AddTask.priority := High;
                 AddTask.error := JSString.lit "" |}
              {| userName := None; tasks := [];
                 settings := {| enableGlow := true;
                                showProgressBar := true |} |} eq_refl)
    as (t & H1 & H2 & _).
  exists t. split; [exact H1 | exact H2].
Defined.

(** ** A task of the dialog on the other pages *)

(** X21: the details of a task that the dialog built show the priority
    that was chosen in the dialog, with the emoji of its own entry of the
    configuration table; they show no pinned mark and no categories, a
    description exactly when the trimmed description is not empty, and a
    deadline exactly when a date was entered. *)
Theorem details_of_an_added_task
    (tz now : Z) (uuid : UUID) (st : AddTask.FormState) :
  let t := AddTask.newTask tz now uuid st in
  (exists cfg : TaskDetails.PriorityStyle,
      In (priorityString (AddTask.priority st), cfg)
         TaskDetails.PRIORITY_CONFIG
      /\ TaskDetails.priorityConfig t = Some cfg
      /\ TaskDetails.priorityLabel t
         = Some (TaskDetails.styleEmoji cfg ++ JSString.lit " "
                 ++ priorityString (AddTask.priority st)))
  /\ TaskDetailsView.pinnedShown t = false
  /\ TaskDetailsView.categoriesShown t = false
  /\ TaskDetailsView.descriptionShown t
     = JSString.truthy (JSString.trim (AddTask.description st))
  /\ TaskDetailsView.deadlineShown t = JSString.truthy (AddTask.deadline st).
Proof.
  intros t. subst t. split; [ | split; [reflexivity | split; [reflexivity|]]].
  - unfold TaskDetails.priorityLabel, TaskDetails.priorityConfig,
      TaskDetails.priorityOrMedium.
    cbn [AddTask.newTask priority].
    destruct (AddTask.priority st); eexists;
      (split; [ | split; reflexivity]); cbn [In TaskDetails.PRIORITY_CONFIG];
      [left | right; left | right; right; left | right; right; right; left];
      reflexivity.
  - unfold TaskDetailsView.descriptionShown, TaskDetailsView.deadlineShown.
    cbn [AddTask.newTask description deadline]. split.
    + destruct (JSString.trim (AddTask.description st)); reflexivity.
    + destruct (JSString.truthy (AddTask.deadline st)); reflexivity.
Qed.

Lemma localDay_endOfChosenDay (tz y m d : Z) :
  Calendar.localDay tz (Rules.endOfChosenDay tz y m d)
  = JSDate.MakeDay y (m - 1) d.
Proof.
  unfold Calendar.localDay, Rules.endOfChosenDay, JSDate.LocalTime, JSDate.UTC,
    JSDate.MakeDate, JSDate.MakeTime, JSDate.Day, JSDate.msPerDay,
    JSDate.msPerHour, JSDate.msPerMinute, JSDate.msPerSecond.
  Z.to_euclidean_division_equations. lia.
Qed.

Lemma newTask_deadline (tz now : Z) (uuid : UUID) (st : AddTask.FormState)
    (y m d : Z) :
  JSDate.parseDatePart (AddTask.deadline st) = Some (y, m, d, []) ->
  deadline (AddTask.newTask tz now uuid st)
  = Some (JSDate.TimeValue (Rules.endOfChosenDay tz y m d)).
Proof.
  intros Hp. cbn [AddTask.newTask deadline].
  destruct (AddTask.deadline st) as [ | c dl] eqn:E; [discriminate|].
  cbn [JSString.truthy]. rewrite <- E.
  rewrite (stored_deadline tz (AddTask.deadline st) y m d); [reflexivity|].
  rewrite E. exact Hp.
Qed.

(** X22: a task that the dialog built for the date y-m-d falls on that
    calendar day: whenever it is in the collection it is listed under
    Today, and counted as due today, exactly on that day. *)
Theorem added_task_is_listed_on_its_day
    (tz now now' : Z) (uuid : UUID) (st : AddTask.FormState) (y m d : Z)
    (collection : list Task) (customStart customEnd : option Dayjs.t) :
  JSDate.parseDatePart (AddTask.deadline st) = Some (y, m, d, []) ->
  let t := AddTask.newTask tz now uuid st in
  In t collection ->
  Calendar.deadlineDay tz t = Some (JSDate.MakeDay y (m - 1) d)
  /\ (In t (Home.filteredTasks tz now' (JSString.lit "Today") collection
              customStart customEnd)
      <-> JSDate.MakeDay y (m - 1) d = Calendar.localDay tz now')
  /\ (In t (Home.dueTodayTasks tz now' collection)
      <-> JSDate.MakeDay y (m - 1) d = Calendar.localDay tz now').
Proof.
  intros Hp t Hin. subst t.
  assert (Hday : Calendar.deadlineDay tz (AddTask.newTask tz now uuid st)
                 = Some (JSDate.MakeDay y (m - 1) d)).
  { unfold Calendar.deadlineDay.
    rewrite (newTask_deadline tz now uuid st y m d Hp).
    cbn [Calendar.dayOf]. rewrite localDay_endOfChosenDay. reflexivity. }
  split; [exact Hday | split].
  - rewrite filteredTasks_Today_In, Hday.
    split; [intros [_ [= H]]; exact H | intros ->; split; [exact Hin | reflexivity]].
  - unfold Home.dueTodayTasks.
    rewrite (filter_ext _ _ (dueToday_predicate tz now')), filter_In.
    unfold Calendar.dueToday. rewrite Hday.
    cbn [AddTask.newTask done negb]. rewrite andb_true_r, Z.eqb_eq.
    split; [intros [_ H]; exact H | intros H; split; [exact Hin | exact H]].
Qed.

Lemma added_task_is_listed_on_its_day_witness :
  let st := {| AddTask.open := true; AddTask.name := JSString.lit "Pay rent";
               AddTask.description := JSString.lit "";
               AddTask.deadline := JSString.lit "2026-11-02";
               AddTask.priority := High; AddTask.error := JSString.lit "" |} in
  Calendar.deadlineDay 0 (AddTask.newTask 0 sampleNow (JSString.lit "id") st)
  = Some (JSDate.MakeDay 2026 (11 - 1) 2).
Proof.
  intros st.
  refine (proj1 (added_task_is_listed_on_its_day 0 sampleNow sampleNow
                   (JSString.lit "id") st 2026 11 2
                   [AddTask.newTask 0 sampleNow (JSString.lit "id") st]
                   None None eq_refl _)).
  left. reflexivity.
Defined.

(** X23: a task that validation accepts with a date is not overdue at the
    instant it is created, provided the local time is not in the last
    second of the day (at most 23:59:59.000) and the offset of local time
    is less than a day. *)
Theorem added_task_is_not_overdue_at_once
    (tz now : Z) (uuid : UUID) (st : AddTask.FormState) (y m d : Z) :
  JSDate.parseDatePart (AddTask.deadline st) = Some (y, m, d, []) ->
  fst (AddTask.validateForm tz now st) = true ->
  - JSDate.msPerDay < tz < JSDate.msPerDay ->
  JSDate.TimeWithinDay (JSDate.LocalTime tz now) <= 86399000 ->
  TaskDetailsView.isOverdue now (AddTask.newTask tz now uuid st) = false.
Proof.
  intros Hp Hv Htz Hlast.
  assert (Hok : ~ Rules.refused tz now st).
  { intros H. apply validateForm_rejects in H. congruence. }
  assert (Hne : AddTask.deadline st <> []).
  { intros E. rewrite E in Hp. discriminate. }
  assert (Hcheck : ~ JSDate.MakeDay y (m - 1) d * JSDate.msPerDay
                     < Rules.startOfToday tz now).
  { intros H. apply Hok. right. right. right. split; [exact Hne|].
    eexists. split; [apply (validated_deadline tz _ y m d Hp) | exact H]. }
  unfold TaskDetailsView.isOverdue.
  rewrite (newTask_deadline tz now uuid st y m d Hp).
  cbn [AddTask.newTask done negb andb JSDate.ltb].
  apply Z.ltb_ge.
  unfold Rules.startOfToday, Rules.endOfChosenDay, Calendar.localDay,
    JSDate.TimeWithinDay, JSDate.LocalTime, JSDate.UTC, JSDate.MakeDate,
    JSDate.MakeTime, JSDate.Day, JSDate.msPerDay, JSDate.msPerHour,
    JSDate.msPerMinute, JSDate.msPerSecond in *.
  Z.to_euclidean_division_equations. lia.
Qed.

Lemma added_task_is_not_overdue_at_once_witness :
  let st := {| AddTask.open := true; AddTask.name := JSString.lit "Pay rent";
               AddTask.description := JSString.lit "";
               AddTask.deadline := JSString.lit "2026-11-02";
               AddTask.priority := High; AddTask.error := JSString.lit "" |} in
  TaskDetailsView.isOverdue sampleNow
    (AddTask.newTask 0 sampleNow (JSString.lit "id") st) = false.
Proof.
  intros st.
  refine (added_task_is_not_overdue_at_once 0 sampleNow (JSString.lit "id")
            st 2026 11 2 eq_refl eq_refl _ _).
  - vm_compute. split; reflexivity.
  - vm_compute. discriminate.
Defined.

(** In the last second of the day a task accepted for today is overdue
    as soon as it exists. *)
Example added_task_overdue_in_the_last_second :
  let st := {| AddTask.open := true; AddTask.name := JSString.lit "Pay rent";
               AddTask.description := JSString.lit "";
               AddTask.deadline := JSString.lit "2026-11-02";
               AddTask.priority := High; AddTask.error := JSString.lit "" |} in
  let lastSecond := 1793663999500 in
  fst (AddTask.validateForm 0 lastSecond st) = true
  /\ TaskDetailsView.isOverdue lastSecond
       (AddTask.newTask 0 lastSecond (JSString.lit "id") st) = true.
Proof. vm_compute. split; reflexivity. Qed.

(** ** The calendar of a time value *)

Lemma DayFromYear_succ (y : Z) :
  JSDate.DayFromYear (y + 1) = JSDate.DayFromYear y + JSDate.DaysInYear y.
Proof.
  unfold JSDate.DayFromYear, JSDate.DaysInYear.
  destruct (Z.eqb_spec (y mod 4) 0), (Z.eqb_spec (y mod 100) 0),
    (Z.eqb_spec (y mod 400) 0); cbn [negb];
    Z.to_euclidean_division_equations; lia.
Qed.

(** [YearFromDay] is the year of the day: the year starts on or before it
    and the next year after it. *)
Lemma YearFromDay_spec (day : Z) :
  JSDate.DayFromYear (JSDateFields.YearFromDay day) <= day
  < JSDate.DayFromYear (JSDateFields.YearFromDay day + 1).
Proof.
  unfold JSDateFields.YearFromDay.
  set (y := 1970 + 400 * day / 146097).
  destruct (Z.leb_spec (JSDate.DayFromYear (y + 1)) day) as [H1 | H1].
  - split; [exact H1|].
    unfold JSDate.DayFromYear in *. subst y.
    Z.to_euclidean_division_equations. lia.
  - destruct (Z.ltb_spec day (JSDate.DayFromYear y)) as [H2 | H2].
    + replace (y - 1 + 1) with y by lia. split; [ | exact H2].
      unfold JSDate.DayFromYear in *. subst y.
      Z.to_euclidean_division_equations. lia.
    + split; assumption.
Qed.

Lemma InLeapYear_cases (y : Z) :
  JSDate.InLeapYear y = 0 \/ JSDate.InLeapYear y = 1.
Proof.
  unfold JSDate.InLeapYear, JSDate.DaysInYear.
  destruct (negb (y mod 4 =? 0)), (negb (y mod 100 =? 0)),
    (negb (y mod 400 =? 0)); cbn; lia.
Qed.

Lemma DayWithinYear_range (tv : Z) :
  0 <= JSDateFields.DayWithinYear tv
  < 365 + JSDate.InLeapYear (JSDateFields.YearFromTime tv).
Proof.
  unfold JSDateFields.DayWithinYear, JSDateFields.YearFromTime,
    JSDate.InLeapYear.
  pose proof (YearFromDay_spec (JSDate.Day tv)) as H.
  rewrite DayFromYear_succ in H. lia.
Qed.

(** The month and the date of a day of the year, and the day they make. *)
Lemma month_and_date_of_day (leap dwy : Z) :
  leap = 0 \/ leap = 1 -> 0 <= dwy < 365 + leap ->
  let m := JSDateFields.MonthFromDayWithinYear leap dwy in
  let d := dwy - JSDate.DayWithinYearOfMonth leap m + 1 in
  0 <= m <= 11
  /\ 1 <= d <= JSDate.DaysInMonth leap m
  /\ d <= 31
  /\ m / 12 = 0
  /\ JSDate.DayWithinYearOfMonth leap (m mod 12) + d - 1 = dwy.
Proof.
  intros Hleap Hdwy m d. subst m d.
  unfold JSDateFields.MonthFromDayWithinYear.
  repeat match goal with
         | |- context [if ?a <? ?b then _ else _] =>
             destruct (Z.ltb_spec a b)
         end;
    rewrite Z.div_small, Z.mod_small by lia;
    cbn [JSDate.DayWithinYearOfMonth JSDate.DaysInMonth];
    destruct Hleap; subst leap; repeat split; lia.
Qed.

(** The fields of a time value make its day again. *)
Lemma MakeDay_of_fields (tv : Z) :
  JSDate.MakeDay (JSDateFields.YearFromTime tv) (JSDateFields.MonthFromTime tv)
    (JSDateFields.DateFromTime tv) = JSDate.Day tv.
Proof.
  unfold JSDate.MakeDay, JSDateFields.DateFromTime, JSDateFields.MonthFromTime.
  destruct (month_and_date_of_day
              (JSDate.InLeapYear (JSDateFields.YearFromTime tv))
              (JSDateFields.DayWithinYear tv)
              (InLeapYear_cases _) (DayWithinYear_range tv))
    as (_ & _ & _ & Hdiv & Hday).
  rewrite Hdiv, Z.add_0_r.
  unfold JSDateFields.DayWithinYear in *. lia.
Qed.

(** ** Digits *)

Lemma digit_digitChar (n : Z) :
  JSDate.digit (JSDateFields.digitChar n) = Some (n mod 10).
Proof.
  unfold JSDate.digit, JSDateFields.digitChar.
  pose proof (Z.mod_pos_bound n 10 ltac:(lia)) as H.
  rewrite Z2N.id by lia.
  replace (48 <=? 48 + n mod 10) with true by (symmetry; apply Z.leb_le; lia).
  replace (48 + n mod 10 <=? 57) with true by (symmetry; apply Z.leb_le; lia).
  cbn [andb]. f_equal. lia.
Qed.

Lemma digits2_pad2 (n : Z) :
  0 <= n <= 99 ->
  JSDate.digits2 (JSDateFields.digitChar (n / 10)) (JSDateFields.digitChar n)
  = Some n.
Proof.
  intros H. unfold JSDate.digits2. rewrite !digit_digitChar. f_equal.
  Z.to_euclidean_division_equations. lia.
Qed.

Lemma digits4_pad4 (n : Z) :
  0 <= n <= 9999 ->
  JSDate.digits4 (JSDateFields.digitChar (n / 1000))
    (JSDateFields.digitChar (n / 100)) (JSDateFields.digitChar (n / 10))
    (JSDateFields.digitChar n) = Some n.
Proof.
  intros H. unfold JSDate.digits4, JSDate.digits2. rewrite !digit_digitChar.
  f_equal. Z.to_euclidean_division_equations. lia.
Qed.

(** The years from 0 to 9999 are those of the time values of this range. *)
Lemma YearFromTime_four_digits (tv : Z) :
  -62167219200000 <= tv < 253402300800000 ->
  0 <= JSDateFields.YearFromTime tv <= 9999.
Proof.
  intros H. unfold JSDateFields.YearFromTime.
  pose proof (YearFromDay_spec (JSDate.Day tv)) as Hy.
  assert (Hd : -719528 <= JSDate.Day tv < 2932897).
  { unfold JSDate.Day, JSDate.msPerDay.
    Z.to_euclidean_division_equations. lia. }
  unfold JSDate.DayFromYear in Hy.
  Z.to_euclidean_division_equations. lia.
Qed.

(** The date in UTC printed by [toISOString] is read back as the year, the
    month and the date of the time value. *)
Lemma parseDatePart_isoDate (tv : Z) :
  -62167219200000 <= tv < 253402300800000 ->
  JSDate.parseDatePart (JSDateFields.isoDate tv)
  = Some (JSDateFields.YearFromTime tv, JSDateFields.MonthFromTime tv + 1,
          JSDateFields.DateFromTime tv, []).
Proof.
  intros Hr. pose proof (YearFromTime_four_digits tv Hr) as Hy.
  destruct (month_and_date_of_day
              (JSDate.InLeapYear (JSDateFields.YearFromTime tv))
              (JSDateFields.DayWithinYear tv)
              (InLeapYear_cases _) (DayWithinYear_range tv))
    as (Hm & Hd & Hd31 & _ & _).
  change (0 <= JSDateFields.MonthFromTime tv <= 11) in Hm.
  change (1 <= JSDateFields.DateFromTime tv
          <= JSDate.DaysInMonth
               (JSDate.InLeapYear (JSDateFields.YearFromTime tv))
               (JSDateFields.MonthFromTime tv)) in Hd.
  change (JSDateFields.DateFromTime tv <= 31) in Hd31.
  unfold JSDateFields.isoDate, JSDateFields.isoYear.
  replace ((0 <=? JSDateFields.YearFromTime tv)
           && (JSDateFields.YearFromTime tv <=? 9999)) with true
    by (symmetry; apply andb_true_iff; split; apply Z.leb_le; lia).
  unfold JSDateFields.pad4, JSDateFields.pad2.
  cbn [app JSString.lit]. unfold JSDate.parseDatePart.
  unfold JSDate.isChar. rewrite N.eqb_refl. cbn [andb].
  rewrite digits4_pad4 by lia. rewrite !digits2_pad2 by lia.
  replace (1 <=? JSDateFields.MonthFromTime tv + 1) with true
    by (symmetry; apply Z.leb_le; lia).
  replace (JSDateFields.MonthFromTime tv + 1 <=? 12) with true
    by (symmetry; apply Z.leb_le; lia).
  replace (1 <=? JSDateFields.DateFromTime tv) with true
    by (symmetry; apply Z.leb_le; lia).
  replace (JSDateFields.DateFromTime tv <=? 31) with true
    by (symmetry; apply Z.leb_le; lia).
  reflexivity.
Qed.

(** X24: the earliest date of the date field, the date part of
    [toISOString], is a date string of ten characters that the [Date]
    constructor reads back as midnight in UTC of the current UTC day, for
    every instant of the years 0 to 9999. *)
Theorem min_date_reads_back_as_the_utc_day (tz now : Z) :
  -62167219200000 <= now < 253402300800000 ->
  JSDate.parse tz (AddTaskMinDate.getMinDate now)
  = JSDate.TimeValue (JSDate.Day now * JSDate.msPerDay)
  /\ List.length (AddTaskMinDate.getMinDate now) = 10%nat
  /\ JSDate.parseDatePart (AddTaskMinDate.getMinDate now)
     = Some (JSDateFields.YearFromTime now, JSDateFields.MonthFromTime now + 1,
             JSDateFields.DateFromTime now, [])
  /\ JSDate.MakeDay (JSDateFields.YearFromTime now)
       (JSDateFields.MonthFromTime now) (JSDateFields.DateFromTime now)
     = JSDate.Day now.
Proof.
  intros Hr. unfold AddTaskMinDate.getMinDate.
  pose proof (parseDatePart_isoDate now Hr) as Hp.
  split; [ | split; [ | split; [exact Hp | apply MakeDay_of_fields]]].
  - rewrite (validated_deadline tz _ _ _ _ Hp), Z.add_simpl_r.
    rewrite MakeDay_of_fields. reflexivity.
  - pose proof (YearFromTime_four_digits now Hr) as Hy.
    unfold JSDateFields.isoDate, JSDateFields.isoYear.
    replace ((0 <=? JSDateFields.YearFromTime now)
             && (JSDateFields.YearFromTime now <=? 9999)) with true
      by (symmetry; apply andb_true_iff; split; apply Z.leb_le; lia).
    reflexivity.
Qed.

Lemma min_date_reads_back_as_the_utc_day_witness :
  JSDate.parse 3600000 (AddTaskMinDate.getMinDate sampleNow)
  = JSDate.TimeValue (JSDate.Day sampleNow * JSDate.msPerDay).
Proof.
  refine (proj1 (min_date_reads_back_as_the_utc_day 3600000 sampleNow _)).
  vm_compute. split; [discriminate | reflexivity].
Defined.

Lemma validateForm_accepts (tz now : Z) (st : AddTask.FormState) :
  fst (AddTask.validateForm tz now st) = true <-> ~ Rules.refused tz now st.
Proof.
  rewrite <- validateForm_rejects.
  destruct (fst (AddTask.validateForm tz now st)); split; congruence.
Qed.

(** X25: the earliest date of the date field against the validation, for
    a form that is accepted without date: at or east of Greenwich that
    date is accepted exactly while the local date is the UTC date (else it
    is the local yesterday); west of Greenwich it is accepted exactly while
    the UTC date is already the local tomorrow, so that while both dates
    agree the earliest date offered, today, is refused. *)
Theorem min_date_against_validation
    (tz now : Z) (st : AddTask.FormState) :
  -62167219200000 <= now < 253402300800000 ->
  - JSDate.msPerDay < tz < JSDate.msPerDay ->
  fst (AddTask.validateForm tz now (AddTaskMinDate.withDeadline st [])) = true ->
  let st' :=
    AddTaskMinDate.withDeadline st (AddTaskMinDate.getMinDate now) in
  (0 <= tz ->
   (fst (AddTask.validateForm tz now st') = true
    <-> Calendar.localDay tz now = JSDate.Day now))
  /\ (tz < 0 ->
      (fst (AddTask.validateForm tz now st') = true
       <-> Calendar.localDay tz now < JSDate.Day now)).
Proof.
  intros Hr Htz Hbase st'. subst st'.
  pose proof (parseDatePart_isoDate now Hr) as Hp.
  assert (Hparse : JSDate.parse tz (AddTaskMinDate.getMinDate now)
                   = JSDate.TimeValue (JSDate.Day now * JSDate.msPerDay)).
  { unfold AddTaskMinDate.getMinDate.
    rewrite (validated_deadline tz _ _ _ _ Hp), Z.add_simpl_r.
    rewrite MakeDay_of_fields. reflexivity. }
  assert (Hne : AddTaskMinDate.getMinDate now <> []).
  { unfold AddTaskMinDate.getMinDate. intros E. rewrite E in Hp.
    discriminate. }
  apply validateForm_accepts in Hbase.
  assert (Hrej : Rules.refused tz now
                   (AddTaskMinDate.withDeadline st
                      (AddTaskMinDate.getMinDate now))
                 <-> JSDate.Day now * JSDate.msPerDay
                     < Rules.startOfToday tz now).
  { unfold Rules.refused in *.
    cbn [AddTaskMinDate.withDeadline AddTask.name AddTask.description
           AddTask.deadline] in *.
    rewrite Hparse. split.
    - intros [H | [H | [H | (_ & tv & [= <-] & H)]]];
        try (exfalso; apply Hbase; tauto). exact H.
    - intros H. right. right. right. split.
      + exact Hne.
      + eexists. split; [reflexivity | exact H]. }
  rewrite validateForm_accepts, Hrej.
  unfold Rules.startOfToday, Calendar.localDay, JSDate.LocalTime, JSDate.Day,
    JSDate.msPerDay in *.
  split; intros; Z.to_euclidean_division_equations; lia.
Qed.

Lemma min_date_against_validation_witness :
  let st := {| AddTask.open := true; AddTask.name := JSString.lit "Pay rent";
               AddTask.description := JSString.lit "";
               AddTask.deadline := JSString.lit "";
               AddTask.priority := High; AddTask.error := JSString.lit "" |} in
  fst (AddTask.validateForm (-18000000) sampleNow
         (AddTaskMinDate.withDeadline st (AddTaskMinDate.getMinDate sampleNow)))
  = true
  <-> Calendar.localDay (-18000000) sampleNow < JSDate.Day sampleNow.
Proof.
  intros st.
  refine (proj2 (min_date_against_validation (-18000000) sampleNow st _ _ _) _).
  - vm_compute. split; [discriminate | reflexivity].
  - vm_compute. split; reflexivity.
  - reflexivity.
  - reflexivity.
Defined.

(** ** Today against a range of one day *)

(** X26: on a collection whose deadlines are instants, Today lists the
    same tasks as Custom with both bounds on the day of today. *)
Theorem today_is_the_range_of_one_day
    (tz now : Z) (tasks : list Task) (customStart customEnd : option Dayjs.t)
    (s e : Z) :
  (forall t, In t tasks -> Calendar.deadlineIsInstant t) ->
  Calendar.localDay tz s = Calendar.localDay tz now ->
  Calendar.localDay tz e = Calendar.localDay tz now ->
  Home.filteredTasks tz now (JSString.lit "Today") tasks customStart customEnd
  = Home.filteredTasks tz now (JSString.lit "Custom") tasks
      (Some (JSDate.TimeValue s)) (Some (JSDate.TimeValue e)).
Proof.
  intros Hinst Hs He.
  rewrite filteredTasks_Today, filteredTasks_Custom.
  apply filter_ext_in. intros t Hin. specialize (Hinst t Hin).
  unfold Calendar.deadlineIsInstant in Hinst.
  destruct (deadline t) as [[tv | ] | ]; [ | congruence | reflexivity].
  change (Dayjs.dayjs (JSDate.TimeValue tv)) with (JSDate.TimeValue tv).
  destruct (Dayjs.isSame tz (JSDate.TimeValue tv)
              (Dayjs.startOf tz (JSDate.TimeValue now) Dayjs.day) Dayjs.day)
    eqn:Esame;
    destruct (Dayjs.isBetween tz (JSDate.TimeValue tv) (JSDate.TimeValue s)
                (JSDate.TimeValue e) Dayjs.day (JSString.lit "[]"))
      eqn:Ebetween; try reflexivity; exfalso.
  - apply isSame_startOf_day in Esame.
    apply not_true_iff_false in Ebetween. apply Ebetween.
    apply isBetween_day_inclusive. lia.
  - apply isBetween_day_inclusive in Ebetween.
    apply not_true_iff_false in Esame. apply Esame.
    apply isSame_startOf_day. lia.
Qed.

Lemma today_is_the_range_of_one_day_witness :
  Home.filteredTasks 0 sampleNow (JSString.lit "Today")
    [sampleTask "a" false None; sampleTask "b" false (Some monday);
     sampleTask "c" true (Some saturday)] None None
  = Home.filteredTasks 0 sampleNow (JSString.lit "Custom")
      [sampleTask "a" false None; sampleTask "b" false (Some monday);
       sampleTask "c" true (Some saturday)]
      (Some (JSDate.TimeValue 1793600000000))
      (Some (JSDate.TimeValue sampleNow)).
Proof.
  refine (today_is_the_range_of_one_day 0 sampleNow _ None None
            1793600000000 sampleNow _ _ _).
  - intros t [<- | [<- | [<- | []]]]; discriminate.
  - reflexivity.
  - reflexivity.
Defined.

(** ** binary64: whole numbers, division and [Math.ceil] *)

Lemma digits2_pos_upper (p : positive) :
  Z.pos p < 2 ^ Z.pos (digits2_pos p).
Proof.
  induction p as [p IH | p IH | ]; cbn [digits2_pos];
    try (rewrite Pos2Z.inj_succ, Z.pow_succ_r by lia; lia).
  cbn. lia.
Qed.

Lemma digits2_pos_of_range (p : positive) (d : Z) :
  2 ^ (d - 1) <= Z.pos p < 2 ^ d -> Z.pos (digits2_pos p) = d.
Proof.
  intros [Hlo Hhi].
  pose proof (digits2_pos_lower p) as Hl.
  pose proof (digits2_pos_upper p) as Hu.
  destruct (Z.lt_trichotomy (Z.pos (digits2_pos p)) d) as [H | [H | H]];
    [exfalso | exact H | exfalso].
  - assert (2 ^ Z.pos (digits2_pos p) <= 2 ^ (d - 1))
      by (apply Z.pow_le_mono_r; lia).
    lia.
  - assert (2 ^ d <= 2 ^ (Z.pos (digits2_pos p) - 1))
      by (apply Z.pow_le_mono_r; lia).
    lia.
Qed.

Lemma pos_iter_xO (k p : positive) :
  Z.pos (Pos.iter xO p k) = Z.pos p * 2 ^ Z.pos k.
Proof.
  induction k as [ | k IH] using Pos.peano_ind.
  - cbn [Pos.iter]. lia.
  - rewrite Pos.iter_succ, Pos2Z.inj_succ, Z.pow_succ_r by lia.
    rewrite Pos2Z.inj_xO, IH. lia.
Qed.

(** A whole number below 2^53 is a binary64 number: its mantissa has 53
    bits and is the number scaled by a power of two. *)
Lemma binary_round_whole (s : bool) (p : positive) :
  Z.pos p < 2 ^ 53 ->
  exists m e,
    binary_round JSNumber.prec JSNumber.emax s p 0 = S754_finite s m e
    /\ digits2_pos m = 53%positive
    /\ -52 <= e <= 0
    /\ Z.pos m = Z.pos p * 2 ^ (- e).
Proof.
  intros Hlt. unfold binary_round.
  pose proof (digits2_pos_lower p) as Hlow.
  assert (Hd : Z.pos (digits2_pos p) <= 53).
  { destruct (Z_le_gt_dec (Z.pos (digits2_pos p)) 53) as [H | H]; [exact H|].
    exfalso.
    assert (2 ^ 53 <= 2 ^ (Z.pos (digits2_pos p) - 1))
      by (apply Z.pow_le_mono_r; lia).
    lia. }
  assert (Hf : fexp JSNumber.prec JSNumber.emax (Z.pos (digits2_pos p) + 0)
               = Z.pos (digits2_pos p) - 53).
  { unfold fexp, emin, JSNumber.prec, JSNumber.emax. lia. }
  rewrite Hf. unfold shl_align.
  destruct (Z.pos (digits2_pos p) - 53 - 0) as [ | d | d] eqn:Hs; try lia.
  - exists p, 0. split; [apply binary_round_aux_canonical; lia|].
    split; [lia | split; [lia | cbn; lia]].
  - exists (Pos.iter xO p d), (Z.pos (digits2_pos p) - 53).
    assert (Hdig : digits2_pos (Pos.iter xO p d) = 53%positive)
      by (rewrite digits2_pos_iter_xO; lia).
    split; [apply binary_round_aux_canonical; [exact Hdig | lia]|].
    split; [exact Hdig | split; [lia|]].
    rewrite pos_iter_xO. f_equal. f_equal. lia.
Qed.

Lemma round_nearest_even_range (m : Z) (l : location) :
  m <= round_nearest_even m l <= m + 1.
Proof.
  destruct l as [ | [ | | ]]; cbn [round_nearest_even];
    try destruct (Z.even m); lia.
Qed.

Lemma loc_of_shr_record_of_loc (m : Z) (l : location) :
  loc_of_shr_record (shr_record_of_loc m l) = l.
Proof. destruct l as [ | [ | | ]]; reflexivity. Qed.

Lemma shr_m_of_loc (m : Z) (l : location) :
  shr_m (shr_record_of_loc m l) = m.
Proof. destruct l as [ | [ | | ]]; reflexivity. Qed.

(** The last step of the rounding: a mantissa of 53 bits is kept, the
    mantissa 2^53 is halved with the exponent raised. *)
Lemma shr_fexp_rounded (mx e : Z) :
  2 ^ 52 <= mx <= 2 ^ 53 -> -1074 <= e <= 970 ->
  exists m'' e'',
    shr_fexp JSNumber.prec JSNumber.emax mx e loc_Exact
    = ({| shr_m := Z.pos m''; shr_r := false; shr_s := false |}, e'')
    /\ e <= e'' <= e + 1
    /\ Z.pos m'' * 2 ^ (e'' - e) = mx.
Proof.
  intros Hm He.
  destruct mx as [ | q | q]; try lia.
  destruct (Z.eq_dec (Z.pos q) (2 ^ 53)) as [E | E].
  - injection E as ->. exists (2 ^ 52)%positive, (e + 1).
    unfold shr_fexp. cbn [Zdigits2 shr_record_of_loc].
    replace (Z.pos (digits2_pos 9007199254740992)) with 54 by reflexivity.
    replace (fexp JSNumber.prec JSNumber.emax (54 + e) - e) with 1
      by (unfold fexp, emin, JSNumber.prec, JSNumber.emax; lia).
    split; [reflexivity | split; [lia|]].
    replace (e + 1 - e) with 1 by lia. reflexivity.
  - exists q, e.
    assert (Hd : Z.pos (digits2_pos q) = 53)
      by (apply digits2_pos_of_range; lia).
    unfold shr_fexp. cbn [Zdigits2 shr_record_of_loc]. rewrite Hd.
    replace (fexp JSNumber.prec JSNumber.emax (53 + e) - e) with 0
      by (unfold fexp, emin, JSNumber.prec, JSNumber.emax; lia).
    split; [reflexivity | split; [lia|]].
    rewrite Z.sub_diag. lia.
Qed.

(** Rounding a quotient of 53 or 54 bits: the result is finite and within
    two units of the quotient, and it is the quotient itself when nothing
    is lost. *)
Lemma binary_round_aux_near (s : bool) (q : positive) (e : Z) (l : location) :
  2 ^ 52 <= Z.pos q < 2 ^ 54 -> -1074 <= e <= 960 ->
  exists m'' e'',
    binary_round_aux JSNumber.prec JSNumber.emax s (Z.pos q) e l
    = S754_finite s m'' e''
    /\ e <= e'' <= e + 2
    /\ Z.pos q - 1 <= Z.pos m'' * 2 ^ (e'' - e) <= Z.pos q + 2
    /\ (l = loc_Exact -> Z.even (Z.pos q) = true ->
        Z.pos m'' * 2 ^ (e'' - e) = Z.pos q).
Proof.
  intros Hq He. unfold binary_round_aux.
  destruct (Z_lt_ge_dec (Z.pos q) (2 ^ 53)) as [Hsmall | Hbig].
  - (* 53 bits: nothing is shifted out before the rounding *)
    assert (Hd : Z.pos (digits2_pos q) = 53)
      by (apply digits2_pos_of_range; lia).
    unfold shr_fexp at 1. cbn [Zdigits2]. rewrite Hd.
    replace (fexp JSNumber.prec JSNumber.emax (53 + e) - e) with 0
      by (unfold fexp, emin, JSNumber.prec, JSNumber.emax; lia).
    cbn [shr]. rewrite shr_m_of_loc, loc_of_shr_record_of_loc.
    pose proof (round_nearest_even_range (Z.pos q) l) as Hr.
    destruct (shr_fexp_rounded (round_nearest_even (Z.pos q) l) e)
      as (m'' & e'' & -> & He'' & Hv); [lia | lia|].
    cbn [shr_m].
    replace (e'' <=? JSNumber.emax - JSNumber.prec) with true
      by (symmetry; apply Z.leb_le; unfold JSNumber.emax, JSNumber.prec; lia).
    exists m'', e''. split; [reflexivity | split; [lia | split; [lia|]]].
    intros -> _. rewrite Hv. reflexivity.
  - (* 54 bits: one bit is shifted out before the rounding *)
    assert (Hd : Z.pos (digits2_pos q) = 54)
      by (apply digits2_pos_of_range; lia).
    unfold shr_fexp at 1. cbn [Zdigits2]. rewrite Hd.
    replace (fexp JSNumber.prec JSNumber.emax (54 + e) - e) with 1
      by (unfold fexp, emin, JSNumber.prec, JSNumber.emax; lia).
    cbn [shr iter_pos].
    set (mrs := shr_1 (shr_record_of_loc (Z.pos q) l)).
    assert (Hhalf : shr_m mrs = Z.pos q / 2
                    /\ (l = loc_Exact -> Z.even (Z.pos q) = true ->
                        loc_of_shr_record mrs = loc_Exact)).
    { subst mrs.
      destruct q as [p | p | ]; [ | | lia];
        destruct l as [ | [ | | ]]; cbn [shr_record_of_loc shr_1 shr_m orb];
        (split; [ | try discriminate; try reflexivity]).
      all: try (rewrite Pos2Z.inj_xI; Z.to_euclidean_division_equations; lia).
      all: try (rewrite Pos2Z.inj_xO; Z.to_euclidean_division_equations; lia).
      all: try (intros _ H; discriminate H). }
    destruct Hhalf as [Hm Hexact].
    pose proof (round_nearest_even_range (shr_m mrs) (loc_of_shr_record mrs))
      as Hr.
    assert (Hrange : 2 ^ 52 <= Z.pos q / 2 < 2 ^ 53)
      by (Z.to_euclidean_division_equations; lia).
    destruct (shr_fexp_rounded
                (round_nearest_even (shr_m mrs) (loc_of_shr_record mrs))
                (e + 1))
      as (m'' & e'' & -> & He'' & Hv); [lia | lia|].
    cbn [shr_m].
    replace (e'' <=? JSNumber.emax - JSNumber.prec) with true
      by (symmetry; apply Z.leb_le; unfold JSNumber.emax, JSNumber.prec; lia).
    exists m'', e''. split; [reflexivity | split; [lia|]].
    assert (Hpow : Z.pos m'' * 2 ^ (e'' - e)
                   = 2 * (Z.pos m'' * 2 ^ (e'' - (e + 1)))).
    { replace (e'' - e) with (Z.succ (e'' - (e + 1))) by lia.
      rewrite Z.pow_succ_r by lia. lia. }
    rewrite Hpow, Hv. split.
    + set (r := round_nearest_even _ _) in *. clearbody r.
      rewrite Hm in Hr. Z.to_euclidean_division_equations. lia.
    + intros Hl Heven. rewrite (Hexact Hl Heven). cbn [round_nearest_even].
      rewrite Hm. apply Z.even_spec in Heven. destruct Heven as [k Hk].
      Z.to_euclidean_division_equations. lia.
Qed.

(** The number of milliseconds of a day as a binary64 number. *)
Lemma ofZ_day :
  JSNumber.ofZ 86400000 = S754_finite false 5798205849600000 (-26).
Proof. vm_compute. reflexivity. Qed.

Lemma div_eucl_div_mod (a b : Z) : Z.div_eucl a b = (a / b, a mod b).
Proof. unfold Z.div, Z.modulo. destruct (Z.div_eucl a b); reflexivity. Qed.

Lemma new_location_exact (n : Z) : new_location n 0 = loc_Exact.
Proof.
  unfold new_location, new_location_even, new_location_odd.
  destruct (Z.even n); reflexivity.
Qed.

(** The quotient of a binary64 number of 53 bits by the milliseconds of a
    day: [Z.pos m1 * 2 ^ 27 / 86400000] is the exact quotient cut to a
    whole number of units of [2 ^ (e1 - 27)], and the result is within two
    such units of it, and equal to it where the division leaves no
    remainder. *)
Lemma div_by_day_near (s : bool) (m1 : positive) (e1 : Z) :
  2 ^ 52 <= Z.pos m1 < 2 ^ 53 -> -52 <= e1 <= 0 ->
  exists m e,
    JSNumber.div (S754_finite s m1 e1) (JSNumber.ofZ 86400000)
    = S754_finite s m e
    /\ e1 - 27 <= e <= e1 - 25
    /\ Z.pos m1 * 2 ^ 27 / 86400000 - 1
       <= Z.pos m * 2 ^ (e - (e1 - 27))
       <= Z.pos m1 * 2 ^ 27 / 86400000 + 2
    /\ (forall n, Z.pos m1 * 2 ^ 27 = 86400000 * n ->
        Z.pos m * 2 ^ (e - (e1 - 27)) = n).
Proof.
  intros Hm He. rewrite ofZ_day.
  unfold JSNumber.div, SFdiv, SFdiv_core_binary.
  cbn [Zdigits2].
  rewrite (digits2_pos_of_range m1 53) by lia.
  replace (Z.pos (digits2_pos 5798205849600000)) with 53 by reflexivity.
  set (e' := IntDef.Z.min _ _).
  assert (He' : e' = e1 - 27).
  { subst e'. change IntDef.Z.min with Z.min.
    unfold fexp, emin, JSNumber.prec, JSNumber.emax. lia. }
  rewrite He'.
  replace (e1 - -26 - (e1 - 27)) with 53 by lia.
  change (IntDef.Z.shiftl (Z.pos m1) 53) with (Z.shiftl (Z.pos m1) 53).
  change IntDef.Z.div_eucl with Z.div_eucl.
  rewrite Z.shiftl_mul_pow2 by lia.
  rewrite div_eucl_div_mod, xorb_false_r.
  assert (Hq : Z.pos m1 * 2 ^ 53 / 5798205849600000
               = Z.pos m1 * 2 ^ 27 / 86400000)
    by (Z.to_euclidean_division_equations; lia).
  rewrite Hq.
  assert (Hrange : 2 ^ 52 <= Z.pos m1 * 2 ^ 27 / 86400000 < 2 ^ 54)
    by (Z.to_euclidean_division_equations; lia).
  destruct (Z.pos m1 * 2 ^ 27 / 86400000) as [ | q | q] eqn:Eq; try lia.
  destruct (binary_round_aux_near s q (e1 - 27)
              (new_location 5798205849600000
                 (Z.pos m1 * 2 ^ 53 mod 5798205849600000)))
    as (m & e & Hr & Hexp & Hnear & Hexact); [lia | lia|].
  exists m, e. split; [exact Hr | split; [lia | split; [lia|]]].
  intros n Hn.
  assert (Hnq : n = Z.pos q)
    by (rewrite <- Eq; Z.to_euclidean_division_equations; lia).
  rewrite Hnq. apply Hexact.
  - replace (Z.pos m1 * 2 ^ 53 mod 5798205849600000) with 0
      by (Z.to_euclidean_division_equations; lia).
    apply new_location_exact.
  - rewrite <- Hnq. apply Z.even_spec.
    destruct (Z.Even_or_Odd n) as [H | [k Hk]]; [exact H | exfalso; lia].
Qed.

(** The binary64 number of a whole number that is not zero. *)
Lemma ofZ_whole (x : Z) :
  0 < Z.abs x < 2 ^ 53 ->
  exists m e,
    JSNumber.ofZ x = S754_finite (x <? 0) m e
    /\ 2 ^ 52 <= Z.pos m < 2 ^ 53
    /\ -52 <= e <= 0
    /\ Z.pos m = Z.abs x * 2 ^ (- e).
Proof.
  intros Hx. unfold JSNumber.ofZ, binary_normalize.
  destruct x as [ | p | p]; [lia | | ].
  - destruct (binary_round_whole false p) as (m & e & -> & Hd & He & Hm);
      [lia|].
    exists m, e. split; [reflexivity|]. split; [ | split; [lia | exact Hm]].
    pose proof (digits2_pos_lower m) as Hl.
    pose proof (digits2_pos_upper m) as Hu.
    rewrite Hd in Hl, Hu. lia.
  - destruct (binary_round_whole true p) as (m & e & -> & Hd & He & Hm);
      [lia|].
    exists m, e. split; [reflexivity|]. split; [ | split; [lia | exact Hm]].
    pose proof (digits2_pos_lower m) as Hl.
    pose proof (digits2_pos_upper m) as Hu.
    rewrite Hd in Hl, Hu. lia.
Qed.

(** [Math.ceil(x / 86400000)] of a whole number [x] of milliseconds is the
    exact ceiling of the quotient: the rounding of the division never
    crosses a whole number.  Less than a day before, the result is -0. *)
Lemma ceil_div_by_day (x : Z) :
  0 < Z.abs x < 2 ^ 52 ->
  JSMath.ceil (JSNumber.div (JSNumber.ofZ x) (JSNumber.ofZ 86400000))
  = if (x <? 0) && (-86400000 <? x) then S754_zero true
    else JSNumber.ofZ (- ((- x) / 86400000)).
Proof.
  intros Hx.
  destruct (ofZ_whole x) as (m1 & e1 & -> & Hm1 & He1 & Hv1); [lia|].
  assert (He1' : e1 <= -1).
  { destruct (Z.eq_dec e1 0) as [-> | ]; [cbn in Hv1; lia | lia]. }
  destruct (div_by_day_near (x <? 0) m1 e1)
    as (m & e & -> & He & Hnear & Hexact); [lia | lia|].
  unfold JSMath.ceil.
  replace (0 <=? e) with false by (symmetry; apply Z.leb_gt; lia).
  rewrite Z.shiftr_div_pow2 by lia.
  rewrite Z.shiftl_mul_pow2 by lia.
  remember (Z.abs x) as a eqn:Ea.
  remember (2 ^ (- e)) as P eqn:EP.
  remember (2 ^ (e - (e1 - 27))) as K eqn:EK.
  remember (2 ^ (27 - e1)) as T eqn:ET.
  assert (HT : T = P * K)
    by (subst T P K; rewrite <- Z.pow_add_r by lia; f_equal; lia).
  assert (HT28 : 2 ^ 28 <= T) by (subst T; apply Z.pow_le_mono_r; lia).
  assert (HP : 0 < P) by (subst P; apply Z.pow_pos_nonneg; lia).
  assert (HK : 0 < K) by (subst K; apply Z.pow_pos_nonneg; lia).
  assert (HaT : Z.pos m1 * 2 ^ 27 = a * T).
  { rewrite Hv1. subst T. replace (27 - e1) with (- e1 + 27) by lia.
    rewrite Z.pow_add_r by lia. ring. }
  rewrite HaT in Hnear, Hexact.
  clear Hv1 HaT Hm1 EP EK ET.
  remember (a / 86400000) as n eqn:En.
  remember (a mod 86400000) as rho eqn:Erho.
  assert (Ha : a = 86400000 * n + rho /\ 0 <= rho < 86400000 /\ 0 <= n)
    by (subst n rho; Z.to_euclidean_division_equations; lia).
  destruct Ha as (Ha & Hrho & Hn).
  assert (Hcases : (rho = 0 /\ Z.pos m = n * P)
                   \/ (rho <> 0 /\ n * P < Z.pos m < (n + 1) * P)).
  { destruct (Z.eq_dec rho 0) as [H0 | H0]; [left | right];
      (split; [exact H0|]).
    - apply (Z.mul_reg_r _ _ K); [lia|].
      rewrite (Hexact (n * T)) by (rewrite Ha, H0; ring).
      rewrite HT. ring.
    - remember (a * T / 86400000) as q eqn:Eq.
      assert (Hq : 86400000 * q <= a * T < 86400000 * (q + 1))
        by (subst q; Z.to_euclidean_division_equations; lia).
      assert (HaT : a * T = 86400000 * (n * T) + rho * T)
        by (rewrite Ha; ring).
      assert (Hlo : T <= rho * T) by nia.
      assert (Hhi : rho * T <= 86399999 * T) by nia.
      assert (Hbetween : n * T < Z.pos m * K < (n + 1) * T) by lia.
      rewrite HT in Hbetween.
      split; apply (Z.mul_lt_mono_pos_r K); lia. }
  assert (Hwhole : Z.pos m / P = n).
  { symmetry. apply (Z.div_unique _ _ _ (Z.pos m - n * P)); lia. }
  rewrite Hwhole.
  assert (Htest : (n * P =? Z.pos m) = (rho =? 0)).
  { destruct Hcases as [[H0 Hm] | [H0 Hm]].
    - rewrite H0, Hm, Z.eqb_refl. reflexivity.
    - transitivity false; [apply Z.eqb_neq; lia|].
      symmetry. apply Z.eqb_neq. exact H0. }
  rewrite Htest.
  destruct (Z.ltb_spec x 0) as [Hneg | Hpos]; cbn [andb].
  - assert (Hax : a = - x) by lia.
    replace (- x / 86400000) with n by (rewrite <- Hax; exact En).
    destruct (Z.eqb_spec n 0) as [Hn0 | Hn0].
    + replace (-86400000 <? x) with true
        by (symmetry; apply Z.ltb_lt; lia).
      reflexivity.
    + replace (-86400000 <? x) with false
        by (symmetry; apply Z.ltb_ge; lia).
      reflexivity.
  - assert (Hax : a = x) by lia.
    destruct (Z.eqb_spec rho 0) as [H0 | H0]; f_equal;
      Z.to_euclidean_division_equations; lia.
Qed.

(** Two mantissas of 53 bits are ordered as the numbers they hold. *)
Lemma compare_magnitudes (m1 m2 : positive) (e1 e2 a b : Z) :
  2 ^ 52 <= Z.pos m1 < 2 ^ 53 -> 2 ^ 52 <= Z.pos m2 < 2 ^ 53 ->
  e1 <= 0 -> e2 <= 0 ->
  Z.pos m1 = a * 2 ^ (- e1) -> Z.pos m2 = b * 2 ^ (- e2) ->
  match e1 ?= e2 with
  | Lt => Lt
  | Gt => Gt
  | Eq => Pos.compare_cont Eq m1 m2
  end = (a ?= b).
Proof.
  intros Hm1 Hm2 He1 He2 Hv1 Hv2.
  assert (Hshift : forall (ma mb : positive) ea eb x y,
             2 ^ 52 <= Z.pos ma < 2 ^ 53 -> 2 ^ 52 <= Z.pos mb < 2 ^ 53 ->
             ea < eb -> eb <= 0 ->
             Z.pos ma = x * 2 ^ (- ea) -> Z.pos mb = y * 2 ^ (- eb) ->
             x < y).
  { intros ma mb ea eb x y Hma Hmb Hlt Heb Hx Hy.
    assert (Hsplit : 2 ^ (- ea) = 2 ^ (- eb) * 2 ^ (eb - ea))
      by (rewrite <- Z.pow_add_r by lia; f_equal; lia).
    assert (Hp : 0 < 2 ^ (- eb)) by (apply Z.pow_pos_nonneg; lia).
    assert (Hd : 2 ^ 1 <= 2 ^ (eb - ea)) by (apply Z.pow_le_mono_r; lia).
    rewrite Hsplit in Hx.
    remember (2 ^ (- eb)) as P. remember (2 ^ (eb - ea)) as Q.
    assert (0 < x) by nia. assert (0 < y) by nia.
    apply (Z.mul_lt_mono_pos_r P); [lia|].
    assert (x * P * 2 <= x * P * Q) by nia.
    nia. }
  destruct (Z.compare_spec e1 e2) as [E | E | E].
  - subst e2. change (Pos.compare_cont Eq m1 m2) with (Z.pos m1 ?= Z.pos m2).
    rewrite Hv1, Hv2. symmetry. apply Zmult_compare_compat_r.
    apply Z.lt_gt, Z.pow_pos_nonneg; lia.
  - symmetry. apply Z.compare_lt_iff.
    exact (Hshift m1 m2 e1 e2 a b Hm1 Hm2 E He2 Hv1 Hv2).
  - symmetry. apply Z.compare_gt_iff.
    exact (Hshift m2 m1 e2 e1 b a Hm2 Hm1 E He1 Hv2 Hv1).
Qed.

(** The order of two whole numbers below 2^53 in magnitude is the order of
    the binary64 numbers that hold them. *)
Lemma compare_ofZ (a b : Z) :
  Z.abs a < 2 ^ 53 -> Z.abs b < 2 ^ 53 ->
  SFcompare (JSNumber.ofZ a) (JSNumber.ofZ b) = Some (a ?= b).
Proof.
  intros Ha Hb.
  destruct (Z.eq_dec a 0) as [-> | Ha0]; destruct (Z.eq_dec b 0) as [-> | Hb0].
  - reflexivity.
  - destruct (ofZ_whole b) as (m & e & -> & _); [lia|].
    change (JSNumber.ofZ 0) with (S754_zero false). cbn [SFcompare].
    f_equal. destruct (Z.ltb_spec b 0); symmetry;
      [apply Z.compare_gt_iff | apply Z.compare_lt_iff]; lia.
  - destruct (ofZ_whole a) as (m & e & -> & _); [lia|].
    change (JSNumber.ofZ 0) with (S754_zero false). cbn [SFcompare].
    f_equal. destruct (Z.ltb_spec a 0); symmetry;
      [apply Z.compare_lt_iff | apply Z.compare_gt_iff]; lia.
  - destruct (ofZ_whole a) as (m1 & e1 & -> & Hm1 & He1 & Hv1); [lia|].
    destruct (ofZ_whole b) as (m2 & e2 & -> & Hm2 & He2 & Hv2); [lia|].
    cbn [SFcompare]. f_equal.
    destruct (Z.ltb_spec a 0) as [Hna | Hpa];
      destruct (Z.ltb_spec b 0) as [Hnb | Hpb].
    + transitivity (CompOpp (match e1 ?= e2 with
                             | Eq => Pos.compare_cont Eq m1 m2
                             | Lt => Lt
                             | Gt => Gt
                             end)); [destruct (e1 ?= e2); reflexivity|].
      rewrite (compare_magnitudes m1 m2 e1 e2 (Z.abs a) (Z.abs b))
        by (assumption || lia).
      rewrite <- Z.compare_antisym.
      replace (Z.abs a) with (- a) by lia.
      replace (Z.abs b) with (- b) by lia.
      apply Z.compare_opp.
    + symmetry. apply Z.compare_lt_iff. lia.
    + symmetry. apply Z.compare_gt_iff. lia.
    + rewrite (compare_magnitudes m1 m2 e1 e2 (Z.abs a) (Z.abs b))
        by (assumption || lia).
      f_equal; lia.
Qed.

Lemma strictEq_ofZ (a b : Z) :
  Z.abs a < 2 ^ 53 -> Z.abs b < 2 ^ 53 ->
  JSNumber.strictEq (JSNumber.ofZ a) (JSNumber.ofZ b) = (a =? b).
Proof.
  intros Ha Hb. unfold JSNumber.strictEq, SFeqb.
  rewrite compare_ofZ by assumption.
  rewrite Z.eqb_compare. reflexivity.
Qed.

Lemma gtb_ofZ (a b : Z) :
  Z.abs a < 2 ^ 53 -> Z.abs b < 2 ^ 53 ->
  JSNumber.gtb (JSNumber.ofZ a) (JSNumber.ofZ b) = (b <? a).
Proof.
  intros Ha Hb. unfold JSNumber.gtb, SFltb.
  rewrite compare_ofZ by assumption.
  unfold Z.ltb. reflexivity.
Qed.

Lemma wholeValue_ofZ (n : Z) :
  Z.abs n < 2 ^ 53 ->
  JSMath.wholeValue (JSNumber.ofZ n) = Some n
  /\ JSMath.wholeValue (JSMath.abs (JSNumber.ofZ n)) = Some (Z.abs n).
Proof.
  intros Hn. destruct (Z.eq_dec n 0) as [-> | Hn0]; [split; reflexivity|].
  destruct (ofZ_whole n) as (m & e & -> & Hm & He & Hv); [lia|].
  assert (Hmag : (if 0 <=? e then Z.shiftl (Z.pos m) e
                  else Z.shiftr (Z.pos m) (- e)) = Z.abs n).
  { destruct (Z.leb_spec 0 e) as [H0 | H0].
    - replace e with 0 in * by lia. cbn in Hv. cbn [Z.shiftl]. lia.
    - rewrite Z.shiftr_div_pow2 by lia. rewrite Hv.
      apply Z.div_mul. apply Z.pow_nonzero; lia. }
  unfold JSMath.abs, SFabs, JSMath.wholeValue. rewrite Hmag.
  split; [ | reflexivity].
  f_equal. destruct (Z.ltb_spec n 0); lia.
Qed.

Lemma toString_ofZ (n : Z) :
  Z.abs n < 2 ^ 53 ->
  JSMath.toString (JSNumber.ofZ n)
  = (if n <? 0 then JSString.lit "-" else []) ++ JSMath.decimalDigits 21 (Z.abs n).
Proof.
  intros Hn. unfold JSMath.toString.
  destruct (wholeValue_ofZ n Hn) as [-> _]. reflexivity.
Qed.

Lemma toString_abs_ofZ (n : Z) :
  Z.abs n < 2 ^ 53 ->
  JSMath.toString (JSMath.abs (JSNumber.ofZ n))
  = JSMath.decimalDigits 21 (Z.abs n).
Proof.
  intros Hn. unfold JSMath.toString.
  destruct (wholeValue_ofZ n Hn) as [_ ->].
  replace (Z.abs n <? 0) with false by (symmetry; apply Z.ltb_ge; lia).
  replace (Z.abs (Z.abs n)) with (Z.abs n) by lia. reflexivity.
Qed.

(** The number of days that [formatDate] computes. *)
Lemma diffDays_value (now tv : Z) :
  Z.abs (tv - now) < 2 ^ 52 ->
  TaskDetailsDates.diffDays now (JSDate.TimeValue tv)
  = if (tv <? now) && (now - 86400000 <? tv) then S754_zero true
    else JSNumber.ofZ (TaskDetailsDates.daysAhead now tv).
Proof.
  intros Hx. unfold TaskDetailsDates.diffDays, TaskDetailsDates.diffTime,
    TaskDetailsDates.daysAhead, JSDate.msPerDay.
  change (1000 * 60 * 60 * 24) with 86400000.
  destruct (Z.eq_dec (tv - now) 0) as [E | E].
  - rewrite E. replace (now - tv) with 0 by lia.
    replace (tv <? now) with false by (symmetry; apply Z.ltb_ge; lia).
    reflexivity.
  - rewrite ceil_div_by_day by lia.
    replace (tv - now <? 0) with (tv <? now)
      by (destruct (Z.ltb_spec tv now), (Z.ltb_spec (tv - now) 0); lia).
    replace (-86400000 <? tv - now) with (now - 86400000 <? tv)
      by (destruct (Z.ltb_spec (now - 86400000) tv),
                   (Z.ltb_spec (-86400000) (tv - now)); lia).
    replace (- (tv - now)) with (now - tv) by lia.
    reflexivity.
Qed.

(** ** The date of the details page and its distance in days *)

Lemma diffDays_within_a_day (now tv : Z) :
  0 < tv - now <= 86400000 ->
  TaskDetailsDates.diffDays now (JSDate.TimeValue tv) = JSNumber.ofZ 1.
Proof.
  intros Hx. rewrite diffDays_value by lia.
  replace (tv <? now) with false by (symmetry; apply Z.ltb_ge; lia).
  cbn [andb]. f_equal.
  unfold TaskDetailsDates.daysAhead, JSDate.msPerDay.
  Z.to_euclidean_division_equations. lia.
Qed.

Lemma diffDays_within_the_last_day (now tv : Z) :
  -86400000 < tv - now <= 0 ->
  JSNumber.strictEq (TaskDetailsDates.diffDays now (JSDate.TimeValue tv))
    (JSNumber.ofZ 0) = true.
Proof.
  intros Hx. rewrite diffDays_value by lia.
  destruct (Z.ltb_spec tv now) as [Hlt | Hge]; cbn [andb].
  - replace (now - 86400000 <? tv) with true
      by (symmetry; apply Z.ltb_lt; lia).
    reflexivity.
  - replace (TaskDetailsDates.daysAhead now tv) with 0; [reflexivity|].
    unfold TaskDetailsDates.daysAhead, JSDate.msPerDay.
    Z.to_euclidean_division_equations. lia.
Qed.

Example date_text_of_the_invalid_date (now : Z) (formattedDate : jsstring) :
  TaskDetailsDates.formatDate now formattedDate JSDate.Invalid
  = formattedDate ++ JSString.lit " (NaN days ago)".
Proof. reflexivity. Qed.

(** X27: for a date less than 2^52 milliseconds from now, [formatDate]
    appends to the formatted date the distance in whole days, rounded up:
    the division and [Math.ceil] in binary64 give the exact ceiling, so the
    text is Today for 0, Tomorrow for 1, Yesterday for -1, "in n days" for
    larger distances and "n days ago" for smaller ones. *)
Theorem date_text_by_whole_days (now tv : Z) (formattedDate : jsstring) :
  Z.abs (tv - now) < 2 ^ 52 ->
  TaskDetailsDates.formatDate now formattedDate (JSDate.TimeValue tv)
  = formattedDate
    ++ TaskDetailsDates.relativeText (TaskDetailsDates.daysAhead now tv).
Proof.
  intros Hx. unfold TaskDetailsDates.formatDate. cbv zeta.
  rewrite diffDays_value by exact Hx.
  assert (Hn : Z.abs (TaskDetailsDates.daysAhead now tv) < 2 ^ 53).
  { unfold TaskDetailsDates.daysAhead, JSDate.msPerDay.
    Z.to_euclidean_division_equations. lia. }
  destruct ((tv <? now) && (now - 86400000 <? tv)) eqn:Hlast.
  - apply andb_true_iff in Hlast. destruct Hlast as [H1 H2].
    apply Z.ltb_lt in H1, H2.
    replace (TaskDetailsDates.daysAhead now tv) with 0
      by (unfold TaskDetailsDates.daysAhead, JSDate.msPerDay;
          Z.to_euclidean_division_equations; lia).
    reflexivity.
  - remember (TaskDetailsDates.daysAhead now tv) as n eqn:En.
    rewrite !strictEq_ofZ, gtb_ofZ by (cbn; lia).
    unfold TaskDetailsDates.relativeText.
    destruct (n =? 0); [reflexivity|].
    destruct (n =? 1); [reflexivity|].
    destruct (n =? -1); [reflexivity|].
    destruct (Z.ltb_spec 0 n) as [Hpos | Hneg].
    + rewrite toString_ofZ by exact Hn.
      replace (n <? 0) with false by (symmetry; apply Z.ltb_ge; lia).
      replace (Z.abs n) with n by lia. reflexivity.
    + rewrite toString_abs_ofZ by exact Hn.
      replace (Z.abs n) with (- n) by lia. reflexivity.
Qed.

Lemma date_text_by_whole_days_witness :
  TaskDetailsDates.formatDate sampleNow
    (JSString.lit "Saturday, November 14, 2026")
    (JSDate.TimeValue (sampleNow + 12 * 86400000 - 5))
  = JSString.lit "Saturday, November 14, 2026 (in 12 days)".
Proof.
  refine (date_text_by_whole_days sampleNow (sampleNow + 12 * 86400000 - 5)
            (JSString.lit "Saturday, November 14, 2026") _).
  vm_compute. reflexivity.
Defined.

(** X28: the days are counted in spans of 24 hours from the present
    instant, not by the calendar: a date up to 24 hours ahead, later today
    included, reads Tomorrow; the present instant and the 24 hours before
    it read Today, and the 24 hours before those read Yesterday. *)
Theorem date_text_of_the_nearest_days
    (now tv : Z) (formattedDate : jsstring) :
  - 2 * JSDate.msPerDay < tv - now <= JSDate.msPerDay ->
  TaskDetailsDates.formatDate now formattedDate (JSDate.TimeValue tv)
  = formattedDate
    ++ (if 0 <? tv - now then JSString.lit " (Tomorrow)"
        else if - JSDate.msPerDay <? tv - now then JSString.lit " (Today)"
        else JSString.lit " (Yesterday)").
Proof.
  unfold JSDate.msPerDay. cbn [Z.opp]. intros Hx.
  unfold TaskDetailsDates.formatDate. cbv zeta.
  destruct (Z.ltb_spec 0 (tv - now)) as [Hpos | Hnonpos].
  - rewrite diffDays_within_a_day by lia. reflexivity.
  - destruct (Z.ltb_spec (-86400000) (tv - now)) as [Hday | Hold].
    + rewrite diffDays_within_the_last_day by lia. reflexivity.
    + rewrite diffDays_value by lia.
      replace (now - 86400000 <? tv) with false
        by (symmetry; apply Z.ltb_ge; lia).
      rewrite andb_false_r.
      replace (TaskDetailsDates.daysAhead now tv) with (-1); [reflexivity|].
      unfold TaskDetailsDates.daysAhead, JSDate.msPerDay.
      Z.to_euclidean_division_equations. lia.
Qed.

Lemma date_text_of_the_nearest_days_witness :
  TaskDetailsDates.formatDate sampleNow
    (JSString.lit "Monday, November 2, 2026")
    (JSDate.TimeValue (sampleNow + 3600000))
  = JSString.lit "Monday, November 2, 2026 (Tomorrow)".
Proof.
  refine (date_text_of_the_nearest_days sampleNow (sampleNow + 3600000)
            (JSString.lit "Monday, November 2, 2026") _).
  vm_compute. split; [reflexivity | discriminate].
Defined.

(** X29: the details of a task that the dialog built for the date y-m-d,
    opened on that day less than 24 hours after the task was created.  The
    creation date reads Today.  The deadline is 23:59:59 of that day at
    the offset of local time in force then, so it lies 86 399 000 ms less
    the time of day ahead, plus what the offset loses until then.  It
    reads Tomorrow when that is more than 0 and at most 24 hours, as
    before 23:59:59 of every day on which the offset does not change, and
    "in 2 days" when it is more than 24 hours, as in the first hour of the
    day on which the clock is set back by an hour. *)
Theorem details_of_a_task_added_for_today
    (tzNow tzEnd now now' : Z) (uuid : UUID) (st : AddTask.FormState)
    (y m d : Z) (createdText deadlineText : jsstring) :
  JSDate.parseDatePart (AddTask.deadline st) = Some (y, m, d, []) ->
  now <= now' < now + JSDate.msPerDay ->
  Calendar.localDay tzNow now' = JSDate.MakeDay y (m - 1) d ->
  let t := AddTask.newTask tzEnd now uuid st in
  let ahead :=
    86399000 - JSDate.TimeWithinDay (JSDate.LocalTime tzNow now')
    + (tzNow - tzEnd) in
  TaskDetailsDates.formatDate now' createdText (date t)
  = createdText ++ JSString.lit " (Today)"
  /\ deadline t = Some (JSDate.TimeValue (now' + ahead))
  /\ (0 < ahead <= JSDate.msPerDay ->
      option_map (TaskDetailsDates.formatDate now' deadlineText) (deadline t)
      = Some (deadlineText ++ JSString.lit " (Tomorrow)"))
  /\ (JSDate.msPerDay < ahead <= 2 * JSDate.msPerDay ->
      option_map (TaskDetailsDates.formatDate now' deadlineText) (deadline t)
      = Some (deadlineText ++ JSString.lit " (in 2 days)"))
  /\ (tzNow = tzEnd ->
      JSDate.TimeWithinDay (JSDate.LocalTime tzNow now') < 86399000 ->
      0 < ahead <= JSDate.msPerDay).
Proof.
  intros Hp Hnow Hday t ahead.
  assert (Hdl : deadline t = Some (JSDate.TimeValue (now' + ahead))).
  { subst t ahead. rewrite (newTask_deadline tzEnd now uuid st y m d Hp).
    do 2 f_equal.
    unfold Rules.endOfChosenDay, Calendar.localDay, JSDate.TimeWithinDay,
      JSDate.LocalTime, JSDate.UTC, JSDate.MakeDate, JSDate.MakeTime,
      JSDate.Day, JSDate.msPerDay, JSDate.msPerHour, JSDate.msPerMinute,
      JSDate.msPerSecond in *.
    rewrite <- Hday. Z.to_euclidean_division_equations. lia. }
  split; [ | split; [exact Hdl | split; [ | split]]].
  - subst t. cbn [AddTask.newTask date].
    unfold TaskDetailsDates.formatDate. cbv zeta.
    rewrite diffDays_within_the_last_day
      by (unfold JSDate.msPerDay in Hnow; lia).
    reflexivity.
  - intros Hahead. rewrite Hdl. cbn [option_map]. f_equal.
    unfold TaskDetailsDates.formatDate. cbv zeta.
    rewrite diffDays_within_a_day
      by (unfold JSDate.msPerDay in Hahead; lia).
    reflexivity.
  - intros Hahead. rewrite Hdl. cbn [option_map]. f_equal.
    unfold TaskDetailsDates.formatDate. cbv zeta.
    unfold JSDate.msPerDay in Hahead.
    rewrite diffDays_value by lia.
    replace (now' + ahead <? now') with false
      by (symmetry; apply Z.ltb_ge; lia).
    cbn [andb].
    replace (TaskDetailsDates.daysAhead now' (now' + ahead)) with 2;
      [reflexivity|].
    unfold TaskDetailsDates.daysAhead, JSDate.msPerDay.
    Z.to_euclidean_division_equations. lia.
  - intros Htz Hlast. subst ahead.
    unfold JSDate.TimeWithinDay, JSDate.msPerDay in *.
    Z.to_euclidean_division_equations. lia.
Qed.

Lemma details_of_a_task_added_for_today_witness :
  let st := {| AddTask.open := true; AddTask.name := JSString.lit "Pay rent";
               AddTask.description := JSString.lit "";
               AddTask.deadline := JSString.lit "2026-10-25";
               AddTask.priority := High; AddTask.error := JSString.lit "" |} in
  let t := AddTask.newTask 3600000 1792879800000 (JSString.lit "id") st in
  TaskDetailsDates.formatDate 1792880400000
    (JSString.lit "Sunday, October 25, 2026") (date t)
  = JSString.lit "Sunday, October 25, 2026 (Today)"
  /\ deadline t = Some (JSDate.TimeValue (1792880400000 + 88799000))
  /\ option_map
       (TaskDetailsDates.formatDate 1792880400000
          (JSString.lit "Sunday, October 25, 2026")) (deadline t)
     = Some (JSString.lit "Sunday, October 25, 2026 (in 2 days)").
Proof.
  intros st.
  destruct (details_of_a_task_added_for_today 7200000 3600000
              1792879800000 1792880400000 (JSString.lit "id") st 2026 10 25
              (JSString.lit "Sunday, October 25, 2026")
              (JSString.lit "Sunday, October 25, 2026") eq_refl)
    as (Hcreated & Hdeadline & _ & Hlate & _).
  - vm_compute. split; [discriminate | reflexivity].
  - reflexivity.
  - split; [exact Hcreated | split; [exact Hdeadline|]].
    apply Hlate. vm_compute. split; [reflexivity | discriminate].
Defined.

(** On a day without change of the clock, at noon in UTC, the same details
    read Today and Tomorrow. *)
Example details_of_a_task_added_at_noon :
  let st := {| AddTask.open := true; AddTask.name := JSString.lit "Pay rent";
               AddTask.description := JSString.lit "";
               AddTask.deadline := JSString.lit "2026-11-02";
               AddTask.priority := High; AddTask.error := JSString.lit "" |} in
  let t := AddTask.newTask 0 sampleNow (JSString.lit "id") st in
  TaskDetailsDates.formatDate (sampleNow + 60000)
    (JSString.lit "Monday, November 2, 2026") (date t)
  = JSString.lit "Monday, November 2, 2026 (Today)"
  /\ option_map
       (TaskDetailsDates.formatDate (sampleNow + 60000)
          (JSString.lit "Monday, November 2, 2026")) (deadline t)
     = Some (JSString.lit "Monday, November 2, 2026 (Tomorrow)").
Proof. vm_compute. split; reflexivity. Qed.
